(** * Continuum: supply-chain risk pipeline

    A shallow embedding of the agents of the Continuum repository
    (graph construction, risk scoring, what-if simulation, decision
    synthesis) together with the properties stated about them.

    Conventions of the embedding.
    - Python floats are represented by exact rationals ([Q]); numeric
      equality is [==].  [round(x, n)] is round-half-to-even on the exact
      value, which is what CPython computes for the exact binary value.
    - Text is a [string] of ASCII characters; [str.lower], [str.strip] and
      the regular-expression classes are the ASCII ones.
    - Python dictionaries received from outside (graph node attributes)
      are [gmap string pyval]; dictionaries whose shape is fixed by the
      code that builds them (risk records, scenarios, decisions) are
      records, absent keys being [option] fields.
    - networkx graphs are objects on a heap: a graph holds references to
      its node-attribute dictionaries, and [copy] allocates fresh ones.
    - Exceptions are values of [exn]; code that can raise returns
      [result]; code that also mutates objects threads the heap. *)

From Stdlib Require Import QArith Qround Lqa ZArith String Ascii List Permutation Sorted.
From stdpp Require Import gmap strings list fin_maps sorting relations.

Open Scope Q_scope.

Set Warnings "-clear-no-such-hyp".

(* ================================================================== *)
(** * Python values, exceptions *)
(* ================================================================== *)

Inductive exn : Type :=
  | KeyError
  | TypeError
  | AttributeError
  | ValueError
  | NetworkXError
  | NetworkXNoPath
  | NodeNotFound.

#[global] Instance exn_eq_dec : EqDecision exn.
Proof. solve_decision. Defined.

Inductive result (A : Type) : Type :=
  | Ok (a : A)
  | Raise (e : exn).
Arguments Ok {A} a.
Arguments Raise {A} e.

#[global] Instance result_ret : MRet result := fun A a => Ok a.
#[global] Instance result_bind : MBind result := fun A B k r =>
  match r with
  | Ok a => k a
  | Raise e => Raise e
  end.

Inductive pyval : Type :=
  | PyStr (s : string)
  | PyNum (q : Q).

(** A Python [dict] with string keys. *)
Abbreviation pydict := (gmap string pyval).

Definition str_key (v : pyval) : option string :=
  match v with
  | PyStr s => Some s
  | PyNum _ => None
  end.

(* ================================================================== *)
(** * Numbers *)
(* ================================================================== *)

Module Num.

Definition Qltb (a b : Q) : bool := negb (Qle_bool b a).
Definition Qgeb (a b : Q) : bool := Qle_bool b a.

(** [min(a, b)]: the first argument unless the second is smaller. *)
Definition py_min (a b : Q) : Q := if Qltb b a then b else a.

(** [max(a, b)]: the first argument unless the second is larger. *)
Definition py_max (a b : Q) : Q := if Qltb a b then b else a.

(** [round(x)]: nearest integer, ties to the even one. *)
Definition round_half_even (q : Q) : Z :=
  let f := Qfloor q in
  match Qcompare (q - inject_Z f) (1 # 2) with
  | Lt => f
  | Gt => (f + 1)%Z
  | Eq => if Z.even f then f else (f + 1)%Z
  end.

(** [round(x, ndigits)]. *)
Definition py_round (q : Q) (ndigits : nat) : Q :=
  let p := inject_Z (10 ^ Z.of_nat ndigits) in
  inject_Z (round_half_even (q * p)) / p.

Definition sumQ (l : list Q) : Q := fold_left Qplus l 0.

(** A value with at most [n] decimals. *)
Definition has_decimals (n : nat) (q : Q) : Prop :=
  exists z : Z, q == inject_Z z / inject_Z (10 ^ Z.of_nat n).

End Num.

(* ================================================================== *)
(** * Text: the string operations and the regular expressions used *)
(* ================================================================== *)

Module Text.

Definition between (lo hi : nat) (c : ascii) : bool :=
  let n := nat_of_ascii c in (lo <=? n)%nat && (n <=? hi)%nat.

Definition lower_char (c : ascii) : ascii :=
  if between 65 90 c then ascii_of_nat (nat_of_ascii c + 32) else c.

(** [s.lower()] *)
Fixpoint lower (s : string) : string :=
  match s with
  | EmptyString => EmptyString
  | String c s' => String (lower_char c) (lower s')
  end.

Definition is_space (c : ascii) : bool :=
  between 9 13 c || between 28 32 c.

Fixpoint lstrip (s : string) : string :=
  match s with
  | EmptyString => EmptyString
  | String c s' => if is_space c then lstrip s' else s
  end.

Fixpoint rstrip (s : string) : string :=
  match s with
  | EmptyString => EmptyString
  | String c s' =>
      match rstrip s' with
      | EmptyString => if is_space c then EmptyString else String c EmptyString
      | r => String c r
      end
  end.

(** [s.strip()] *)
Definition strip (s : string) : string := rstrip (lstrip s).

(** The class [\w]. *)
Definition is_word_char (c : ascii) : bool :=
  between 97 122 c || between 65 90 c || between 48 57 c
  || (nat_of_ascii c =? 95)%nat.

Definition word_opt (c : option ascii) : bool :=
  match c with
  | Some c => is_word_char c
  | None => false
  end.

(** [\b] between two neighbouring positions. *)
Definition boundary (before after : option ascii) : bool :=
  xorb (word_opt before) (word_opt after).

Definition head (s : string) : option ascii :=
  match s with
  | EmptyString => None
  | String c _ => Some c
  end.

(** One alternative of a pattern: a literal, optionally anchored by
    [\b] on either side. *)
Record alt : Type := Alt { lb : bool; lit : string; rb : bool }.

(** [match_lit prev lit s] consumes [lit] at the head of [s]; it returns
    the character before the end of the match and the rest of [s]. *)
Fixpoint match_lit (prev : option ascii) (l s : string)
  : option (option ascii * string) :=
  match l with
  | EmptyString => Some (prev, s)
  | String c l' =>
      match s with
      | EmptyString => None
      | String d s' =>
          if Ascii.eqb c d then match_lit (Some d) l' s' else None
      end
  end.

Definition match_alt (prev : option ascii) (s : string) (a : alt) : bool :=
  (if lb a then boundary prev (head s) else true)
  && match match_lit prev (lit a) s with
     | Some (last, rest) => if rb a then boundary last (head rest) else true
     | None => false
     end.

Fixpoint search_from (prev : option ascii) (s : string) (p : list alt) : bool :=
  existsb (match_alt prev s) p
  || match s with
     | EmptyString => false
     | String c s' => search_from (Some c) s' p
     end.

(** [re.search(p, s) is not None] for an alternation [p]. *)
Definition re_search (p : list alt) (s : string) : bool := search_from None s p.

(** [r'\b' + re.escape(word) + r'\b'] *)
Definition whole_word (w : string) : list alt := [Alt true w true].

End Text.

(* ================================================================== *)
(** * agents/risk_agent.py *)
(* ================================================================== *)

(** A news item as the risk agent reads it; a key the dictionary may lack
    is an [option] field. *)
Module News.
Record t : Type := Item {
  title : option string;
  summary : option string;
  relevance_score : option Q;
  url : option string
}.
End News.

Module RiskAgent.

Definition RISK_PATTERNS : list (string * list string) :=
  [ ("geopolitical", ["tariff"; "sanction"; "trade war"; "embargo"; "ban"; "restriction"]);
    ("disaster", ["earthquake"; "flood"; "typhoon"; "hurricane"; "drought"; "storm"; "weather"]);
    ("strike", ["strike"; "protest"; "labor dispute"; "shutdown"; "walkout"]);
    ("outage", ["power outage"; "blackout"; "fire"; "explosion"; "cyberattack"; "hack"]);
    ("shortage", ["shortage"; "supply constraint"; "capacity reduction"; "delay"; "backlog"]) ]%string.

Definition COUNTRY_RISK_BASE : gmap string Q :=
  list_to_map
    [ ("China", 0.75); ("Taiwan", 0.85); ("Brazil", 0.45);
      ("Sweden", 0.15); ("Germany", 0.20) ]%string.

Definition MATERIAL_SENSITIVITY : gmap string (list string) :=
  list_to_map
    [ ("Semiconductors", ["outage"; "geopolitical"; "shortage"; "cyberattack"]);
      ("Steel", ["tariff"; "geopolitical"; "strike"; "shortage"]);
      ("Paper pulp", ["strike"; "disaster"]);
      ("Nuts & oils", ["disaster"; "shortage"]);
      ("Precision bearings", ["outage"; "shortage"]) ]%string.

(** The set [detected], listed in the order of [RISK_PATTERNS]; a Python
    set has no duplicates and no specified order, and the callers only
    test membership and add per element. *)
Definition detected_types (text_lower : string) : list string :=
  flat_map
    (fun '(rtype, words) =>
       if existsb (fun word => Text.re_search (Text.whole_word word) text_lower) words
       then [rtype] else [])
    RISK_PATTERNS.

Definition extract_risk_types (text : string) : list string :=
  let text_lower := Text.lower text in
  match detected_types text_lower with
  | [] => ["general"%string]
  | detected => detected
  end.

Record entities : Type := Entities {
  countries : list string;
  materials : list string
}.

Definition country_patterns : list (string * list Text.alt) :=
  [ ("China", [Text.Alt true "china" true; Text.Alt true "chinese" true]);
    ("Taiwan", [Text.Alt true "taiwan" true]);
    ("Brazil", [Text.Alt true "brazil" true; Text.Alt true "brasil" true]);
    ("Sweden", [Text.Alt true "sweden" true; Text.Alt true "swedish" true]);
    ("Germany", [Text.Alt true "germany" true; Text.Alt true "german" true]) ]%string.

Definition material_patterns : list (string * list Text.alt) :=
  [ ("Semiconductors",
      [Text.Alt true "semiconductor" false; Text.Alt false "chip" false;
       Text.Alt false "semicon" false]);
    ("Steel", [Text.Alt true "steel" false; Text.Alt false "iron" false]);
    ("Paper pulp", [Text.Alt true "pulp" false; Text.Alt false "paper" false]);
    ("Nuts & oils",
      [Text.Alt true "nuts" false; Text.Alt false "oils" false;
       Text.Alt false "oil" false]);
    ("Precision bearings",
      [Text.Alt true "bearing" false; Text.Alt false "bearings" false]) ]%string.

Definition matching (table : list (string * list Text.alt)) (text_lower : string)
  : list string :=
  flat_map
    (fun '(name, pattern) =>
       if Text.re_search pattern text_lower then [name] else [])
    table.

Definition extract_entities (text : string) : entities :=
  let text_lower := Text.lower text in
  {| countries := matching country_patterns text_lower;
     materials := matching material_patterns text_lower |}.

(** [material in MATERIAL_SENSITIVITY and rtype in MATERIAL_SENSITIVITY[material]] *)
Definition sensitive (material : pyval) (rtype : string) : bool :=
  match str_key material with
  | Some m =>
      match MATERIAL_SENSITIVITY !! m with
      | Some types => bool_decide (rtype ∈ types)
      | None => false
      end
  | None => false
  end.

(** The loop over [risk_types] of [score_risk]: [base] after it. *)
Definition add_material_bonus (base : Q) (material : pyval) (risk_types : list string) : Q :=
  fold_left
    (fun base rtype => if sensitive material rtype then base + 0.25 else base)
    risk_types base.

(** [x in l] for a value [x] and a list of strings [l]. *)
Definition val_in (v : pyval) (l : list string) : bool :=
  match str_key v with
  | Some s => bool_decide (s ∈ l)
  | None => false
  end.

(** [node_data.get("country", "").strip()] *)
Definition country_of (node_data : pydict) : result string :=
  match default (PyStr "") (node_data !! "country"%string) with
  | PyStr s => Ok (Text.strip s)
  | PyNum _ => Raise AttributeError
  end.

Definition full_text_of (news : News.t) : string :=
  Text.lower (default ""%string (News.title news) ++ " " ++ default ""%string (News.summary news))%string.

(** The value of [base] when the rounding step of [score_risk] is
    reached. *)
Definition raw_score (news : News.t) (country : string) (material : pyval) : Q :=
  let base := 0.0 in
  let base := base + default 0.3 (COUNTRY_RISK_BASE !! country) in
  let full_text := full_text_of news in
  let risk_types := extract_risk_types full_text in
  let base := add_material_bonus base material risk_types in
  let base := base + default 0.5 (News.relevance_score news) * 0.3 in
  let ents := extract_entities full_text in
  let base := if bool_decide (country ∈ countries ents) then base + 0.15 else base in
  let base := if val_in material (materials ents) then base + 0.20 else base in
  base.

Definition score_risk (news : News.t) (node_data : pydict) : result Q :=
  country ← country_of node_data;
  let material := default (PyStr "") (node_data !! "material"%string) in
  let base := raw_score news country material in
  let final_score := Num.py_min (Num.py_round base 2) 1.0 in
  (* the debug message slices [news_item.get('title')] *)
  if Num.Qltb 0.7 final_score
  then match News.title news with
       | Some _ => Ok final_score
       | None => Raise TypeError
       end
  else Ok final_score.

(** What the loop over [risk_types] adds to [base] for this node and
    news item: the material-category bonus. *)
Definition material_category_bonus (news : News.t) (node_data : pydict) : Q :=
  add_material_bonus 0
    (default (PyStr "") (node_data !! "material"%string))
    (extract_risk_types (full_text_of news)).

(** The extracted categories that are in the material's sensitivity set. *)
Definition sensitive_types (news : News.t) (node_data : pydict) : list string :=
  List.filter
    (sensitive (default (PyStr "") (node_data !! "material"%string)))
    (extract_risk_types (full_text_of news)).

End RiskAgent.

(* ================================================================== *)
(** * Objects: the heap, and the networkx operations the agents call *)
(* ================================================================== *)

(** A [networkx.DiGraph].  [node_ref] is the dictionary [_node]: it maps a
    node to (a reference to) its attribute dictionary, the object that
    [G.nodes[n]] returns.  [succ] is [_succ]: the successors of each node
    with the attributes of the edge; no code of the repository updates an
    edge dictionary in place, so they are kept by value.  ([_pred] mirrors
    [_succ] and is not kept.) *)
Record DiGraph : Type := MkDiGraph {
  node_ref : gmap string nat;
  succ : gmap string (gmap string pydict)
}.

#[global] Instance DiGraph_inhabited : Inhabited DiGraph :=
  populate (MkDiGraph ∅ ∅).

(** The program state: the two object heaps, the entry
    ["supply_chain_graph"] of the shared memory store, and the field [G]
    of the simulation agent. *)
Record state : Type := State {
  dicts : list pydict;
  graphs : list DiGraph;
  memory_graph : option nat;
  sim_agent_G : option nat
}.

Definition set_dicts (ds : list pydict) (st : state) : state :=
  State ds (graphs st) (memory_graph st) (sim_agent_G st).
Definition set_graphs (gs : list DiGraph) (st : state) : state :=
  State (dicts st) gs (memory_graph st) (sim_agent_G st).
Definition set_memory_graph (r : option nat) (st : state) : state :=
  State (dicts st) (graphs st) r (sim_agent_G st).
Definition set_sim_agent_G (r : option nat) (st : state) : state :=
  State (dicts st) (graphs st) (memory_graph st) r.

(** Computations that may raise and that mutate objects. *)
Definition M (A : Type) : Type := state -> result A * state.

#[global] Instance M_ret : MRet M := fun A a st => (Ok a, st).
#[global] Instance M_bind : MBind M := fun A B k m st =>
  match m st with
  | (Ok a, st') => k a st'
  | (Raise e, st') => (Raise e, st')
  end.

Definition raise {A} (e : exn) : M A := fun st => (Raise e, st).
Definition get_state : M state := fun st => (Ok st, st).
Definition modify (f : state -> state) : M unit := fun st => (Ok tt, f st).
Definition lift {A} (r : result A) : M A := fun st => (r, st).

(** [try: m  except e: h] *)
Definition try_except {A} (m : M A) (e : exn) (h : M A) : M A := fun st =>
  match m st with
  | (Raise e', st') => if decide (e' = e) then h st' else (Raise e', st')
  | r => r
  end.

(** The outcome of a computation from a state satisfies [Q]. *)
Definition wp {A} (m : M A) (Q : result A -> state -> Prop) (st : state) : Prop :=
  Q (m st).1 (m st).2.

(** The operations of networkx that the agents call, as the library
    documents them.  References are indices into the heaps; a reference
    that points outside reads as the empty graph or the empty dictionary,
    which no state reached by the program contains ([Spec.graph_ok]). *)
Module Nx.

Definition graph_at (g : nat) (st : state) : DiGraph := graphs st !!! g.
Definition dict_at (r : nat) (st : state) : pydict := default ∅ (dicts st !! r).

Definition put_graph (g : nat) (G : DiGraph) : M unit :=
  modify (fun st => set_graphs (<[g := G]> (graphs st)) st).

(** Allocation of a new dictionary object. *)
Definition alloc_dict (d : pydict) : M nat := fun st =>
  (Ok (length (dicts st)), set_dicts (dicts st ++ [d]) st).

(** [nx.DiGraph()] *)
Definition new_graph : M nat := fun st =>
  (Ok (length (graphs st)), set_graphs (graphs st ++ [MkDiGraph ∅ ∅]) st).

(** [n in G] *)
Definition has_node (G : DiGraph) (n : string) : bool :=
  bool_decide (is_Some (node_ref G !! n)).

(** [d.update(attr)]: the keys of [attr] win. *)
Definition dict_update (attr : pydict) (r : nat) : M unit :=
  modify (fun st => set_dicts (<[r := attr ∪ dict_at r st]> (dicts st)) st).

(** [G.add_node(n, **attr)] *)
Definition add_node (g : nat) (n : string) (attr : pydict) : M unit :=
  st ← get_state;
  let G := graph_at g st in
  match node_ref G !! n with
  | None =>
      r ← alloc_dict ∅;
      _ ← put_graph g (MkDiGraph (<[n := r]> (node_ref G)) (<[n := ∅]> (succ G)));
      dict_update attr r
  | Some r => dict_update attr r
  end.

(** [G.add_edge(u, v, **attr)] *)
Definition add_edge (g : nat) (u v : string) (attr : pydict) : M unit :=
  _ ← add_node g u ∅;
  _ ← add_node g v ∅;
  st ← get_state;
  let G := graph_at g st in
  let nbrs := default ∅ (succ G !! u) in
  let datadict := attr ∪ default ∅ (nbrs !! v) in
  put_graph g (MkDiGraph (node_ref G) (<[u := <[v := datadict]> nbrs]> (succ G))).

Definition number_of_nodes (G : DiGraph) : nat := size (node_ref G).

Definition number_of_edges (G : DiGraph) : nat :=
  map_fold (fun _ (nbrs : gmap string pydict) acc => (size nbrs + acc)%nat) 0%nat (succ G).

(** The copy of the node dictionaries made by [G.copy()]: one new
    dictionary object per node, with the same items. *)
Fixpoint copy_nodes (l : list (string * nat)) (ds : list pydict) (acc : gmap string nat)
  : list pydict * gmap string nat :=
  match l with
  | [] => (ds, acc)
  | (n, r) :: l' =>
      copy_nodes l' (ds ++ [default ∅ (ds !! r)]) (<[n := length ds]> acc)
  end.

(** [G.copy()] *)
Definition copy (g : nat) : M nat := fun st =>
  let G := graph_at g st in
  let '(ds, nodes) := copy_nodes (map_to_list (node_ref G)) (dicts st) ∅ in
  let G' := MkDiGraph nodes (succ G) in
  (Ok (length (graphs st)),
   set_graphs (graphs st ++ [G']) (set_dicts ds st)).

Definition remove_node_from (G : DiGraph) (n : string) : DiGraph :=
  MkDiGraph (delete n (node_ref G)) (delete n <$> delete n (succ G)).

(** [G.remove_node(n)] *)
Definition remove_node (g : nat) (n : string) : M unit :=
  st ← get_state;
  let G := graph_at g st in
  if has_node G n then put_graph g (remove_node_from G n)
  else raise NetworkXError.

(** [G.nodes[n]]: the attribute dictionary object of [n]. *)
Definition nodes_getitem (g : nat) (n : string) : M nat :=
  st ← get_state;
  match node_ref (graph_at g st) !! n with
  | Some r => mret r
  | None => raise KeyError
  end.

Definition successors (G : DiGraph) (n : string) : gset string :=
  dom (default ∅ (succ G !! n)).

(** Breadth-first search by levels: [seen] maps every node found so far
    to its hop count, [frontier] is the last level found. *)
Fixpoint bfs (G : DiGraph) (fuel : nat) (depth : nat)
    (frontier : gset string) (seen : gmap string nat) : gmap string nat :=
  match fuel with
  | O => seen
  | S fuel' =>
      let next := set_bind (successors G) frontier ∖ dom seen in
      if decide (next = ∅) then seen
      else bfs G fuel' (S depth) next (gset_to_gmap (S depth) next ∪ seen)
  end.

(** [nx.single_source_shortest_path_length(G, source)]; every level but
    the first holds a node not seen before, so there are at most as many
    levels as nodes. *)
Definition single_source_shortest_path_length (G : DiGraph) (source : string)
  : gmap string nat :=
  bfs G (number_of_nodes G) 0 {[source]} {[source := 0%nat]}.

(** [nx.descendants(G, source)] *)
Definition descendants (G : DiGraph) (source : string) : result (gset string) :=
  if has_node G source
  then Ok (dom (single_source_shortest_path_length G source) ∖ {[source]})
  else Raise NetworkXError.

(** [nx.shortest_path_length(G, source, target)] *)
Definition shortest_path_length (G : DiGraph) (source target : string) : result nat :=
  if has_node G source && has_node G target
  then match single_source_shortest_path_length G source !! target with
       | Some d => Ok d
       | None => Raise NetworkXNoPath
       end
  else Raise NodeNotFound.

(** Edges, and graphs whose edges end at nodes. *)
Definition edge (G : DiGraph) (u v : string) : Prop := v ∈ successors G u.
Definition closed_graph (G : DiGraph) : Prop :=
  forall u v, edge G u v -> v ∈ dom (node_ref G).

(** The graph as a program observes it through [g]: the attribute
    dictionary of every node, and the edges. *)
Definition view (g : nat) (st : state)
  : gmap string pydict * gmap string (gmap string pydict) :=
  let G := graph_at g st in
  ((fun r => dict_at r st) <$> node_ref G, succ G).

End Nx.

(** [for x in l: f(x)] *)
Fixpoint for_each {A} (l : list A) (f : A -> M unit) : M unit :=
  match l with
  | [] => mret tt
  | x :: l' => _ ← f x; for_each l' f
  end.

(** [d[key]] on a dictionary whose key may be absent. *)
Definition getitem {A} (o : option A) : result A :=
  match o with
  | Some a => Ok a
  | None => Raise KeyError
  end.

(* ================================================================== *)
(** * agents/graph_agent.py *)
(* ================================================================== *)

Module Supplier.
(** A row of the supplier roster. *)
Record t : Type := Row {
  supplier_id : string;
  name : string;
  country : string;
  material : string;
  capacity_tons_per_month : Q;
  risk_country_score : Q
}.
End Supplier.

Module GraphAgent.

(** The dictionary [stats]; [{"valid": False}] has no other key.  The
    keys [has_cycles], [critical_nodes] and [avg_degree] are derived
    from the same graph and are read by no property below; they are
    not kept. *)
Record stats : Type := Stats {
  valid : bool;
  node_count : option nat;
  edge_count : option nat;
  supplier_count : option nat
}.

Record graph_result : Type := GraphResult {
  graph_built : bool;
  res_node_count : nat;
  res_edge_count : nat;
  res_supplier_count : nat
}.

(** [__init__]: [self.G = nx.DiGraph()] *)
Definition init : M nat := Nx.new_graph.

Definition supplier_attrs (sup : Supplier.t) : pydict :=
  list_to_map
    [ ("type", PyStr "supplier");
      ("name", PyStr (Supplier.name sup));
      ("country", PyStr (Supplier.country sup));
      ("material", PyStr (Supplier.material sup));
      ("capacity", PyNum (Supplier.capacity_tons_per_month sup));
      ("risk_score", PyNum (Supplier.risk_country_score sup));
      ("color", PyStr "#4CAF50") ]%string.

Definition downstream : list (string * pydict) :=
  [ ("F001", list_to_map [("type", PyStr "factory");
                          ("name", PyStr "Main Assembly Factory");
                          ("color", PyStr "#2196F3")]);
    ("W001", list_to_map [("type", PyStr "warehouse");
                          ("name", PyStr "Central Distribution Warehouse");
                          ("color", PyStr "#FF9800")]);
    ("C001", list_to_map [("type", PyStr "customer");
                          ("name", PyStr "Global Retail Customer");
                          ("color", PyStr "#9C27B0")]) ]%string.

Definition edge_attrs (material : string) (weight : Q) : pydict :=
  list_to_map [("material", PyStr material); ("weight", PyNum weight)]%string.

Definition to_factory : list string :=
  ["Steel"; "Semiconductors"; "Precision bearings"]%string.
Definition to_warehouse : list string :=
  ["Paper pulp"; "Nuts & oils"]%string.

Definition build_graph_from_suppliers (G : nat) (suppliers : list Supplier.t) : M unit :=
  match suppliers with
  | [] => mret tt   (* "No suppliers provided -> empty graph" *)
  | _ =>
      _ ← for_each suppliers (fun sup =>
            Nx.add_node G (Supplier.supplier_id sup) (supplier_attrs sup));
      _ ← for_each downstream (fun '(id, attrs) => Nx.add_node G id attrs);
      _ ← for_each suppliers (fun sup =>
            let sup_id := Supplier.supplier_id sup in
            _ ← (if bool_decide (Supplier.material sup ∈ to_factory)
                 then Nx.add_edge G sup_id "F001" (edge_attrs (Supplier.material sup) 1.0)
                 else mret tt);
            if bool_decide (Supplier.material sup ∈ to_warehouse)
            then Nx.add_edge G sup_id "W001" (edge_attrs (Supplier.material sup) 0.8)
            else mret tt);
      _ ← Nx.add_edge G "F001" "W001" (edge_attrs "Assembled Products" 1.0);
      Nx.add_edge G "W001" "C001" (edge_attrs "Finished Goods" 1.0)
  end.

(** [len([n for n, d in G.nodes(data=True) if d["type"] == "supplier"])] *)
Fixpoint count_suppliers (l : list pydict) : result nat :=
  match l with
  | [] => Ok 0%nat
  | d :: l' =>
      ty ← getitem (d !! "type"%string);
      k ← count_suppliers l';
      Ok (if bool_decide (str_key ty = Some "supplier"%string) then S k else k)
  end.

Definition get_graph_stats (G : nat) : M stats :=
  st ← get_state;
  let g := Nx.graph_at G st in
  if (Nx.number_of_nodes g =? 0)%nat
  then mret (Stats false None None None)
  else
    k ← lift (count_suppliers
                ((fun r => Nx.dict_at r st) <$> (map_to_list (node_ref g)).*2));
    mret (Stats true (Some (Nx.number_of_nodes g)) (Some (Nx.number_of_edges g)) (Some k)).

Definition run (G : nat) (suppliers_data : list Supplier.t) : M graph_result :=
  _ ← build_graph_from_suppliers G suppliers_data;
  stats ← get_graph_stats G;
  nc ← lift (getitem (node_count stats));
  ec ← lift (getitem (edge_count stats));
  sc ← lift (getitem (supplier_count stats));
  _ ← modify (set_memory_graph (Some G));
  mret (GraphResult (valid stats) nc ec sc).

End GraphAgent.

(* ================================================================== *)
(** * agents/simulation_agent.py *)
(* ================================================================== *)

Module Risk.
(** A risk record; [node_id] and [risk_score] are read with [risk[...]],
    the other keys with [risk.get]. *)
Record t : Type := Record_ {
  node_id : string;
  risk_score : Q;
  name : option string;
  country : option string;
  material : option string;
  news_title : option string
}.
End Risk.

Module Scenario.
(** A simulation scenario ([simulated_at], a wall-clock time stamp, is
    not kept).  The decision agent reads [disruption_type] with
    [sim.get]. *)
Record t : Type := Record_ {
  node_id : string;
  disruption_type : option string;
  severity_used : Q;
  capacity_loss_pct : Z;
  estimated_delay_days : Q;
  affected_nodes_count : nat;
  service_level_impact_pct : Q;
  news_title : string
}.
End Scenario.

Module SimulationAgent.

Definition DEFAULT_DELAY_DAYS_PER_LEVEL : Q := 3.
Definition CAPACITY_REDUCTION_SEVERE : Q := 0.8.
Definition CAPACITY_REDUCTION_MODERATE : Q := 0.4.

Definition load_graph : M unit :=
  st ← get_state;
  _ ← modify (set_sim_agent_G (memory_graph st));
  match memory_graph st with
  | None => raise ValueError
  | Some G =>
      if (Nx.number_of_nodes (Nx.graph_at G st) =? 0)%nat
      then raise ValueError else mret tt
  end.

(** The pair [(capacity_loss, delay_multiplier)] of a severity. *)
Definition disruption_strength (severity : Q) : Q * Q :=
  if Num.Qgeb severity 0.8 then (CAPACITY_REDUCTION_SEVERE, 1.5)
  else if Num.Qgeb severity 0.5 then (CAPACITY_REDUCTION_MODERATE, 1.0)
  else (0.2, 0.7).

(** A number read from a dictionary for arithmetic. *)
Definition as_number (v : pyval) : result Q :=
  match v with
  | PyNum q => Ok q
  | PyStr _ => Raise TypeError
  end.

(** "Apply disruption": the [if]/[else] on the working copy [sim_G];
    the value is [disruption_type]. *)
Definition apply_disruption (sim_G : nat) (node_id : string)
    (severity capacity_loss : Q) : M string :=
  st ← get_state;
  if Num.Qgeb severity 0.9 && Nx.has_node (Nx.graph_at sim_G st) node_id
  then
    _ ← Nx.remove_node sim_G node_id;
    mret "node_failure"%string
  else
    d ← Nx.nodes_getitem sim_G node_id;
    st ← get_state;
    _ ← match Nx.dict_at d st !! "capacity"%string with
        | Some v =>
            orig_cap ← lift (as_number v);
            modify (fun st =>
              set_dicts
                (<[d := <["capacity"%string :=
                            PyNum (Num.py_max 0 (orig_cap * (1 - capacity_loss)))]>
                          (Nx.dict_at d st)]> (dicts st)) st)
        | None => mret tt
        end;
    mret "capacity_reduction"%string.

(** "Find all downstream affected nodes (including the disrupted one)" *)
Definition find_affected (sim_G : nat) (node_id : string) : M (list string) :=
  try_except
    (st ← get_state;
     des ← lift (Nx.descendants (Nx.graph_at sim_G st) node_id);
     mret (elements des ++ [node_id]))
    NetworkXError
    (mret [node_id]).

(** "Estimate delay propagation": the loop over [affected]. *)
Fixpoint delay_loop (G : DiGraph) (node_id : string) (delay_multiplier : Q)
    (affected : list string) (max_delay : Q) : result Q :=
  match affected with
  | [] => Ok max_delay
  | target :: rest =>
      match Nx.shortest_path_length G node_id target with
      | Ok path_len =>
          let delay :=
            inject_Z (Z.of_nat path_len) * DEFAULT_DELAY_DAYS_PER_LEVEL * delay_multiplier in
          delay_loop G node_id delay_multiplier rest (Num.py_max max_delay delay)
      | Raise NetworkXNoPath =>
          delay_loop G node_id delay_multiplier rest max_delay
      | Raise e => Raise e
      end
  end.

Definition service_impact (disruption_type : string) (affected : list string)
    (original_reachable : nat) : Q :=
  let sim_reachable :=
    if bool_decide (disruption_type = "capacity_reduction"%string)
    then length affected else 1%nat in
  if (0 <? original_reachable)%nat
  then Num.py_round
         ((1 - inject_Z (Z.of_nat sim_reachable) / inject_Z (Z.of_nat original_reachable))
          * 100) 1
  else 100.0.

(** The local variables of [simulate_single_risk] the properties speak
    about, next to the scenario it returns. *)
Record trace : Type := Trace {
  canonical : nat;          (* [self.G] *)
  working : nat;            (* [sim_G] *)
  affected : list string;
  scenario : Scenario.t
}.

Definition simulate_trace (risk : Risk.t) : M trace :=
  st ← get_state;
  _ ← (if sim_agent_G st is None then load_graph else mret tt);
  let node_id := Risk.node_id risk in
  let severity := Risk.risk_score risk in
  let '(capacity_loss, delay_multiplier) := disruption_strength severity in
  st ← get_state;
  G ← (if sim_agent_G st is Some G then mret G else raise AttributeError);
  sim_G ← Nx.copy G;
  disruption_type ← apply_disruption sim_G node_id severity capacity_loss;
  affected ← find_affected sim_G node_id;
  st ← get_state;
  max_delay ← lift (delay_loop (Nx.graph_at G st) node_id delay_multiplier affected 0);
  des ← lift (Nx.descendants (Nx.graph_at G st) node_id);
  let original_reachable := (length (elements des) + 1)%nat in
  let service_impact_pct := service_impact disruption_type affected original_reachable in
  mret (Trace G sim_G affected
          {| Scenario.node_id := node_id;
             Scenario.disruption_type := Some disruption_type;
             Scenario.severity_used := severity;
             Scenario.capacity_loss_pct := Num.round_half_even (capacity_loss * 100);
             Scenario.estimated_delay_days := Num.py_round max_delay 1;
             Scenario.affected_nodes_count := length affected;
             Scenario.service_level_impact_pct := service_impact_pct;
             Scenario.news_title := default "Unknown"%string (Risk.news_title risk) |}).

Definition simulate_single_risk (risk : Risk.t) : M Scenario.t :=
  t ← simulate_trace risk; mret (scenario t).

End SimulationAgent.

(* ================================================================== *)
(** * agents/decision_agent.py *)
(* ================================================================== *)

(** [sorted(l, key=..., reverse=True)] and [l.sort(key=..., reverse=True)]:
    descending and stable; [ge x y] compares the keys of [x] and [y]. *)
Fixpoint insert_desc {A} (ge : A -> A -> bool) (x : A) (l : list A) : list A :=
  match l with
  | [] => [x]
  | y :: l' => if ge x y then x :: y :: l' else y :: insert_desc ge x l'
  end.

Definition sort_desc {A} (ge : A -> A -> bool) (l : list A) : list A :=
  fold_right (insert_desc ge) [] l.

Module Decision.
Record recommendation : Type := Recommendation {
  action : string;
  description : string;
  urgency : Z;
  estimated_confidence : Q;
  lead_time_days : Z
}.

Record t : Type := Record_ {
  node_id : string;
  name : string;
  material : string;
  country : string;
  risk_score : Q;
  delay_days : Q;
  service_impact_pct : Q;
  affected_nodes_count : nat;
  recommended_actions : list recommendation;
  primary_action : string;
  confidence : Q
}.
End Decision.

Module DecisionAgent.

Definition CRITICAL_RISK_THRESHOLD : Q := 0.85.
Definition HIGH_RISK_THRESHOLD : Q := 0.65.
Definition MEDIUM_RISK_THRESHOLD : Q := 0.40.

Definition CRITICAL_DELAY_DAYS : Q := 14.
Definition HIGH_DELAY_DAYS : Q := 7.
Definition CRITICAL_SERVICE_IMPACT : Q := 60.
Definition HIGH_SERVICE_IMPACT : Q := 40.
Definition MEDIUM_SERVICE_IMPACT : Q := 20.

Definition MATERIAL_CRITICALITY : gmap string Z :=
  list_to_map
    [ ("Semiconductors", 5); ("Steel", 4); ("Paper pulp", 2);
      ("Nuts & oils", 3); ("Precision bearings", 4) ]%string%Z.

Definition COUNTRY_GEOPOLITICAL_RISK : gmap string Z :=
  list_to_map
    [ ("China", 4); ("Taiwan", 5); ("Brazil", 2); ("Sweden", 1);
      ("Germany", 1); ("South Korea", 3); ("Japan", 2); ("Vietnam", 2);
      ("India", 2) ]%string%Z.

Record action_info : Type := ActionInfo {
  description : string;
  urgency : Z;
  confidence_threshold : Q;
  lead_time_days : Z
}.

Definition ACTION_LIBRARY : gmap string action_info :=
  list_to_map
    [ ("do_nothing",
        ActionInfo "No immediate action required - monitor only" 1 0.0 0);
      ("increase_monitoring",
        ActionInfo "Increase monitoring frequency and alert thresholds for this supplier"
          2 0.35 1);
      ("notify_procurement",
        ActionInfo "Notify procurement team to review alternatives and contracts"
          3 0.50 2);
      ("activate_alternative_source",
        ActionInfo "Activate pre-qualified alternative supplier(s)" 4 0.65 3);
      ("increase_safety_stock",
        ActionInfo "Immediately increase safety stock levels for affected materials"
          4 0.60 1);
      ("expedite_shipment",
        ActionInfo "Expedite current shipments and negotiate priority delivery"
          5 0.70 0);
      ("diversify_suppliers",
        ActionInfo
          "Initiate long-term supplier diversification project for this material/country"
          2 0.40 180) ]%string.

Definition material_criticality_of (material : string) : Z :=
  default 2%Z (MATERIAL_CRITICALITY !! material).
Definition country_risk_of (country : string) : Z :=
  default 2%Z (COUNTRY_GEOPOLITICAL_RISK !! country).

Definition calculate_confidence (risk : Risk.t) (sim : Scenario.t) : Q :=
  let severity := Risk.risk_score risk in
  let delay_days := Scenario.estimated_delay_days sim in
  let service_impact := Scenario.service_level_impact_pct sim in
  let material := default "Unknown"%string (Risk.material risk) in
  let country := default "Unknown"%string (Risk.country risk) in
  let base_confidence := Num.py_min severity 1.0 in
  let delay_factor := Num.py_min (delay_days / CRITICAL_DELAY_DAYS) 1.0 * 0.2 in
  let service_factor := Num.py_min (service_impact / CRITICAL_SERVICE_IMPACT) 1.0 * 0.2 in
  let material_criticality := material_criticality_of material in
  let criticality_factor := (inject_Z material_criticality / 5.0) * 0.2 in
  let country_risk := country_risk_of country in
  let country_factor := (inject_Z country_risk / 5.0) * 0.2 in
  let total_confidence :=
    Num.py_min
      (base_confidence + delay_factor + service_factor + criticality_factor + country_factor)
      1.0 in
  Num.py_round total_confidence 2.

(** [actions.remove(x)]: the first occurrence. *)
Fixpoint remove_first (x : string) (l : list string) : list string :=
  match l with
  | [] => []
  | y :: l' => if bool_decide (y = x) then l' else y :: remove_first x l'
  end.

(** "Remove duplicates": the loop with [seen]. *)
Fixpoint unique_from (seen : gset string) (actions : list string) : list string :=
  match actions with
  | [] => []
  | act :: rest =>
      if bool_decide (act ∈ seen) then unique_from seen rest
      else act :: unique_from ({[act]} ∪ seen) rest
  end.

(** The list [actions] when the de-duplication is reached. *)
Definition select_actions (severity delay_days service_impact : Q)
    (affected_count : nat) (material country disruption_type : string) : list string :=
  let actions :=
    if Num.Qgeb severity CRITICAL_RISK_THRESHOLD
       || Num.Qgeb delay_days CRITICAL_DELAY_DAYS
       || Num.Qgeb service_impact CRITICAL_SERVICE_IMPACT
    then
      (if bool_decide (disruption_type = "node_failure"%string)
       then ["expedite_shipment"; "activate_alternative_source"]
       else ["increase_safety_stock"; "activate_alternative_source"])
      ++ (if (4 <=? material_criticality_of material)%Z
             && bool_decide (country ∈ ["China"; "Taiwan"]%string)
          then ["diversify_suppliers"] else [])
    else if Num.Qgeb severity HIGH_RISK_THRESHOLD
            || Num.Qgeb delay_days HIGH_DELAY_DAYS
            || Num.Qgeb service_impact HIGH_SERVICE_IMPACT
    then
      (if Num.Qltb 0 delay_days && Num.Qltb delay_days HIGH_DELAY_DAYS
       then ["increase_safety_stock"] else [])
      ++ (if (3 <=? affected_count)%nat
          then ["activate_alternative_source"] else ["notify_procurement"])
      ++ (if (3 <=? country_risk_of country)%Z
          then ["diversify_suppliers"] else [])
    else if Num.Qgeb severity MEDIUM_RISK_THRESHOLD
            || Num.Qgeb service_impact MEDIUM_SERVICE_IMPACT
    then ["notify_procurement"; "increase_monitoring"]
    else ["increase_monitoring"] in
  let actions :=
    if Num.Qltb delay_days 3 && Num.Qltb service_impact 20
       && Num.Qltb severity MEDIUM_RISK_THRESHOLD
    then ["do_nothing"] else actions in
  if (4 <=? material_criticality_of material)%Z
     && bool_decide ("increase_monitoring" ∈ actions)
  then remove_first "increase_monitoring" actions ++ ["notify_procurement"]
  else actions.

(** [[(act, ACTION_LIBRARY[act]) for act in unique_actions]] *)
Fixpoint with_info (acts : list string) : result (list (string * action_info)) :=
  match acts with
  | [] => Ok []
  | act :: rest =>
      info ← getitem (ACTION_LIBRARY !! act);
      l ← with_info rest;
      Ok ((act, info) :: l)
  end.

Definition by_urgency (x y : string * action_info) : bool :=
  (urgency (snd y) <=? urgency (snd x))%Z.

Definition decide_for_scenario (risk : Risk.t) (sim : Scenario.t) : result Decision.t :=
  let severity := Risk.risk_score risk in
  let delay_days := Scenario.estimated_delay_days sim in
  let service_impact := Scenario.service_level_impact_pct sim in
  let affected_count := Scenario.affected_nodes_count sim in
  let material := default "Unknown"%string (Risk.material risk) in
  let country := default "Unknown"%string (Risk.country risk) in
  let disruption_type := default "Unknown"%string (Scenario.disruption_type sim) in
  let confidence := calculate_confidence risk sim in
  let actions :=
    select_actions severity delay_days service_impact affected_count
      material country disruption_type in
  let unique_actions := unique_from ∅ actions in
  infos ← with_info unique_actions;
  let sorted_actions := sort_desc by_urgency infos in
  let recommendations :=
    List.map
      (fun '(act, info) =>
         Decision.Recommendation act (description info) (urgency info)
           (Num.py_round (Num.py_min confidence 1.0) 2) (lead_time_days info))
      sorted_actions in
  Ok {| Decision.node_id := Risk.node_id risk;
        Decision.name := default (Risk.node_id risk) (Risk.name risk);
        Decision.material := material;
        Decision.country := country;
        Decision.risk_score := severity;
        Decision.delay_days := delay_days;
        Decision.service_impact_pct := service_impact;
        Decision.affected_nodes_count := affected_count;
        Decision.recommended_actions := recommendations;
        Decision.primary_action :=
          match recommendations with
          | r :: _ => Decision.action r
          | [] => "do_nothing"%string
          end;
        Decision.confidence := confidence |}.

(** The dictionaries handed to [run]; the key read with [.get(key, [])]
    may be absent. *)
Record risk_result : Type := RiskResult { risks_detected : option (list Risk.t) }.
Record simulation_result : Type := SimulationResult { scenarios : option (list Scenario.t) }.

(** The result of [run] ([decision_timestamp], a wall-clock time stamp,
    is not kept). *)
Record decision_result : Type := DecisionResult {
  recommended_actions : list Decision.t;
  overall_confidence : Q;
  decision_count : nat;
  top_recommendation : string
}.

Definition by_confidence (x y : Decision.t) : bool :=
  Num.Qgeb (Decision.confidence x) (Decision.confidence y).

(** The loop of [run] matching each scenario with its risk. *)
Fixpoint match_decisions (risk_list : list Risk.t) (scenarios : list Scenario.t)
  : result (list Decision.t) :=
  match scenarios with
  | [] => Ok []
  | sim :: rest =>
      let node_id := Scenario.node_id sim in
      match List.find (fun r => bool_decide (Risk.node_id r = node_id)) risk_list with
      | Some risk =>
          decision ← decide_for_scenario risk sim;
          ds ← match_decisions risk_list rest;
          Ok (decision :: ds)
      | None => match_decisions risk_list rest
      end
  end.

Definition run (risks : option risk_result)
    (simulation_results : option simulation_result) : result decision_result :=
  let risk_list := default [] (r ← risks; risks_detected r) in
  let scenarios := default [] (s ← simulation_results; scenarios s) in
  match risk_list, scenarios with
  | [], _ | _, [] =>
      Ok (DecisionResult [] 0.0 0 "do_nothing")
  | _, _ =>
      decisions ← match_decisions risk_list scenarios;
      let decisions := sort_desc by_confidence decisions in
      let overall_confidence :=
        match decisions with
        | [] => 0.0
        | _ =>
            let top_confidences := Decision.confidence <$> take 3 decisions in
            Num.py_round
              (Num.py_min
                 (Num.sumQ top_confidences
                  / inject_Z (Z.of_nat (length top_confidences))) 1.0) 2
        end in
      Ok (DecisionResult decisions overall_confidence (length decisions)
            match decisions with
            | d :: _ => Decision.primary_action d
            | [] => "do_nothing"%string
            end)
  end.

End DecisionAgent.

(* ================================================================== *)
(** * The statements of the specification *)
(* ================================================================== *)

Module Spec.

(** The material-category bonus in the words of the specification: 0.25
    if any extracted category is in the sensitivity set of the material,
    else 0. *)
Definition material_category_bonus (news : News.t) (node_data : pydict) : Q :=
  if existsb
       (RiskAgent.sensitive (default (PyStr "") (node_data !! "material"%string)))
       (RiskAgent.extract_risk_types (RiskAgent.full_text_of news))
  then 0.25 else 0.

(** [clamp01] and the confidence formula in the words of the
    specification. *)
Definition clamp01 (x : Q) : Q := Num.py_max 0 (Num.py_min x 1).
Definition delayFactor (delay : Q) : Q := Num.py_min (delay / 14) 1 * 0.2.
Definition serviceFactor (impact : Q) : Q := Num.py_min (impact / 60) 1 * 0.2.
Definition materialFactor (materialCriticality : Z) : Q :=
  (inject_Z materialCriticality / 5) * 0.2.
Definition countryFactor (countryRisk : Z) : Q :=
  (inject_Z countryRisk / 5) * 0.2.
Definition confidence (severity delay impact : Q)
    (materialCriticality countryRisk : Z) : Q :=
  Num.py_round
    (clamp01 (Num.py_min severity 1.0 + delayFactor delay + serviceFactor impact
              + materialFactor materialCriticality + countryFactor countryRisk)) 2.

(** The input of the decision engine is missing or empty. *)
Definition no_risks (risks : option DecisionAgent.risk_result) : Prop :=
  risks = None
  \/ exists r, risks = Some r
       /\ (DecisionAgent.risks_detected r = None \/ DecisionAgent.risks_detected r = Some []).
Definition no_scenarios (sims : option DecisionAgent.simulation_result) : Prop :=
  sims = None
  \/ exists r, sims = Some r
       /\ (DecisionAgent.scenarios r = None \/ DecisionAgent.scenarios r = Some []).

(** The empty-result sentinel. *)
Definition empty_sentinel : DecisionAgent.decision_result :=
  DecisionAgent.DecisionResult [] 0.0 0 "do_nothing".

(** A new graph agent given the roster [suppliers]: the graph it holds
    after [build_graph_from_suppliers]. *)
Definition built_graph (suppliers : list Supplier.t) (st : state) : result DiGraph :=
  match (G ← GraphAgent.init; _ ← GraphAgent.build_graph_from_suppliers G suppliers;
         mret G) st with
  | (Ok G, st') => Ok (Nx.graph_at G st')
  | (Raise e, _) => Raise e
  end.

(** The result of [run] on a new graph agent. *)
Definition graph_run (suppliers : list Supplier.t) (st : state)
  : result GraphAgent.graph_result :=
  fst ((G ← GraphAgent.init; GraphAgent.run G suppliers) st).

(** The canonical graph of a simulation: the field [G] of the agent, or
    the graph of the memory store that [load_graph] fetches when the
    field is still [None]. *)
Definition canonical_of (st : state) : option nat :=
  match sim_agent_G st with
  | Some G => Some G
  | None => memory_graph st
  end.

(** The references of graph [G] point into the heaps. *)
Definition well_formed (G : nat) (st : state) : bool :=
  bool_decide (G < length (graphs st))%nat
  && bool_decide (map_Forall (fun _ r => r < length (dicts st))%nat
                    (node_ref (Nx.graph_at G st))).

(** Every object that exists in [st] is the same in [st']. *)
Definition unchanged (st st' : state) : Prop :=
  take (length (dicts st)) (dicts st') = dicts st
  /\ take (length (graphs st)) (graphs st') = graphs st
  /\ memory_graph st' = memory_graph st.

(** The graph [G] is a sound object: its references are valid and its
    edges end at nodes. *)
Definition graph_ok (G : nat) (st : state) : Prop :=
  (G < length (graphs st))%nat
  /\ map_Forall (fun _ r => r < length (dicts st))%nat (node_ref (Nx.graph_at G st))
  /\ Nx.closed_graph (Nx.graph_at G st).

(** A step on graph [G] that keeps it sound, keeps its nodes, and leaves
    the memory store and the simulation agent alone. *)
Definition keeps (G : nat) (st st' : state) : Prop :=
  graph_ok G st'
  /\ dom (node_ref (Nx.graph_at G st)) ⊆ dom (node_ref (Nx.graph_at G st'))
  /\ sim_agent_G st' = sim_agent_G st
  /\ memory_graph st' = memory_graph st.

(** Inputs for which a simulation is sure to return: the node is in the
    graph, and either the risk is a node failure or the graph is sound
    and the capacity of the node, if it has one, is a number. *)
Definition returns_for (risk : Risk.t) (G : nat) (st : state) : Prop :=
  Nx.has_node (Nx.graph_at G st) (Risk.node_id risk) = true
  /\ (Num.Qgeb (Risk.risk_score risk) 0.9 = true
      \/ (graph_ok G st
          /\ forall r0 s,
               node_ref (Nx.graph_at G st) !! Risk.node_id risk = Some r0 ->
               Nx.dict_at r0 st !! "capacity"%string <> Some (PyStr s))).

(** The attribute dictionary of a node after a capacity reduction by the
    fraction [capacity_loss]. *)
Definition reduced (capacity_loss : Q) (attrs : pydict) : pydict :=
  match attrs !! "capacity"%string with
  | Some (PyNum c) =>
      <["capacity"%string := PyNum (Num.py_max 0 (c * (1 - capacity_loss)))]> attrs
  | _ => attrs
  end.

(** What a simulation of [risk] did when it started in [st] with the
    canonical graph [G], returned the trace [t] and ended in [st']. *)
Definition simulated (risk : Risk.t) (G : nat) (st : state)
    (t : SimulationAgent.trace) (st' : state) : Prop :=
  let node_id := Risk.node_id risk in
  let severity := Risk.risk_score risk in
  let GG := Nx.graph_at G st in
  let W := Nx.graph_at (SimulationAgent.working t) st' in
  let sc := SimulationAgent.scenario t in
  SimulationAgent.canonical t = G
  /\ SimulationAgent.working t = length (graphs st)
  /\ sim_agent_G st' = Some G
  /\ Nx.has_node GG node_id = true
  /\ Scenario.affected_nodes_count sc = length (SimulationAgent.affected t)
  /\ ((Num.Qgeb severity 0.9 = true
       /\ Scenario.disruption_type sc = Some "node_failure"%string
       /\ Nx.has_node W node_id = false
       /\ SimulationAgent.affected t = [node_id])
      \/ (Num.Qgeb severity 0.9 = false
          /\ Scenario.disruption_type sc = Some "capacity_reduction"%string
          /\ succ W = succ GG
          /\ dom (node_ref W) = dom (node_ref GG)
          /\ (exists des, Nx.descendants GG node_id = Ok des
                 /\ SimulationAgent.affected t = elements des ++ [node_id])
          /\ Scenario.service_level_impact_pct sc == 0
          /\ (map_Forall (fun _ r => r < length (dicts st))%nat (node_ref GG) ->
              forall r0, node_ref GG !! node_id = Some r0 ->
                exists d, node_ref W !! node_id = Some d
                  /\ Nx.dict_at d st'
                     = reduced (SimulationAgent.disruption_strength severity).1
                         (Nx.dict_at r0 st)))).

(** The descendants of [node_id] in the working copy of [G], before the
    copy is changed. *)
Definition working_copy_descendants (G : nat) (node_id : string) (st : state)
  : result (gset string) :=
  match Nx.copy G st with
  | (Ok W, st') => Nx.descendants (Nx.graph_at W st') node_id
  | (Raise e, _) => Raise e
  end.

(** A node failure as the specification describes it: the affected set
    is the descendants captured before the removal, and the node. *)
Definition node_failure_affected (risk : Risk.t) (st : state) : Prop :=
  forall G,
    canonical_of st = Some G ->
    0.9 <= Risk.risk_score risk ->
    Nx.has_node (Nx.graph_at G st) (Risk.node_id risk) = true ->
    exists t st' des,
      SimulationAgent.simulate_trace risk st = (Ok t, st')
      /\ Scenario.disruption_type (SimulationAgent.scenario t) = Some "node_failure"%string
      /\ working_copy_descendants G (Risk.node_id risk) st = Ok des
      /\ list_to_set (SimulationAgent.affected t) = des ∪ {[Risk.node_id risk]}
      /\ Scenario.affected_nodes_count (SimulationAgent.scenario t)
         = size (des ∪ {[Risk.node_id risk]}).

(** The empty roster as the specification describes it: the skeleton
    alone, and a status rather than a failure. *)
Definition empty_roster_graph (st : state) : Prop :=
  exists g, built_graph [] st = Ok g
    /\ Nx.number_of_nodes g = 3%nat /\ Nx.number_of_edges g = 2%nat.
Definition empty_roster_status (st : state) : Prop :=
  exists r, graph_run [] st = Ok r.

End Spec.

(* ================================================================== *)
(** * Sample inputs *)
(* ================================================================== *)

Module Sample.

(** A Swedish pulp supplier and a headline with two risk categories. *)
Definition pulp_node : pydict :=
  list_to_map [("country", PyStr "Sweden"); ("material", PyStr "Paper pulp")]%string.
Definition strike_and_flood : News.t :=
  News.Item (Some "Strike after flood"%string) (Some ""%string) (Some 0) None.

(** A Taiwanese chip supplier and a news item without a title. *)
Definition chip_node : pydict :=
  list_to_map [("country", PyStr "Taiwan"); ("material", PyStr "Semiconductors")]%string.
Definition untitled_quake : News.t :=
  News.Item None (Some "Taiwan earthquake disrupts chip factories"%string) (Some 0.9) None.
Definition titled_quake : News.t :=
  News.Item (Some "Taiwan earthquake disrupts chip factories"%string) None (Some 0.9) None.

(** The state in which the program starts: no object yet. *)
Definition boot : state := State [] [] None None.

(** A roster of two suppliers, and the state after the graph agent has
    run on it: S1 -> F001 -> W001 -> C001 and S2 -> W001. *)
Definition roster : list Supplier.t :=
  [ Supplier.Row "S1" "TSMC" "Taiwan" "Semiconductors" 100 0.8;
    Supplier.Row "S2" "Nordic Pulp" "Sweden" "Paper pulp" 50 0.1 ]%string.
Definition built : state :=
  ((G ← GraphAgent.init; GraphAgent.run G roster) boot).2.

(** Risks on S1, one per branch of the simulation. *)
Definition severe_risk : Risk.t :=
  Risk.Record_ "S1" 0.9 (Some "TSMC") (Some "Taiwan") (Some "Semiconductors")
    (Some "Taiwan earthquake")%string.
Definition moderate_risk : Risk.t :=
  Risk.Record_ "S1" 0.85 (Some "TSMC") (Some "Taiwan") (Some "Semiconductors")
    (Some "Taiwan earthquake")%string.

End Sample.

(** * agents/decision_agent.py: the action ids of a decision *)

Module Actions.

(** The urgency that [ACTION_LIBRARY] gives an action id. *)
Definition urgency_of (act : string) : Z :=
  default 0%Z (DecisionAgent.urgency <$> DecisionAgent.ACTION_LIBRARY !! act).

Definition by_urgency_of (x y : string) : bool :=
  (urgency_of y <=? urgency_of x)%Z.

(** The action ids that [decide_for_scenario] recommends, in order: the
    selected actions without duplicates, sorted by urgency. *)
Definition names (risk : Risk.t) (sim : Scenario.t) : list string :=
  sort_desc by_urgency_of
    (DecisionAgent.unique_from ∅
       (DecisionAgent.select_actions
          (Risk.risk_score risk)
          (Scenario.estimated_delay_days sim)
          (Scenario.service_level_impact_pct sim)
          (Scenario.affected_nodes_count sim)
          (default "Unknown"%string (Risk.material risk))
          (default "Unknown"%string (Risk.country risk))
          (default "Unknown"%string (Scenario.disruption_type sim)))).

(** The three conditions of the critical tier. *)
Definition critical (risk : Risk.t) (sim : Scenario.t) : Prop :=
  0.85 <= Risk.risk_score risk
  \/ 14 <= Scenario.estimated_delay_days sim
  \/ 60 <= Scenario.service_level_impact_pct sim.

(** The pairs of a scenario and the risk that [run] matches it with: the
    first risk of the list with the node id of the scenario; a scenario
    without such a risk has no pair. *)
Definition matched (risk_list : list Risk.t) (scenarios : list Scenario.t)
  : list (Risk.t * Scenario.t) :=
  omap (fun sim =>
          (fun risk => (risk, sim))
            <$> List.find (fun r => bool_decide (Risk.node_id r = Scenario.node_id sim))
                  risk_list)
       scenarios.

End Actions.

(* ================================================================== *)
(** * agents/risk_agent.py: matching the news with the graph *)
(* ================================================================== *)

(** The string operations of [find_affected_nodes]. *)
Module Str.

(** [s.startswith(p)] *)
Fixpoint startswith (p s : string) : bool :=
  match p, s with
  | EmptyString, _ => true
  | String c p', String d s' => Ascii.eqb c d && startswith p' s'
  | String _ _, EmptyString => false
  end.

(** [sub in s] *)
Fixpoint contains (sub s : string) : bool :=
  startswith sub s
  || match s with
     | EmptyString => false
     | String _ s' => contains sub s'
     end.

(** [s.replace(" ", "")] *)
Fixpoint remove_spaces (s : string) : string :=
  match s with
  | EmptyString => EmptyString
  | String c s' =>
      if Ascii.eqb c " " then remove_spaces s' else String c (remove_spaces s')
  end.

(** [s.split()]: the words between runs of white space. *)
Fixpoint split (s : string) : list string :=
  match s with
  | EmptyString => []
  | String c s' =>
      if Text.is_space c then split s'
      else match s' with
           | EmptyString => [String c EmptyString]
           | String d _ =>
               if Text.is_space d then String c EmptyString :: split s'
               else match split s' with
                    | w :: ws => String c w :: ws
                    | [] => [String c EmptyString]
                    end
           end
  end.

End Str.

Module RiskDetection.

(** What a call raises: an exception of [exn], or the [IndexError] of
    [material.split()[0]]. *)
Inductive failure : Type :=
  | Exn (e : exn)
  | IndexError.

Inductive outcome (A : Type) : Type :=
  | Done (a : A)
  | Failed (f : failure).
Arguments Done {A} a.
Arguments Failed {A} f.

Definition of_result {A} (r : result A) : outcome A :=
  match r with
  | Ok a => Done a
  | Raise e => Failed (Exn e)
  end.

#[global] Instance outcome_ret : MRet outcome := fun A a => Done a.
#[global] Instance outcome_bind : MBind outcome := fun A B k m =>
  match m with
  | Done a => k a
  | Failed f => Failed f
  end.

(** An entry of [affected]: the keys of a risk record that the later
    agents read, and the three other keys. *)
Record affected : Type := Affected {
  risk : Risk.t;
  risk_types : list string;
  news_summary : string;
  news_url : string
}.

Definition score (aff : affected) : Q := Risk.risk_score (risk aff).

(** [data.get(key, "").lower()] *)
Definition lower_of (data : pydict) (key : string) : outcome string :=
  match default (PyStr "") (data !! key) with
  | PyStr s => Done (Text.lower s)
  | PyNum _ => Failed (Exn AttributeError)
  end.

(** [title + " " + summary] of [find_affected_nodes]. *)
Definition full_text_of (news : News.t) : string :=
  (Text.lower (default "" (News.title news)) ++ " "
   ++ Text.lower (default "" (News.summary news)))%string.

Definition country_match (full_text country : string) : bool :=
  existsb (fun c => Str.contains (Text.lower c) full_text)
    [country; (country ++ "ese")%string].

(** The list of candidates is built before [any] runs: [split()[0]] is
    evaluated whatever the other candidates are. *)
Definition material_match (full_text material : string) : outcome bool :=
  match Str.split material with
  | first :: _ =>
      Done (existsb (fun m => Str.contains (Text.lower m) full_text)
              [material; Str.remove_spaces (Text.lower material); first])
  | [] => Failed IndexError
  end.

Definition name_match (full_text name : string) : bool :=
  Str.contains (Text.lower name) full_text
  || existsb (fun word => Str.contains word full_text) (Str.split (Text.lower name)).

(** [data.get(key)] where the value matters only when it is a string. *)
Definition get_str (data : pydict) (key : string) : option string :=
  data !! key ≫= str_key.

(** The body of the loop over the nodes: the entries it appends. *)
Definition visit (news : News.t) (full_text : string) (node : string) (data : pydict)
  : outcome (list affected) :=
  if bool_decide (get_str data "type" = Some "supplier"%string)
  then
    country ← lower_of data "country";
    material ← lower_of data "material";
    name ← lower_of data "name";
    let country_match := country_match full_text country in
    material_match ← material_match full_text material;
    let name_match := name_match full_text name in
    if country_match || material_match || name_match
    then
      score ← of_result (RiskAgent.score_risk news data);
      mret [ {| risk := {| Risk.node_id := node;
                           Risk.risk_score := score;
                           Risk.name := get_str data "name";
                           Risk.country := get_str data "country";
                           Risk.material := get_str data "material";
                           Risk.news_title := News.title news |};
                risk_types := RiskAgent.extract_risk_types full_text;
                news_summary := default ""%string (News.summary news);
                news_url := default ""%string (News.url news) |} ]
    else mret []
  else mret [].

Fixpoint visit_all (news : News.t) (full_text : string)
    (nodes : list (string * pydict)) : outcome (list affected) :=
  match nodes with
  | [] => mret []
  | (node, data) :: rest =>
      here ← visit news full_text node data;
      later ← visit_all news full_text rest;
      mret (here ++ later)
  end.

(** [G.nodes(data=True)]: the nodes with their attribute dictionaries.
    networkx lists the nodes in the order of their insertion, which
    [DiGraph] does not record; they are listed here in the order of
    [map_to_list], as in [get_graph_stats].  The order decides which
    failure comes first when several nodes fail, and the order of risks
    of equal score; the loop below is a function of the list, and the
    properties proved of it hold for every list of nodes. *)
Definition nodes_data (G : nat) (st : state) : list (string * pydict) :=
  (fun '(n, r) => (n, Nx.dict_at r st)) <$> map_to_list (node_ref (Nx.graph_at G st)).

Definition find_affected_nodes (G : nat) (news : News.t) (st : state)
  : outcome (list affected) :=
  visit_all news (full_text_of news) (nodes_data G st).

(** The result of [run]; the early result has two keys only
    ([analysis_timestamp], a wall-clock time stamp, is not kept). *)
Record run_result : Type := RunResult {
  risks_detected : list affected;
  max_severity : Q;
  total_risks_found : option nat;
  news_analyzed : option nat
}.

(** The loop over [news_items], with its two accumulators. *)
Fixpoint scan (G : nat) (st : state) (news_items : list News.t)
    (all_risks : list affected) (max_severity : Q) : outcome (list affected * Q) :=
  match news_items with
  | [] => mret (all_risks, max_severity)
  | news :: rest =>
      affected_nodes ← find_affected_nodes G news st;
      scan G st rest (all_risks ++ affected_nodes)
        (fold_left (fun m aff => Num.py_max m (score aff)) affected_nodes max_severity)
  end.

Definition by_score (x y : affected) : bool := Num.Qgeb (score x) (score y).

(** [run] reads the graph and the node dictionaries and changes neither;
    the result is also stored under ["risk_result"], an entry of the
    memory store that the state does not keep. *)
Definition run (news_items : list News.t) (st : state) : outcome run_result :=
  match memory_graph st with
  | None => mret (RunResult [] 0.0 None None)
  | Some G =>
      if (Nx.number_of_nodes (Nx.graph_at G st) =? 0)%nat
      then mret (RunResult [] 0.0 None None)
      else
        '(all_risks, max_severity) ← scan G st news_items [] 0.0;
        let all_risks := sort_desc by_score all_risks in
        mret (RunResult all_risks (Num.py_round max_severity 2)
                (Some (length all_risks)) (Some (length news_items)))
  end.

(** An entry that [news] and the node [node] with the attributes [data]
    give. *)
Definition entry_of (news : News.t) (node : string) (data : pydict)
    (aff : affected) : Prop :=
  Risk.node_id (risk aff) = node
  /\ get_str data "type" = Some "supplier"%string
  /\ RiskAgent.score_risk news data = Ok (score aff)
  /\ risk_types aff = RiskAgent.extract_risk_types (full_text_of news)
  /\ Risk.news_title (risk aff) = News.title news.

(** The dictionary that the decision agent receives.  A key of a risk
    record whose value is [None] (a supplier node without that
    attribute) is an absent key here: the decision agent then takes its
    default ["Unknown"] where Python keeps [None].  Neither is in a
    table of the agent, so the actions and the confidence are the same;
    only the fields [name], [material] and [country] that the decision
    copies differ. *)
Definition to_risk_result (res : run_result) : DecisionAgent.risk_result :=
  DecisionAgent.RiskResult (Some (risk <$> risks_detected res)).

(** The names of the categories of [RISK_PATTERNS]. *)
Definition categories : list string := RiskAgent.RISK_PATTERNS.*1.

End RiskDetection.

(** Rosters with an incomplete row, and the state after the graph agent
    has run on them. *)
Module Rosters.

Definition no_material : list Supplier.t :=
  [ Supplier.Row "S1" "TSMC" "Taiwan" "Semiconductors" 100 0.8;
    Supplier.Row "S3" "Acme" "Peru" "" 10 0.3 ]%string.
Definition no_country : list Supplier.t :=
  [ Supplier.Row "S4" "Acme" "" "Steel" 10 0.3 ]%string.

Definition after (roster : list Supplier.t) : state :=
  ((G ← GraphAgent.init; GraphAgent.run G roster) Sample.boot).2.

End Rosters.

(* ================================================================== *)
(** * The attributes of the nodes *)
(* ================================================================== *)

Module Attrs.

(** The attribute dictionary of every node of graph [G] satisfies [P]. *)
Definition all (P : pydict -> Prop) (G : nat) (st : state) : Prop :=
  forall n r, node_ref (Nx.graph_at G st) !! n = Some r -> P (Nx.dict_at r st).

(** The node has a type. *)
Definition typed (d : pydict) : Prop := is_Some (d !! "type"%string).

(** The value of [key], when present, is a string. *)
Definition text (key : string) (d : pydict) : Prop :=
  forall q, d !! key <> Some (PyNum q).

(** The capacity, when present, is a number. *)
Definition numeric_capacity (d : pydict) : Prop :=
  forall s, d !! "capacity"%string <> Some (PyStr s).

(** A supplier has a material with a word in it. *)
Definition worded_material (d : pydict) : Prop :=
  RiskDetection.get_str d "type" = Some "supplier"%string ->
  exists m, d !! "material"%string = Some (PyStr m)
            /\ Str.split (Text.lower m) <> [].

(** What the graph agent guarantees for a roster whose materials are
    not blank. *)
Definition complete (d : pydict) : Prop :=
  typed d /\ text "name" d /\ text "country" d /\ text "material" d
  /\ numeric_capacity d /\ worded_material d.

(** A roster row whose material is not blank. *)
Definition has_material (sup : Supplier.t) : Prop :=
  Str.split (Text.lower (Supplier.material sup)) <> [].

(** The ids of the skeleton. *)
Definition skeleton : gset string := {[ "F001"; "W001"; "C001" ]}%string.

Definition ids (suppliers : list Supplier.t) : gset string :=
  list_to_set (Supplier.supplier_id <$> suppliers).

End Attrs.

(* ================================================================== *)
(** * agents/simulation_agent.py: the simulation of the top risks *)
(* ================================================================== *)

Module SimulationRun.

(** The result of [run]; the early result has two keys only
    ([simulation_timestamp], a wall-clock time stamp, is not kept). *)
Record run_result : Type := RunResult {
  scenarios : list Scenario.t;
  worst_case_delay_days : Q;
  worst_case_affected_nodes : option nat;
  number_of_simulations : option nat
}.

Definition by_risk_score (x y : Risk.t) : bool :=
  Num.Qgeb (Risk.risk_score x) (Risk.risk_score y).

(** The risks that [run] simulates:
    [sorted(risk_list, key=..., reverse=True)[:5]]. *)
Definition top_risks (risk_list : list Risk.t) : list Risk.t :=
  take 5 (sort_desc by_risk_score risk_list).

(** The loop over the top risks, with its three accumulators. *)
Fixpoint simulate_all (risks : list Risk.t) (scenarios : list Scenario.t)
    (worst_delay : Q) (total_affected : gset string)
  : M (list Scenario.t * Q * gset string) :=
  match risks with
  | [] => mret (scenarios, worst_delay, total_affected)
  | risk :: rest =>
      scenario ← SimulationAgent.simulate_single_risk risk;
      simulate_all rest (scenarios ++ [scenario])
        (Num.py_max worst_delay (Scenario.estimated_delay_days scenario))
        (total_affected ∪ {[Scenario.node_id scenario]})
  end.

(** [run]; the result is also stored under ["simulation_result"], an
    entry of the memory store that the state does not keep. *)
Definition run (risks : DecisionAgent.risk_result) : M run_result :=
  let risk_list := default [] (DecisionAgent.risks_detected risks) in
  match risk_list with
  | [] => mret (RunResult [] 0 None None)
  | _ =>
      _ ← SimulationAgent.load_graph;
      '(scenarios, worst_delay, total_affected) ←
        simulate_all (top_risks risk_list) [] 0 ∅;
      mret (RunResult scenarios (Num.py_round worst_delay 1)
              (Some (size total_affected)) (Some (length scenarios)))
  end.

(** The dictionary that the decision agent receives. *)
Definition to_simulation_result (res : run_result) : DecisionAgent.simulation_result :=
  DecisionAgent.SimulationResult (Some (scenarios res)).

(** A scenario made for a risk: it carries its node and its score. *)
Definition scenario_of (risk : Risk.t) (sc : Scenario.t) : Prop :=
  Scenario.node_id sc = Risk.node_id risk
  /\ Scenario.severity_used sc = Risk.risk_score risk.

End SimulationRun.

(* ================================================================== *)
(** * core/orchestrator.py *)
(* ================================================================== *)

Module Orchestrator.

(** The summary of a cycle that succeeded. *)
Record summary : Type := Summary {
  suppliers : nat;
  news_items : nat;
  risks_detected : nat;
  max_risk_severity : Q;
  worst_delay_days : Q;
  decisions_count : nat;
  top_action : string
}.

(** What [run_single_cycle] returns: the summary with status "success",
    or status "error" when a step raised ([except Exception]).  The
    duration and the two fields on the persistence of the cycle are not
    kept. *)
Inductive cycle_result : Type :=
  | Success (s : summary)
  | Error.

(** [run_single_cycle], from the second step on: [suppliers] and
    [news_items] are the two lists of the ingestion result, which the
    first step reads from a file and from the network; [G] is the graph
    of the graph agent of the orchestrator. *)
Definition run_single_cycle (G : nat) (suppliers : list Supplier.t)
    (news_items : list News.t) (st : state) : cycle_result * state :=
  match GraphAgent.run G suppliers st with
  | (Raise _, st1) => (Error, st1)
  | (Ok graph_result, st1) =>
      match RiskDetection.run news_items st1 with
      | RiskDetection.Failed _ => (Error, st1)
      | RiskDetection.Done risk_result =>
          let risks := RiskDetection.to_risk_result risk_result in
          match SimulationRun.run risks st1 with
          | (Raise _, st2) => (Error, st2)
          | (Ok sim_result, st2) =>
              match DecisionAgent.run (Some risks)
                      (Some (SimulationRun.to_simulation_result sim_result)) with
              | Raise _ => (Error, st2)
              | Ok decision_result =>
                  (Success
                     {| suppliers := length suppliers;
                        news_items := length news_items;
                        risks_detected :=
                          default 0%nat (RiskDetection.total_risks_found risk_result);
                        max_risk_severity := RiskDetection.max_severity risk_result;
                        worst_delay_days :=
                          SimulationRun.worst_case_delay_days sim_result;
                        decisions_count := DecisionAgent.decision_count decision_result;
                        top_action :=
                          DecisionAgent.top_recommendation decision_result |},
                   st2)
              end
          end
      end
  end.


End Orchestrator.

(* ================================================================== *)
(** * Properties *)
(* ================================================================== *)

(** ** Numbers *)

Section NumFacts.
Import Num.

Lemma Qltb_lt (a b : Q) : Qltb a b = true <-> a < b.
Proof.
  unfold Qltb. rewrite negb_true_iff. split.
  - intros H. apply Qnot_le_lt. intros Hle.
    apply Qle_bool_iff in Hle. congruence.
  - intros H. destruct (Qle_bool b a) eqn:E; [|reflexivity].
    apply Qle_bool_iff in E. exfalso. apply (Qlt_not_le _ _ H E).
Qed.

Lemma Qltb_ge (a b : Q) : Qltb a b = false <-> b <= a.
Proof.
  unfold Qltb. rewrite negb_false_iff. apply Qle_bool_iff.
Qed.

Lemma Qgeb_ge (a b : Q) : Qgeb a b = true <-> b <= a.
Proof. apply Qle_bool_iff. Qed.

Lemma Qgeb_lt (a b : Q) : Qgeb a b = false <-> a < b.
Proof.
  unfold Qgeb. split.
  - intros H. apply Qnot_le_lt. intros Hle.
    apply Qle_bool_iff in Hle. congruence.
  - intros H. destruct (Qle_bool b a) eqn:E; [|reflexivity].
    apply Qle_bool_iff in E. exfalso. apply (Qlt_not_le _ _ H E).
Qed.

Lemma py_min_cases (a b : Q) :
  (py_min a b = a /\ a <= b) \/ (py_min a b = b /\ b < a).
Proof.
  unfold py_min. destruct (Qltb b a) eqn:E.
  - right. split; [reflexivity|]. by apply Qltb_lt.
  - left. split; [reflexivity|]. by apply Qltb_ge.
Qed.

Lemma py_max_cases (a b : Q) :
  (py_max a b = a /\ b <= a) \/ (py_max a b = b /\ a < b).
Proof.
  unfold py_max. destruct (Qltb a b) eqn:E.
  - right. split; [reflexivity|]. by apply Qltb_lt.
  - left. split; [reflexivity|]. by apply Qltb_ge.
Qed.

Lemma py_min_comp (a a' b b' : Q) :
  a == a' -> b == b' -> py_min a b == py_min a' b'.
Proof.
  intros Ea Eb.
  destruct (py_min_cases a b) as [[-> ?]|[-> ?]],
           (py_min_cases a' b') as [[-> ?]|[-> ?]]; lra.
Qed.

Lemma py_max_lower (a b : Q) : a <= py_max a b.
Proof. destruct (py_max_cases a b) as [[-> H]|[-> H]]; lra. Qed.

Lemma round_half_even_comp (p q : Q) :
  p == q -> round_half_even p = round_half_even q.
Proof.
  intros E. unfold round_half_even.
  assert (Hf : Qfloor p = Qfloor q) by (by apply Qfloor_comp).
  rewrite Hf.
  assert (Hc : Qcompare (p - inject_Z (Qfloor q)) (1 # 2)
               = Qcompare (q - inject_Z (Qfloor q)) (1 # 2)).
  { apply Qcompare_comp; [by rewrite E | reflexivity]. }
  by rewrite Hc.
Qed.

Lemma py_round_comp (p q : Q) (n : nat) : p == q -> py_round p n = py_round q n.
Proof.
  intros E. unfold py_round.
  rewrite (round_half_even_comp (p * _) (q * inject_Z (10 ^ Z.of_nat n))); [done|].
  by rewrite E.
Qed.

Lemma round_half_even_lower (q : Q) : (Qfloor q <= round_half_even q)%Z.
Proof.
  unfold round_half_even.
  destruct (Qcompare _ _); [destruct (Z.even _)| |]; lia.
Qed.

Lemma round_half_even_nonneg (q : Q) : 0 <= q -> (0 <= round_half_even q)%Z.
Proof.
  intros H. pose proof (round_half_even_lower q) as Hl.
  assert (0 <= Qfloor q)%Z; [|lia].
  change 0%Z with (Qfloor 0). by apply Qfloor_resp_le.
Qed.

Lemma pow10_pos (n : nat) : 0 < inject_Z (10 ^ Z.of_nat n).
Proof.
  change 0 with (inject_Z 0). rewrite <- Zlt_Qlt.
  apply Z.pow_pos_nonneg; lia.
Qed.

Lemma py_round_nonneg (q : Q) (n : nat) : 0 <= q -> 0 <= py_round q n.
Proof.
  intros H. unfold py_round.
  pose proof (pow10_pos n) as Hp.
  apply Qle_shift_div_l; [done|]. rewrite Qmult_0_l.
  change 0 with (inject_Z 0). rewrite <- Zle_Qle.
  apply round_half_even_nonneg.
  apply Qmult_le_0_compat; [done|]. by apply Qlt_le_weak.
Qed.

Lemma py_round_has_decimals (q : Q) (n : nat) : has_decimals n (py_round q n).
Proof. by exists (round_half_even (q * inject_Z (10 ^ Z.of_nat n))). Qed.

End NumFacts.

(** ** Risk scoring *)

Section RiskFacts.
Import Num RiskAgent.

Lemma add_material_bonus_count (material : pyval) (risk_types : list string) (base : Q) :
  add_material_bonus base material risk_types
  == base + 0.25 * inject_Z (Z.of_nat (length (List.filter (sensitive material) risk_types))).
Proof.
  unfold add_material_bonus. revert base.
  induction risk_types as [|rtype rest IH]; intros base; simpl.
  - change (inject_Z (Z.of_nat 0)) with 0. lra.
  - destruct (sensitive material rtype); rewrite IH; simpl length.
    + rewrite Nat2Z.inj_succ, <- Z.add_1_r, inject_Z_plus.
      change (inject_Z 1) with 1. lra.
    + lra.
Qed.

Lemma add_material_bonus_lower (material : pyval) (risk_types : list string) (base : Q) :
  base <= add_material_bonus base material risk_types.
Proof.
  rewrite add_material_bonus_count.
  assert (0 <= inject_Z (Z.of_nat (length (List.filter (sensitive material) risk_types)))).
  { change 0 with (inject_Z 0). rewrite <- Zle_Qle. lia. }
  lra.
Qed.

Lemma country_base_nonneg (country : string) :
  0 <= default 0.3 (COUNTRY_RISK_BASE !! country).
Proof.
  destruct (COUNTRY_RISK_BASE !! country) as [v|] eqn:E; simpl; [|lra].
  apply elem_of_list_to_map_2 in E.
  repeat (apply elem_of_cons in E as [E|E]; [injection E as _ ->; lra|]).
  by apply elem_of_nil in E.
Qed.

Lemma raw_score_nonneg (news : News.t) (country : string) (material : pyval) :
  (forall r, News.relevance_score news = Some r -> 0 <= r) ->
  0 <= raw_score news country material.
Proof.
  intros Hrel. unfold raw_score.
  set (types := extract_risk_types _).
  set (ents := extract_entities _).
  pose proof (country_base_nonneg country) as Hc.
  pose proof (add_material_bonus_lower material types
                (0.0 + default 0.3 (COUNTRY_RISK_BASE !! country))) as Hm.
  assert (Hr : 0 <= default 0.5 (News.relevance_score news)).
  { destruct (News.relevance_score news) as [r|]; simpl; [by apply Hrel|lra]. }
  destruct (bool_decide _), (val_in _ _); lra.
Qed.

(** Whenever [score_risk] returns, the score is in [0,1] and has two
    decimals. *)
Lemma score_risk_range (news : News.t) (node_data : pydict) (s : Q) :
  (forall r, News.relevance_score news = Some r -> 0 <= r <= 1) ->
  score_risk news node_data = Ok s ->
  0 <= s <= 1 /\ has_decimals 2 s.
Proof.
  intros Hrel H. unfold score_risk in H.
  destruct (country_of node_data) as [country|] eqn:Ec; simpl in H; [|done].
  set (material := default (PyStr "") (node_data !! "material"%string)) in *.
  assert (Hraw : 0 <= raw_score news country material).
  { apply raw_score_nonneg. intros r Hr. by apply Hrel. }
  pose proof (py_round_nonneg _ 2 Hraw) as Hround.
  assert (Hs : s = py_min (py_round (raw_score news country material) 2) 1.0).
  { destruct (Qltb 0.7 _); [destruct (News.title news)|]; congruence. }
  rewrite Hs. clear H Hs.
  destruct (py_min_cases (py_round (raw_score news country material) 2) 1.0)
    as [[-> Hle]|[-> Hlt]].
  - split; [lra|]. apply py_round_has_decimals.
  - split; [lra|]. by exists 100%Z.
Qed.


(** C2, as stated, fails: with the categories "strike" and "disaster",
    both in the sensitivity set of paper pulp, the loop of [score_risk]
    adds 0.25 twice, and the score is 0.65 where a single bonus would
    give 0.40. *)
Lemma C2_counterexample :
  ~ (material_category_bonus Sample.strike_and_flood Sample.pulp_node
     == Spec.material_category_bonus Sample.strike_and_flood Sample.pulp_node)
  /\ material_category_bonus Sample.strike_and_flood Sample.pulp_node == 0.5
  /\ Spec.material_category_bonus Sample.strike_and_flood Sample.pulp_node == 0.25
  /\ score_risk Sample.strike_and_flood Sample.pulp_node = Ok 0.65.
Proof.
  split; [|split; [|split]].
  - intros H. vm_compute in H. discriminate.
  - by vm_compute.
  - by vm_compute.
  - by vm_compute.
Qed.

(** C2, amended: the material-category bonus that [score_risk] adds is
    0.25 times the number of extracted risk categories that are in the
    sensitivity set of the material (so 0 when there is none), and this
    is what the loop over the categories adds to any [base]. *)
Theorem C2_bonus_per_matching_category (news : News.t) (node_data : pydict) :
  material_category_bonus news node_data
  == 0.25 * inject_Z (Z.of_nat (length (sensitive_types news node_data)))
  /\ forall base,
       add_material_bonus base
         (default (PyStr "") (node_data !! "material"%string))
         (extract_risk_types (full_text_of news))
       == base + material_category_bonus news node_data.
Proof.
  unfold material_category_bonus, sensitive_types. split.
  - rewrite add_material_bonus_count. lra.
  - intros base. rewrite !add_material_bonus_count. lra.
Qed.

(** C9 at a news item without a title: the score passes 0.7, the debug
    message slices [news_item.get('title')], which is [None], and
    [score_risk] raises instead of returning; with the title present the
    same item is scored 1.0. *)
Theorem C9_untitled_news_raises :
  News.relevance_score Sample.untitled_quake = Some 0.9
  /\ score_risk Sample.untitled_quake Sample.chip_node = Raise TypeError
  /\ score_risk Sample.titled_quake Sample.chip_node = Ok 1.0.
Proof. by vm_compute. Qed.

End RiskFacts.

(** ** Graph construction *)

Section GraphFacts.

Lemma graph_at_new (st : state) (G : DiGraph) :
  Nx.graph_at (length (graphs st)) (set_graphs (graphs st ++ [G]) st) = G.
Proof. unfold Nx.graph_at. simpl. apply list_lookup_total_middle. done. Qed.

(** C3, as stated, fails: from the empty roster the builder returns before
    it adds the skeleton, the graph has no node and no edge, and [run]
    raises [KeyError] on the statistics of the empty graph. *)
Lemma C3_counterexample :
  ~ Spec.empty_roster_graph Sample.boot
  /\ ~ Spec.empty_roster_status Sample.boot
  /\ Spec.graph_run [] Sample.boot = Raise KeyError.
Proof.
  split; [|split].
  - intros (g & Hg & Hn & _). vm_compute in Hg. injection Hg as <-.
    vm_compute in Hn. discriminate.
  - intros (r & Hr). vm_compute in Hr. discriminate.
  - reflexivity.
Qed.

(** C3, amended: from the empty roster the topology builder returns at
    once and leaves the graph of a new agent empty (no node, no edge,
    hence no supplier node), and [get_graph_stats] reports it as not
    valid. *)
Theorem C3_empty_roster_empty_graph (st : state) :
  exists G st',
    (G ← GraphAgent.init; _ ← GraphAgent.build_graph_from_suppliers G []; mret G) st
    = (Ok G, st')
    /\ Spec.built_graph [] st = Ok (MkDiGraph ∅ ∅)
    /\ Nx.graph_at G st' = MkDiGraph ∅ ∅
    /\ Nx.number_of_nodes (Nx.graph_at G st') = 0%nat
    /\ Nx.number_of_edges (Nx.graph_at G st') = 0%nat
    /\ GraphAgent.get_graph_stats G st' = (Ok (GraphAgent.Stats false None None None), st').
Proof.
  exists (length (graphs st)), (set_graphs (graphs st ++ [MkDiGraph ∅ ∅]) st).
  assert (Hg : Nx.graph_at (length (graphs st))
                 (set_graphs (graphs st ++ [MkDiGraph ∅ ∅]) st) = MkDiGraph ∅ ∅)
    by apply graph_at_new.
  assert (Hrun :
    (G ← GraphAgent.init; _ ← GraphAgent.build_graph_from_suppliers G []; mret G) st
    = (Ok (length (graphs st)), set_graphs (graphs st ++ [MkDiGraph ∅ ∅]) st))
    by reflexivity.
  split; [exact Hrun|]. split.
  { unfold Spec.built_graph. rewrite Hrun. by rewrite Hg. }
  split; [exact Hg|]. rewrite Hg. split; [reflexivity|]. split; [reflexivity|].
  unfold GraphAgent.get_graph_stats, mbind, M_bind, get_state.
  rewrite Hg. reflexivity.
Qed.

End GraphFacts.

(** ** Decisions *)

Section SortFacts.
Context {A : Type} (ge : A -> A -> bool).
Hypothesis ge_total : forall x y, ge x y = false -> ge y x = true.
Hypothesis ge_trans : forall x y z, ge x y = true -> ge y z = true -> ge x z = true.

Lemma insert_desc_perm (x : A) (l : list A) : Permutation (insert_desc ge x l) (x :: l).
Proof.
  induction l as [|y l IH]; simpl; [done|].
  destruct (ge x y); [done|].
  rewrite IH. apply perm_swap.
Qed.

Lemma sort_desc_perm (l : list A) : Permutation (sort_desc ge l) l.
Proof.
  induction l as [|x l IH]; simpl; [done|].
  unfold sort_desc in *. simpl. rewrite insert_desc_perm. by constructor.
Qed.

Lemma insert_desc_sorted (x : A) (l : list A) :
  StronglySorted (fun a b => ge a b = true) l ->
  StronglySorted (fun a b => ge a b = true) (insert_desc ge x l).
Proof.
  induction 1 as [|y l Hs IH Hall]; simpl.
  - repeat constructor.
  - destruct (ge x y) eqn:E.
    + constructor; [by constructor|]. constructor; [done|].
      eapply Forall_impl; [exact Hall|]. intros z Hz. by eapply ge_trans.
    + constructor; [done|].
      eapply Permutation_Forall; [symmetry; apply insert_desc_perm|].
      constructor; [by apply ge_total | done].
Qed.

Lemma sort_desc_sorted (l : list A) :
  StronglySorted (fun a b => ge a b = true) (sort_desc ge l).
Proof.
  induction l as [|x l IH]; [constructor|].
  apply insert_desc_sorted, IH.
Qed.

End SortFacts.

Section DecisionFacts.
Import Num DecisionAgent.

Lemma by_urgency_total (x y : string * action_info) :
  by_urgency x y = false -> by_urgency y x = true.
Proof. unfold by_urgency. rewrite Z.leb_gt, Z.leb_le. lia. Qed.

Lemma by_urgency_trans (x y z : string * action_info) :
  by_urgency x y = true -> by_urgency y z = true -> by_urgency x z = true.
Proof. unfold by_urgency. rewrite !Z.leb_le. lia. Qed.

Lemma unique_from_elem (seen : gset string) (actions : list string) (x : string) :
  x ∈ unique_from seen actions -> x ∈ actions /\ x ∉ seen.
Proof.
  revert seen. induction actions as [|act rest IH]; intros seen; simpl.
  - by intros ?%elem_of_nil.
  - case_bool_decide as Hin.
    + intros Hx. destruct (IH _ Hx) as [Hx' Hs]. split; [by right|done].
    + intros [->|Hx]%elem_of_cons.
      * split; [by left|done].
      * destruct (IH _ Hx) as [Hx' Hs]. split; [by right|]. set_solver.
Qed.

Lemma unique_from_NoDup (seen : gset string) (actions : list string) :
  NoDup (unique_from seen actions).
Proof.
  revert seen. induction actions as [|act rest IH]; intros seen; simpl.
  - constructor.
  - case_bool_decide as Hin; [apply IH|].
    apply NoDup_cons. split; [|apply IH].
    intros [_ Hs]%unique_from_elem. set_solver.
Qed.

Lemma unique_from_nonempty (actions : list string) :
  actions <> [] -> unique_from ∅ actions <> [].
Proof. destruct actions as [|act rest]; [done|]. intros _. simpl. by case_bool_decide. Qed.

Lemma with_info_known (acts : list string) :
  Forall (fun act => is_Some (ACTION_LIBRARY !! act)) acts ->
  exists infos, with_info acts = Ok infos /\ infos.*1 = acts.
Proof.
  induction 1 as [|act rest [info Hinfo] _ (infos & Hi & Hfst)]; simpl.
  - by exists [].
  - rewrite Hinfo, Hi. simpl. exists ((act, info) :: infos). by rewrite <- Hfst.
Qed.

Lemma remove_first_elem (x y : string) (l : list string) :
  y ∈ remove_first x l -> y ∈ l.
Proof.
  induction l as [|z l IH]; simpl; [done|].
  case_bool_decide; [by right|].
  intros [->|?]%elem_of_cons; [by left|right; auto].
Qed.

(** Every action the rules select is in the action library, and the rules
    select at least one. *)
Lemma select_actions_known (severity delay_days service_impact : Q)
    (affected_count : nat) (material country disruption_type : string) :
  let actions :=
    select_actions severity delay_days service_impact affected_count
      material country disruption_type in
  actions <> []
  /\ Forall (fun act => is_Some (ACTION_LIBRARY !! act)) actions.
Proof.
  assert (Hlib : forall act,
    act ∈ ["do_nothing"; "increase_monitoring"; "notify_procurement";
           "activate_alternative_source"; "increase_safety_stock";
           "expedite_shipment"; "diversify_suppliers"]%string ->
    is_Some (ACTION_LIBRARY !! act)).
  { intros act H.
    repeat (apply elem_of_cons in H as [->|H]; [by vm_compute; eexists|]).
    by apply elem_of_nil in H. }
  cbv zeta. unfold select_actions.
  set (base :=
    if Qgeb severity CRITICAL_RISK_THRESHOLD || _ || _ then _ else _).
  assert (Hbase : base <> [] /\ Forall (fun act => act ∈
              ["do_nothing"; "increase_monitoring"; "notify_procurement";
               "activate_alternative_source"; "increase_safety_stock";
               "expedite_shipment"; "diversify_suppliers"]%string) base).
  { unfold base. repeat case_match; (split; [done|]);
      repeat (first [apply Forall_nil_2 | apply Forall_cons_2]); set_solver. }
  clearbody base.
  set (actions := if Qltb delay_days 3 && _ && _ then _ else base).
  assert (Hact : actions <> [] /\ Forall (fun act => act ∈
              ["do_nothing"; "increase_monitoring"; "notify_procurement";
               "activate_alternative_source"; "increase_safety_stock";
               "expedite_shipment"; "diversify_suppliers"]%string) actions).
  { unfold actions. case_match; [|exact Hbase]. split; [done|].
    apply Forall_cons_2; [set_solver|constructor]. }
  clearbody actions. destruct Hact as [Hne Hall].
  case_match.
  - split; [by destruct (remove_first _ _)|].
    apply Forall_app. split.
    + apply Forall_forall. intros act Hact%remove_first_elem.
      apply Hlib. by eapply Forall_forall in Hall.
    + apply Forall_cons_2; [by vm_compute; eexists|constructor].
  - split; [done|]. eapply Forall_impl; [exact Hall|]. exact Hlib.
Qed.

(** C5: for every risk and scenario, [decide_for_scenario] returns a
    decision whose list of recommended actions is not empty, has no
    action id twice, and is in non-increasing order of urgency. *)
Theorem C5_actions_nonempty_unique_sorted (risk : Risk.t) (sim : Scenario.t) :
  exists d,
    decide_for_scenario risk sim = Ok d
    /\ Decision.recommended_actions d <> []
    /\ NoDup (Decision.action <$> Decision.recommended_actions d)
    /\ StronglySorted (fun a b => (Decision.urgency b <= Decision.urgency a)%Z)
         (Decision.recommended_actions d).
Proof.
  unfold decide_for_scenario.
  set (actions := select_actions _ _ _ _ _ _ _).
  destruct (select_actions_known (Risk.risk_score risk)
              (Scenario.estimated_delay_days sim)
              (Scenario.service_level_impact_pct sim)
              (Scenario.affected_nodes_count sim)
              (default "Unknown"%string (Risk.material risk))
              (default "Unknown"%string (Risk.country risk))
              (default "Unknown"%string (Scenario.disruption_type sim)))
    as [Hne Hknown].
  fold actions in Hne, Hknown.
  destruct (with_info_known (unique_from ∅ actions)) as (infos & Hinfos & Hfst).
  { apply Forall_forall. intros act [Hact _]%unique_from_elem.
    by eapply Forall_forall in Hknown. }
  rewrite Hinfos. simpl. eexists. split; [reflexivity|]. simpl.
  set (conf := py_round _ 2).
  pose proof (sort_desc_perm by_urgency infos) as Hperm.
  set (f := fun '(act, info) =>
              Decision.Recommendation act (description info) (urgency info) conf
                (lead_time_days info)).
  change (List.map f (sort_desc by_urgency infos))
    with (f <$> sort_desc by_urgency infos).
  split; [|split].
  - intros Hnil. apply fmap_nil_inv in Hnil. rewrite Hnil in Hperm.
    apply Permutation_nil_l in Hperm. subst infos. simpl in Hfst.
    by apply (unique_from_nonempty actions).
  - rewrite <- list_fmap_compose.
    assert (Heq : (Decision.action ∘ f <$> sort_desc by_urgency infos)
                  = (sort_desc by_urgency infos).*1).
    { apply list_fmap_ext. by intros _ [act info] _. }
    rewrite Heq, Hperm, Hfst. apply unique_from_NoDup.
  - eapply (StronglySorted_fmap f (fun a b => by_urgency a b = true));
      [|apply sort_desc_sorted; [exact by_urgency_total|exact by_urgency_trans]].
    intros [a ia] [b ib]. unfold by_urgency. simpl. by rewrite Z.leb_le.
Qed.

Lemma material_criticality_range (material : string) :
  (1 <= material_criticality_of material <= 5)%Z
  /\ (MATERIAL_CRITICALITY !! material = None -> material_criticality_of material = 2%Z).
Proof.
  unfold material_criticality_of.
  destruct (MATERIAL_CRITICALITY !! material) as [v|] eqn:E; simpl; [|split; [lia|done]].
  split; [|done].
  apply elem_of_list_to_map_2 in E.
  repeat (apply elem_of_cons in E as [E|E]; [injection E as _ ->; lia|]).
  by apply elem_of_nil in E.
Qed.

Lemma country_risk_range (country : string) :
  (1 <= country_risk_of country <= 5)%Z
  /\ (COUNTRY_GEOPOLITICAL_RISK !! country = None -> country_risk_of country = 2%Z).
Proof.
  unfold country_risk_of.
  destruct (COUNTRY_GEOPOLITICAL_RISK !! country) as [v|] eqn:E; simpl; [|split; [lia|done]].
  split; [|done].
  apply elem_of_list_to_map_2 in E.
  repeat (apply elem_of_cons in E as [E|E]; [injection E as _ ->; lia|]).
  by apply elem_of_nil in E.
Qed.

Lemma capped_factor_range (x d : Q) :
  0 <= x -> 0 < d -> 0 <= py_min (x / d) 1 * 0.2 <= 0.2.
Proof.
  intros Hx Hd.
  assert (0 <= x / d) by (apply Qle_shift_div_l; [done|lra]).
  destruct (py_min_cases (x / d) 1) as [[-> ?]|[-> ?]]; lra.
Qed.

Lemma table_factor_range (k : Z) :
  (1 <= k <= 5)%Z -> 0 <= (inject_Z k / 5) * 0.2 <= 0.2.
Proof.
  intros [Hl Hu]. rewrite Zle_Qle in Hl, Hu.
  change (inject_Z 1) with 1 in Hl. change (inject_Z 5) with 5 in Hu.
  unfold Qdiv. change (/ 5) with (1 # 5). lra.
Qed.

(** C6: for a risk with a non-negative score and a scenario with a
    non-negative delay and service impact, [calculate_confidence] is the
    formula of the specification, clamp01(min(severity,1) + delayFactor +
    serviceFactor + materialFactor + countryFactor) rounded to two
    decimals; the criticality and the country risk are in 1..5, with 2
    for a material or country the tables do not list; and each of the
    four factors is in [0, 0.2]. *)
Theorem C6_confidence_formula (risk : Risk.t) (sim : Scenario.t) :
  0 <= Risk.risk_score risk ->
  0 <= Scenario.estimated_delay_days sim ->
  0 <= Scenario.service_level_impact_pct sim ->
  let severity := Risk.risk_score risk in
  let delay := Scenario.estimated_delay_days sim in
  let impact := Scenario.service_level_impact_pct sim in
  let material := default "Unknown"%string (Risk.material risk) in
  let country := default "Unknown"%string (Risk.country risk) in
  let materialCriticality := material_criticality_of material in
  let countryRisk := country_risk_of country in
  calculate_confidence risk sim
  = Spec.confidence severity delay impact materialCriticality countryRisk
  /\ ((1 <= materialCriticality <= 5)%Z
      /\ (MATERIAL_CRITICALITY !! material = None -> materialCriticality = 2%Z))
  /\ ((1 <= countryRisk <= 5)%Z
      /\ (COUNTRY_GEOPOLITICAL_RISK !! country = None -> countryRisk = 2%Z))
  /\ 0 <= Spec.delayFactor delay <= 0.2
  /\ 0 <= Spec.serviceFactor impact <= 0.2
  /\ 0 <= Spec.materialFactor materialCriticality <= 0.2
  /\ 0 <= Spec.countryFactor countryRisk <= 0.2.
Proof.
  intros Hs Hd Hi. cbv zeta.
  set (material := default "Unknown"%string (Risk.material risk)).
  set (country := default "Unknown"%string (Risk.country risk)).
  pose proof (material_criticality_range material) as Hm.
  pose proof (country_risk_range country) as Hc.
  pose proof (capped_factor_range _ 14 Hd ltac:(lra)) as Hdf.
  pose proof (capped_factor_range _ 60 Hi ltac:(lra)) as Hsf.
  pose proof (table_factor_range _ (proj1 Hm)) as Hmf.
  pose proof (table_factor_range _ (proj1 Hc)) as Hcf.
  split; [|by repeat split; try apply Hm; try apply Hc;
             try apply Hdf; try apply Hsf; try apply Hmf; try apply Hcf].
  unfold calculate_confidence, Spec.confidence, Spec.clamp01.
  fold material country.
  unfold Spec.delayFactor, Spec.serviceFactor, Spec.materialFactor, Spec.countryFactor,
    CRITICAL_DELAY_DAYS, CRITICAL_SERVICE_IMPACT.
  set (x := py_min (Risk.risk_score risk) 1.0 + _ + _ + _ + _).
  set (y := py_min (Risk.risk_score risk) 1.0 + _ + _ + _ + _).
  assert (Hxy : x == y).
  { pose proof (py_min_comp (Scenario.estimated_delay_days sim / 14) _ 1.0 1
                  ltac:(reflexivity) ltac:(reflexivity)) as E1.
    pose proof (py_min_comp (Scenario.service_level_impact_pct sim / 60) _ 1.0 1
                  ltac:(reflexivity) ltac:(reflexivity)) as E2.
    unfold x, y. clearbody material country. clear -E1 E2.
    set (a := py_min (_ / 14) 1.0) in *. set (a' := py_min (_ / 14) 1) in *.
    set (b := py_min (_ / 60) 1.0) in *. set (b' := py_min (_ / 60) 1) in *.
    clearbody a a' b b'.
    unfold Qdiv. change (/ 5.0) with (10 # 50). change (/ 5) with (1 # 5). lra. }
  assert (Hy : 0 <= y).
  { unfold y. unfold Spec.delayFactor, Spec.serviceFactor, Spec.materialFactor,
      Spec.countryFactor in Hdf, Hsf, Hmf, Hcf.
    destruct (py_min_cases (Risk.risk_score risk) 1.0) as [[-> ?]|[-> ?]]; lra. }
  apply py_round_comp.
  assert (Hmin : py_min x 1.0 == py_min y 1).
  { apply py_min_comp; [exact Hxy|reflexivity]. }
  assert (Hpos : 0 <= py_min y 1).
  { destruct (py_min_cases y 1) as [[-> ?]|[-> ?]]; lra. }
  destruct (py_max_cases 0 (py_min y 1)) as [[-> ?]|[-> ?]]; lra.
Qed.

(** A risk and a scenario inside the ranges of C6. *)
Lemma C6_confidence_formula_witness :
  0 <= Risk.risk_score (Risk.Record_ "S1" 0.45 None (Some "Taiwan") (Some "Steel") None)
  /\ calculate_confidence
       (Risk.Record_ "S1" 0.45 None (Some "Taiwan") (Some "Steel") None)
       (Scenario.Record_ "S1" (Some "capacity_reduction") 0.45 20 6.3 4 0.0 "quake")
     = Spec.confidence 0.45 6.3 0.0 4 5.
Proof.
  split; [by vm_compute|].
  apply (C6_confidence_formula
           (Risk.Record_ "S1" 0.45 None (Some "Taiwan") (Some "Steel") None)
           (Scenario.Record_ "S1" (Some "capacity_reduction") 0.45 20 6.3 4 0.0 "quake"));
    by vm_compute.
Defined.

Lemma run_no_risks (risks : option risk_result) (sims : option simulation_result) :
  default [] (r ← risks; risks_detected r) = [] \/
  default [] (s ← sims; scenarios s) = [] ->
  run risks sims = Ok Spec.empty_sentinel.
Proof.
  unfold run. intros [-> | ->]; [done|].
  by destruct (default [] _).
Qed.

(** C7: when the risk input or the scenario input of the decision engine
    is [None], lacks its list, or has an empty list, [run] returns the
    empty-result sentinel (no decision, overall confidence 0.0, top
    recommendation [do_nothing]) and raises nothing. *)
Theorem C7_missing_input_sentinel
    (risks : option risk_result) (sims : option simulation_result) :
  Spec.no_risks risks \/ Spec.no_scenarios sims ->
  run risks sims = Ok Spec.empty_sentinel
  /\ recommended_actions Spec.empty_sentinel = []
  /\ decision_count Spec.empty_sentinel = 0%nat
  /\ overall_confidence Spec.empty_sentinel == 0
  /\ top_recommendation Spec.empty_sentinel = "do_nothing"%string.
Proof.
  intros H. split; [|by repeat split].
  apply run_no_risks.
  destruct H as [[->|(r & -> & [Hr|Hr])] | [->|(s & -> & [Hs|Hs])]]; simpl;
    rewrite ?Hr, ?Hs; auto.
Qed.

(** Scenarios without any risk: the sentinel. *)
Lemma C7_missing_input_sentinel_witness :
  run None
    (Some (SimulationResult
             (Some [Scenario.Record_ "S1" (Some "node_failure") 0.9 80 0 1 75 "quake"])))
  = Ok Spec.empty_sentinel.
Proof.
  apply (C7_missing_input_sentinel None
           (Some (SimulationResult
                    (Some [Scenario.Record_ "S1" (Some "node_failure") 0.9 80 0 1 75
                             "quake"])))).
  left. by left.
Defined.

End DecisionFacts.

(** ** Computations *)

Section WpFacts.
Context {A B : Type}.

Lemma wp_bind (m : M A) (k : A -> M B) (Q : result B -> state -> Prop) (st : state) :
  wp m (fun r st1 =>
          match r with
          | Ok a => wp (k a) Q st1
          | Raise e => Q (Raise e) st1
          end) st ->
  wp (m ≫= k) Q st.
Proof.
  unfold wp, mbind, M_bind. by destruct (m st) as [[a|e] st1].
Qed.

Lemma wp_ret (a : A) (Q : result A -> state -> Prop) (st : state) :
  Q (Ok a) st -> wp (mret a) Q st.
Proof. done. Qed.

Lemma wp_raise (e : exn) (Q : result A -> state -> Prop) (st : state) :
  Q (Raise e) st -> wp (raise e) Q st.
Proof. done. Qed.

Lemma wp_lift (r : result A) (Q : result A -> state -> Prop) (st : state) :
  Q r st -> wp (lift r) Q st.
Proof. done. Qed.

Lemma wp_mono (m : M A) (Q Q' : result A -> state -> Prop) (st : state) :
  (forall r st', Q r st' -> Q' r st') -> wp m Q st -> wp m Q' st.
Proof. unfold wp. auto. Qed.

Lemma wp_elim (m : M A) (Q : result A -> state -> Prop) (st st' : state) (r : result A) :
  wp m Q st -> m st = (r, st') -> Q r st'.
Proof. unfold wp. intros H E. by rewrite E in H. Qed.

End WpFacts.

Lemma wp_try_except {A} (m h : M A) (e : exn) (Q : result A -> state -> Prop)
    (st : state) :
  wp m (fun r st1 =>
          match r with
          | Ok a => Q (Ok a) st1
          | Raise e' => if decide (e' = e) then wp h Q st1 else Q (Raise e') st1
          end) st ->
  wp (try_except m e h) Q st.
Proof.
  unfold wp, try_except. destruct (m st) as [[a|e'] st1]; simpl; [done|].
  by destruct (decide (e' = e)).
Qed.

Lemma wp_get_state (Q : result state -> state -> Prop) (st : state) :
  Q (Ok st) st -> wp get_state Q st.
Proof. done. Qed.

Lemma wp_modify (f : state -> state) (Q : result unit -> state -> Prop) (st : state) :
  Q (Ok tt) (f st) -> wp (modify f) Q st.
Proof. done. Qed.

(** ** The heap and the graph operations *)

Section NxFacts.
Import Nx.

Lemma copy_nodes_app (l : list (string * nat)) (ds : list pydict) (acc : gmap string nat) :
  exists ext, (copy_nodes l ds acc).1 = ds ++ ext.
Proof.
  revert ds acc. induction l as [|[n r] l IH]; intros ds acc; simpl.
  - exists []. by rewrite app_nil_r.
  - destruct (IH (ds ++ [default ∅ (ds !! r)]) (<[n:=length ds]> acc)) as [ext ->].
    eexists. by rewrite <- app_assoc.
Qed.

Lemma copy_nodes_other (l : list (string * nat)) (ds : list pydict)
    (acc : gmap string nat) (n : string) :
  n ∉ l.*1 -> (copy_nodes l ds acc).2 !! n = acc !! n.
Proof.
  revert ds acc. induction l as [|[n0 r0] l IH]; intros ds acc Hn; simpl; [done|].
  rewrite fmap_cons, not_elem_of_cons in Hn. destruct Hn as [Hne Hn].
  rewrite IH by done. by rewrite lookup_insert_ne.
Qed.

Lemma copy_nodes_dom (l : list (string * nat)) (ds : list pydict) (acc : gmap string nat) :
  dom (copy_nodes l ds acc).2 = list_to_set l.*1 ∪ dom acc.
Proof.
  revert ds acc. induction l as [|[n r] l IH]; intros ds acc; simpl.
  - set_solver.
  - rewrite IH, dom_insert_L. set_solver.
Qed.

Lemma copy_nodes_fresh (l : list (string * nat)) (ds : list pydict)
    (acc : gmap string nat) (n : string) (r' : nat) :
  (copy_nodes l ds acc).2 !! n = Some r' ->
  acc !! n = Some r' \/ (length ds <= r')%nat.
Proof.
  revert ds acc. induction l as [|[n0 r0] l IH]; intros ds acc; simpl; [auto|].
  intros [H|H]%IH.
  - destruct (decide (n0 = n)) as [->|Hne].
    + rewrite lookup_insert_eq in H. injection H as <-. right. lia.
    + rewrite lookup_insert_ne in H by done. by left.
  - right. rewrite length_app in H. simpl in H. lia.
Qed.

Lemma copy_nodes_content (l : list (string * nat)) (ds : list pydict)
    (acc : gmap string nat) (n : string) (r : nat) :
  NoDup l.*1 ->
  Forall (fun p => p.2 < length ds)%nat l ->
  (n, r) ∈ l ->
  exists r', (copy_nodes l ds acc).2 !! n = Some r'
             /\ (copy_nodes l ds acc).1 !! r' = Some (default ∅ (ds !! r)).
Proof.
  revert ds acc. induction l as [|[n0 r0] l IH]; intros ds acc Hnd Hwf Hin; simpl.
  - by apply elem_of_nil in Hin.
  - rewrite fmap_cons in Hnd. apply NoDup_cons in Hnd as [Hn0 Hnd].
    apply Forall_cons in Hwf as [Hr0 Hwf]. simpl in Hr0.
    apply elem_of_cons in Hin as [Heq|Hin].
    + injection Heq as -> ->. exists (length ds). split.
      * rewrite copy_nodes_other by done. apply lookup_insert_eq.
      * destruct (copy_nodes_app l (ds ++ [default ∅ (ds !! r0)])
                    (<[n0:=length ds]> acc)) as [ext ->].
        rewrite <- app_assoc. simpl. by apply list_lookup_middle.
    + destruct (IH (ds ++ [default ∅ (ds !! r0)]) (<[n0:=length ds]> acc))
        as (r' & Hr' & Hc); [done| |done|].
      { eapply Forall_impl; [exact Hwf|]. intros p Hp. rewrite length_app. simpl in *. lia. }
      exists r'. split; [done|]. rewrite Hc. f_equal. f_equal.
      apply lookup_app_l.
      eapply Forall_forall in Hwf; [|exact Hin]. done.
Qed.

(** What [G.copy()] does: a new graph object with the same edges and the
    same nodes, each with a new attribute dictionary that holds the items
    of the original one. *)
Lemma wp_copy (G : nat) (Q : result nat -> state -> Prop) (st : state) :
  (forall (ext : list pydict) (nodes : gmap string nat),
     dom nodes = dom (node_ref (graph_at G st)) ->
     (forall n r', nodes !! n = Some r' -> (length (dicts st) <= r')%nat) ->
     (map_Forall (fun _ r => r < length (dicts st))%nat (node_ref (graph_at G st)) ->
      forall n r, node_ref (graph_at G st) !! n = Some r ->
        exists r', nodes !! n = Some r'
                   /\ (dicts st ++ ext) !! r' = Some (dict_at r st)) ->
     Q (Ok (length (graphs st)))
       (set_graphs (graphs st ++ [MkDiGraph nodes (succ (graph_at G st))])
          (set_dicts (dicts st ++ ext) st))) ->
  wp (copy G) Q st.
Proof.
  intros HQ. unfold wp, copy.
  pose proof (copy_nodes_app (map_to_list (node_ref (graph_at G st))) (dicts st) ∅)
    as [ext Hext].
  pose proof (copy_nodes_dom (map_to_list (node_ref (graph_at G st))) (dicts st) ∅)
    as Hdom.
  pose proof (copy_nodes_fresh (map_to_list (node_ref (graph_at G st))) (dicts st) ∅)
    as Hfresh.
  pose proof (copy_nodes_content (map_to_list (node_ref (graph_at G st))) (dicts st) ∅)
    as Hcontent.
  destruct (copy_nodes _ _ _) as [ds nodes]. simpl in *. subst ds.
  apply HQ.
  - rewrite Hdom, dom_empty_L, union_empty_r_L.
    apply set_eq. intros n.
    rewrite elem_of_list_to_set, elem_of_dom, list_elem_of_fmap.
    split.
    + intros ([n' r] & -> & Hin%elem_of_map_to_list). by exists r.
    + intros [r Hr]. exists (n, r). split; [done|]. by apply elem_of_map_to_list.
  - intros n r' Hn. destruct (Hfresh n r' Hn) as [H|H]; [|done].
    by rewrite lookup_empty in H.
  - intros Hwf n r Hr.
    apply (Hcontent n r).
    + apply NoDup_fst_map_to_list.
    + apply Forall_forall. intros [n' r0] Hin%elem_of_map_to_list.
      by apply (Hwf n' r0).
    + by apply elem_of_map_to_list.
Qed.

Lemma bfs_ext (G1 G2 : DiGraph) (fuel depth : nat)
    (frontier : gset string) (seen : gmap string nat) :
  succ G1 = succ G2 -> bfs G1 fuel depth frontier seen = bfs G2 fuel depth frontier seen.
Proof.
  intros Hs. revert depth frontier seen.
  induction fuel as [|fuel IH]; intros depth frontier seen; simpl; [done|].
  assert (Hsucc : successors G1 = successors G2).
  { unfold successors. by rewrite Hs. }
  rewrite Hsucc. case_decide; [done|]. apply IH.
Qed.

Lemma bfs_keeps (G : DiGraph) (fuel depth : nat)
    (frontier : gset string) (seen : gmap string nat) (n : string) (d : nat) :
  seen !! n = Some d -> bfs G fuel depth frontier seen !! n = Some d.
Proof.
  revert depth frontier seen. induction fuel as [|fuel IH];
    intros depth frontier seen Hn; simpl; [done|].
  case_decide; [done|]. apply IH.
  apply lookup_union_Some_raw. right. split; [|done].
  apply lookup_gset_to_gmap_None.
  assert (n ∈ dom seen) by (apply elem_of_dom; eauto). set_solver.
Qed.

Lemma descendants_ext (G1 G2 : DiGraph) (n : string) :
  succ G1 = succ G2 -> dom (node_ref G1) = dom (node_ref G2) ->
  descendants G1 n = descendants G2 n.
Proof.
  intros Hs Hd. unfold descendants, single_source_shortest_path_length,
    number_of_nodes, has_node.
  rewrite <- !size_dom, Hd.
  rewrite (bfs_ext G1 G2) by done.
  assert (Hn : is_Some (node_ref G1 !! n) <-> is_Some (node_ref G2 !! n)).
  { by rewrite <- !elem_of_dom, Hd. }
  by rewrite (bool_decide_ext _ _ Hn).
Qed.

Lemma shortest_path_length_self (G : DiGraph) (n : string) :
  has_node G n = true -> shortest_path_length G n n = Ok 0%nat.
Proof.
  intros H. unfold shortest_path_length, single_source_shortest_path_length.
  rewrite H. simpl.
  by rewrite (bfs_keeps _ _ _ _ _ n 0%nat) by apply lookup_singleton_eq.
Qed.

Lemma has_node_false (G : DiGraph) (n : string) :
  has_node G n = false <-> node_ref G !! n = None.
Proof.
  unfold has_node. rewrite bool_decide_eq_false, <- eq_None_not_Some. done.
Qed.

Lemma has_node_true (G : DiGraph) (n : string) :
  has_node G n = true <-> n ∈ dom (node_ref G).
Proof. unfold has_node. by rewrite bool_decide_eq_true, elem_of_dom. Qed.

Lemma has_node_nonempty (G : DiGraph) (n : string) :
  has_node G n = true -> number_of_nodes G <> 0%nat.
Proof.
  unfold has_node, number_of_nodes. intros [r Hr]%bool_decide_eq_true.
  intros Hz%map_size_empty_iff. rewrite Hz in Hr. by rewrite lookup_empty in Hr.
Qed.

Lemma has_node_valid (G : nat) (n : string) (st : state) :
  has_node (graph_at G st) n = true -> (G < length (graphs st))%nat.
Proof.
  unfold graph_at. intros H.
  destruct (decide (G < length (graphs st))%nat) as [|Hge]; [done|].
  rewrite list_lookup_total_alt, lookup_ge_None_2 in H by lia. done.
Qed.

End NxFacts.

(** ** Reachability *)

Section BfsFacts.
Import Nx.
Context (G : DiGraph) (source : string).
Hypothesis G_closed : closed_graph G.

Lemma bfs_reaches (fuel depth : nat) (frontier : gset string) (seen : gmap string nat) :
  frontier ⊆ dom seen ->
  (forall u, u ∈ dom seen -> u ∉ frontier -> forall v, edge G u v -> v ∈ dom seen) ->
  (forall v, v ∈ dom seen -> rtc (edge G) source v) ->
  dom seen ⊆ dom (node_ref G) ->
  (size (dom (node_ref G) ∖ dom seen) < fuel)%nat ->
  dom seen ⊆ dom (bfs G fuel depth frontier seen)
  /\ (forall u v, u ∈ dom (bfs G fuel depth frontier seen) -> edge G u v ->
        v ∈ dom (bfs G fuel depth frontier seen))
  /\ (forall v, v ∈ dom (bfs G fuel depth frontier seen) -> rtc (edge G) source v).
Proof.
  revert depth frontier seen.
  induction fuel as [|fuel IH]; intros depth frontier seen Hfr Hcl Hsound Hnodes Hsize;
    [lia|].
  simpl. set (next := set_bind (successors G) frontier ∖ dom seen).
  assert (Hnext : forall v, v ∈ next <-> (exists u, u ∈ frontier /\ edge G u v) /\ v ∉ dom seen).
  { intros v. unfold next, edge. rewrite elem_of_difference, elem_of_set_bind.
    naive_solver. }
  clearbody next.
  case_decide as Hempty.
  - clear IH. split; [done|]. split; [|done].
    intros u v Hu Huv. destruct (decide (u ∈ frontier)) as [Hin|Hout].
    + destruct (decide (v ∈ dom seen)) as [|Hv]; [done|].
      assert (v ∈ next) by (apply Hnext; eauto). set_solver.
    + by eapply Hcl.
  - set (seen' := gset_to_gmap (S depth) next ∪ seen).
    assert (Hdom : dom seen' = next ∪ dom seen).
    { unfold seen'. by rewrite dom_union_L, dom_gset_to_gmap. }
    clearbody seen'.
    destruct (IH (S depth) next seen') as (Hsub & Hclosed & Hsnd).
    + clear IH. rewrite Hdom. set_solver.
    + clear IH. rewrite Hdom. intros u Hu Hun v Huv.
      assert (Hus : u ∈ dom seen) by set_solver.
      destruct (decide (u ∈ frontier)) as [Hin|Hout].
      * destruct (decide (v ∈ dom seen)) as [|Hv]; [set_solver|].
        assert (v ∈ next) by (apply Hnext; eauto). set_solver.
      * assert (v ∈ dom seen) by (by eapply Hcl). set_solver.
    + clear IH. rewrite Hdom. intros v [Hv|Hv]%elem_of_union; [|by apply Hsound].
      apply Hnext in Hv as [(u & Hu & Huv) _].
      eapply rtc_r; [|exact Huv]. apply Hsound. set_solver.
    + clear IH. rewrite Hdom. intros v [Hv|Hv]%elem_of_union; [|set_solver].
      apply Hnext in Hv as [(u & Hu & Huv) _]. by eapply G_closed.
    + clear IH. rewrite Hdom.
      assert (Hlt : (size (dom (node_ref G) ∖ (next ∪ dom seen))
                     < size (dom (node_ref G) ∖ dom seen))%nat).
      { apply subset_size. apply set_choose_L in Hempty as [v Hv].
        pose proof Hv as Hv'. apply Hnext in Hv' as [(u & Hu & Huv) Hns].
        assert (v ∈ dom (node_ref G)) by (by eapply G_closed).
        set_solver. }
      lia.
    + clear IH. split; [|done]. rewrite Hdom in Hsub. set_solver.
Qed.

(** [nx.descendants] is reachability: on a graph whose edges end at
    nodes, the breadth-first search has fuel enough, and the descendants
    of a node are the other nodes that a path from it reaches. *)
Lemma descendants_reachable :
  has_node G source = true ->
  exists des, descendants G source = Ok des
    /\ forall v, v ∈ des <-> v <> source /\ rtc (edge G) source v.
Proof.
  intros Hhas. unfold descendants. rewrite Hhas. eexists. split; [reflexivity|].
  apply has_node_true in Hhas.
  unfold single_source_shortest_path_length, number_of_nodes.
  destruct (bfs_reaches (size (node_ref G)) 0 {[source]} {[source := 0%nat]})
    as (Hsub & Hclosed & Hsound).
  - rewrite dom_singleton_L. set_solver.
  - rewrite dom_singleton_L. set_solver.
  - rewrite dom_singleton_L. intros v ->%elem_of_singleton. constructor.
  - rewrite dom_singleton_L. set_solver.
  - rewrite dom_singleton_L, <- size_dom.
    apply subset_size. set_solver.
  - intros v. rewrite elem_of_difference, elem_of_singleton. split.
    + intros [Hv Hne]. split; [done|]. by apply Hsound.
    + intros [Hne Hreach]. split; [|done].
      clear Hne. revert v Hreach.
      apply (rtc_ind_r (fun v => v ∈ dom (bfs G (size (node_ref G)) 0 {[source]}
                                            {[source := 0%nat]}))).
      * apply Hsub. rewrite dom_singleton_L. set_solver.
      * intros u v _ Huv Hu. by eapply Hclosed.
Qed.

End BfsFacts.

(** ** The graph the graph agent builds *)

Section BuildFacts.
Import Nx.

Lemma keeps_trans (G : nat) (st1 st2 st3 : state) :
  Spec.keeps G st1 st2 -> Spec.keeps G st2 st3 -> Spec.keeps G st1 st3.
Proof.
  intros (_ & Hd1 & Hs1 & Hm1) (Hok & Hd2 & Hs2 & Hm2).
  split; [done|]. split; [set_solver|]. split; congruence.
Qed.

Lemma keeps_refl (G : nat) (st : state) : Spec.graph_ok G st -> Spec.keeps G st st.
Proof. intros Hok. split; [done|]. split; [reflexivity|]. done. Qed.

Lemma add_node_keeps (G : nat) (n : string) (attr : pydict) (st : state) :
  Spec.graph_ok G st ->
  wp (add_node G n attr)
    (fun r st' => r = Ok tt /\ Spec.keeps G st st'
                  /\ n ∈ dom (node_ref (graph_at G st'))) st.
Proof.
  intros (HG & Hrefs & Hclosed). unfold add_node.
  apply wp_bind, wp_get_state.
  destruct (node_ref (graph_at G st) !! n) as [r|] eqn:En.
  - unfold dict_update. apply wp_modify.
    split; [done|]. split; [|by apply elem_of_dom; eauto].
    split; [|done]. split; [done|]. split; [|done].
    simpl. by rewrite length_insert.
  - apply wp_bind. unfold alloc_dict, wp. simpl.
    set (G' := MkDiGraph _ _).
    match goal with |- _ /\ Spec.keeps G st ?s /\ _ => set (st' := s) end.
    assert (Hat' : graph_at G st' = G').
    { unfold graph_at, st'. simpl. by apply list_lookup_total_insert_eq. }
    split; [done|]. rewrite Hat'. split.
    + split; [|split; [|done]].
      * split; [simpl; by rewrite length_insert|]. rewrite Hat'. split.
        -- simpl. rewrite length_insert, length_app. simpl.
           apply map_Forall_insert_2; [lia|].
           eapply map_Forall_impl; [exact Hrefs|]. simpl. intros; lia.
        -- intros u v. unfold edge, successors, G'. simpl.
           rewrite dom_insert_L.
           destruct (decide (n = u)) as [->|Hne].
           ++ rewrite lookup_insert_eq. simpl. set_solver.
           ++ rewrite lookup_insert_ne by done. intros Huv.
              apply elem_of_union_r. by apply (Hclosed u v).
      * rewrite Hat'. unfold G'. simpl. rewrite dom_insert_L. set_solver.
    + unfold G'. simpl. rewrite dom_insert_L. set_solver.
Qed.

Lemma add_edge_keeps (G : nat) (u v : string) (attr : pydict) (st : state) :
  Spec.graph_ok G st ->
  wp (add_edge G u v attr) (fun r st' => r = Ok tt /\ Spec.keeps G st st') st.
Proof.
  intros Hok. unfold add_edge.
  apply wp_bind. eapply wp_mono; [|by apply add_node_keeps].
  intros r st1 (-> & Hk1 & Hu).
  apply wp_bind. eapply wp_mono; [|apply add_node_keeps, Hk1].
  intros r st2 (-> & Hk2 & Hv).
  apply wp_bind, wp_get_state. unfold put_graph. apply wp_modify.
  split; [done|]. eapply keeps_trans; [exact Hk1|].
  eapply keeps_trans; [exact Hk2|].
  destruct Hk2 as ((HG & Hrefs & Hclosed) & _).
  set (G' := MkDiGraph _ _).
  match goal with |- Spec.keeps G st2 ?s => set (st' := s) end.
  assert (Hat : graph_at G st' = G').
  { unfold graph_at, st'. simpl. by apply list_lookup_total_insert_eq. }
  split; [|by rewrite Hat]. split; [simpl; by rewrite length_insert|].
  rewrite Hat. split; [done|].
  intros x y. unfold edge, successors, G'. simpl.
  destruct (decide (u = x)) as [->|Hne].
  - rewrite lookup_insert_eq. simpl. rewrite dom_insert_L.
    intros [->%elem_of_singleton|Hy]%elem_of_union; [done|].
    by apply (Hclosed x y).
  - rewrite lookup_insert_ne by done. by apply (Hclosed x y).
Qed.

Lemma for_each_keeps {A} (G : nat) (l : list A) (f : A -> M unit) (st : state) :
  (forall x st, Spec.graph_ok G st -> wp (f x) (fun r st' => r = Ok tt /\ Spec.keeps G st st') st) ->
  Spec.graph_ok G st ->
  wp (for_each l f) (fun r st' => r = Ok tt /\ Spec.keeps G st st') st.
Proof.
  intros Hf. revert st. induction l as [|x l IH]; intros st Hok; simpl.
  - apply wp_ret. split; [done|by apply keeps_refl].
  - apply wp_bind. eapply wp_mono; [|by apply Hf].
    intros r st1 (-> & Hk1).
    eapply wp_mono; [|apply IH, Hk1].
    intros r st2 (-> & Hk2). split; [done|by eapply keeps_trans].
Qed.

Lemma build_graph_keeps (G : nat) (suppliers : list Supplier.t) (st : state) :
  Spec.graph_ok G st ->
  wp (GraphAgent.build_graph_from_suppliers G suppliers)
    (fun r st' => r = Ok tt /\ Spec.keeps G st st') st.
Proof.
  intros Hok. unfold GraphAgent.build_graph_from_suppliers.
  destruct suppliers as [|sup sups]; [by apply wp_ret; split; [|apply keeps_refl]|].
  set (l := sup :: sups). clearbody l.
  apply wp_bind. eapply wp_mono; [|apply for_each_keeps; [|exact Hok]].
  2: { intros x st0 Hok0. eapply wp_mono; [|by apply add_node_keeps].
       by intros r st' (-> & Hk & _). }
  intros r st1 (-> & Hk1).
  apply wp_bind. eapply wp_mono; [|apply for_each_keeps; [|apply Hk1]].
  2: { intros [id attrs] st0 Hok0. eapply wp_mono; [|by apply add_node_keeps].
       by intros r st' (-> & Hk & _). }
  intros r st2 (-> & Hk2).
  apply wp_bind. eapply wp_mono; [|apply for_each_keeps; [|apply Hk2]].
  2: { intros x st0 Hok0. apply wp_bind.
       assert (Hfirst : wp (if bool_decide (Supplier.material x ∈ GraphAgent.to_factory)
                           then add_edge G (Supplier.supplier_id x) "F001"
                                  (GraphAgent.edge_attrs (Supplier.material x) 1.0)
                           else mret tt)
                          (fun r st' => r = Ok tt /\ Spec.keeps G st0 st') st0).
       { case_bool_decide; [by apply add_edge_keeps|].
         apply wp_ret. split; [done|by apply keeps_refl]. }
       eapply wp_mono; [|exact Hfirst].
       intros r st' (-> & Hk). clear Hfirst.
       case_bool_decide.
       - eapply wp_mono; [|apply add_edge_keeps, Hk].
         intros r st'' (-> & Hk'). split; [done|by eapply keeps_trans].
       - by apply wp_ret. }
  intros r st3 (-> & Hk3).
  apply wp_bind. eapply wp_mono; [|apply add_edge_keeps, Hk3].
  intros r st4 (-> & Hk4).
  eapply wp_mono; [|apply add_edge_keeps, Hk4].
  intros r st5 (-> & Hk5). split; [done|].
  repeat (eapply keeps_trans; [eassumption|]). by apply keeps_refl, Hk5.
Qed.

(** The graph that the graph agent hands to the simulation through the
    memory store is well formed: its references are valid and its edges
    end at nodes. *)
Lemma graph_agent_run_ok (suppliers : list Supplier.t) (st : state)
    (res : GraphAgent.graph_result) (st' : state) :
  (G ← GraphAgent.init; GraphAgent.run G suppliers) st = (Ok res, st') ->
  exists G,
    memory_graph st' = Some G
    /\ sim_agent_G st' = sim_agent_G st
    /\ Spec.well_formed G st' = true
    /\ closed_graph (graph_at G st').
Proof.
  intros Hrun.
  assert (Hwp : wp (G ← GraphAgent.init; GraphAgent.run G suppliers)
    (fun r st' => forall res, r = Ok res ->
       exists G, memory_graph st' = Some G /\ sim_agent_G st' = sim_agent_G st
                 /\ Spec.graph_ok G st') st).
  { apply wp_bind. unfold GraphAgent.init, new_graph, wp. simpl.
    set (G := length (graphs st)).
    set (st0 := set_graphs _ st).
    assert (Hok0 : Spec.graph_ok G st0).
    { assert (Hat : graph_at G st0 = MkDiGraph ∅ ∅) by apply graph_at_new.
      split; [unfold st0, G; simpl; rewrite length_app; simpl; lia|].
      rewrite Hat. split; [apply map_Forall_empty|].
      intros u v. unfold edge, successors. simpl. rewrite lookup_empty. simpl.
      set_solver. }
    change (wp (GraphAgent.run G suppliers)
              (fun r st' => forall res, r = Ok res ->
                 exists G, memory_graph st' = Some G
                           /\ sim_agent_G st' = sim_agent_G st /\ Spec.graph_ok G st') st0).
    unfold GraphAgent.run.
    apply wp_bind. eapply wp_mono; [|apply build_graph_keeps, Hok0].
    intros r st1 (-> & Hk1 & _ & Hs1 & Hm1).
    apply wp_bind. unfold GraphAgent.get_graph_stats.
    apply wp_bind, wp_get_state.
    destruct (number_of_nodes (graph_at G st1) =? 0)%nat.
    - apply wp_ret. simpl. by apply wp_bind, wp_lift.
    - apply wp_bind, wp_lift. destruct (GraphAgent.count_suppliers _); [|done].
      apply wp_ret. simpl. apply wp_bind, wp_lift, wp_bind, wp_lift, wp_bind, wp_lift.
      apply wp_bind, wp_modify, wp_ret. intros res0 _.
      exists G. split; [done|]. split; [simpl; by rewrite Hs1|].
      destruct Hk1 as (HG & Hrefs & Hcl). by repeat split. }
  destruct (wp_elim _ _ _ _ _ Hwp Hrun res eq_refl) as (G & Hm & Hs & HG & Hrefs & Hcl).
  exists G. repeat (split; [done|]). split; [|done].
  unfold Spec.well_formed. apply andb_true_intro.
  split; by apply bool_decide_eq_true.
Qed.

End BuildFacts.

(** ** Simulation *)

Section SimulationFacts.
Import Num Nx SimulationAgent.

Lemma wp_apply_disruption (sim_G : nat) (node_id : string) (severity capacity_loss : Q)
    (Q : result string -> state -> Prop) (st : state) :
  (Qgeb severity 0.9 = true -> has_node (graph_at sim_G st) node_id = true ->
   Q (Ok "node_failure"%string)
     (set_graphs (<[sim_G := remove_node_from (graph_at sim_G st) node_id]> (graphs st)) st)) ->
  (has_node (graph_at sim_G st) node_id = false -> Q (Raise KeyError) st) ->
  (Qgeb severity 0.9 = false ->
   forall d, node_ref (graph_at sim_G st) !! node_id = Some d ->
     match dict_at d st !! "capacity"%string with
     | Some (PyNum c) =>
         Q (Ok "capacity_reduction"%string)
           (set_dicts
              (<[d := <["capacity"%string := PyNum (py_max 0 (c * (1 - capacity_loss)))]>
                        (dict_at d st)]> (dicts st)) st)
     | Some (PyStr _) => Q (Raise TypeError) st
     | None => Q (Ok "capacity_reduction"%string) st
     end) ->
  wp (apply_disruption sim_G node_id severity capacity_loss) Q st.
Proof.
  intros HA Habsent HB. unfold apply_disruption.
  apply wp_bind, wp_get_state.
  destruct (Qgeb severity 0.9) eqn:Esev; simpl.
  - destruct (has_node (graph_at sim_G st) node_id) eqn:Ehas.
    + apply wp_bind. unfold remove_node.
      apply wp_bind, wp_get_state. rewrite Ehas.
      apply wp_modify, wp_ret. by apply HA.
    + apply wp_bind. unfold nodes_getitem.
      apply wp_bind, wp_get_state.
      pose proof Ehas as E. apply has_node_false in E. rewrite E.
      apply wp_raise. by apply Habsent.
  - apply wp_bind. unfold nodes_getitem.
    apply wp_bind, wp_get_state.
    destruct (node_ref (graph_at sim_G st) !! node_id) as [d|] eqn:E.
    + apply wp_ret, wp_bind, wp_get_state, wp_bind.
      specialize (HB eq_refl d eq_refl).
      destruct (dict_at d st !! "capacity"%string) as [[s|c]|].
      * apply wp_bind, wp_lift. exact HB.
      * apply wp_bind, wp_lift. simpl. apply wp_modify, wp_ret. exact HB.
      * apply wp_ret, wp_ret. exact HB.
    + apply wp_raise. apply Habsent. by apply has_node_false.
Qed.

Lemma wp_find_affected (sim_G : nat) (node_id : string)
    (Q : result (list string) -> state -> Prop) (st : state) :
  (has_node (graph_at sim_G st) node_id = false -> Q (Ok [node_id]) st) ->
  (forall des, descendants (graph_at sim_G st) node_id = Ok des ->
     Q (Ok (elements des ++ [node_id])) st) ->
  wp (find_affected sim_G node_id) Q st.
Proof.
  intros Hgone Hthere. unfold find_affected.
  apply wp_try_except, wp_bind, wp_get_state, wp_bind, wp_lift.
  unfold descendants in *.
  destruct (has_node (graph_at sim_G st) node_id).
  - apply wp_ret. by apply Hthere.
  - simpl. apply wp_ret. by apply Hgone.
Qed.

Lemma service_impact_same (affected : list string) :
  (0 < length affected)%nat ->
  service_impact "capacity_reduction" affected (length affected) == 0.
Proof.
  intros Hpos. unfold service_impact. simpl.
  pose proof Hpos as E. apply Nat.ltb_lt in E. rewrite E.
  assert (Hq : ~ inject_Z (Z.of_nat (length affected)) == 0).
  { change 0 with (inject_Z 0). rewrite inject_Z_injective. lia. }
  rewrite (py_round_comp _ 0); [by vm_compute|].
  field. done.
Qed.

Lemma descendants_nodes (G : DiGraph) (source : string) :
  closed_graph G ->
  forall des, has_node G source = true -> descendants G source = Ok des ->
  forall v, v ∈ des -> v ∈ dom (node_ref G).
Proof.
  intros Hcl des Hhas Hdes v Hv.
  destruct (descendants_reachable G source Hcl Hhas) as (des' & Hdes' & Hreach).
  assert (des' = des) as -> by congruence.
  apply Hreach in Hv as [_ Hv].
  apply has_node_true in Hhas. revert v Hv.
  apply (rtc_ind_r (fun v => v ∈ dom (node_ref G))); [done|].
  intros u v _ Huv _. by apply (Hcl u v).
Qed.

Lemma delay_loop_ok (G : DiGraph) (node_id : string) (delay_multiplier : Q)
    (affected : list string) (max_delay : Q) :
  has_node G node_id = true ->
  (forall target, target ∈ affected -> has_node G target = true) ->
  exists d, delay_loop G node_id delay_multiplier affected max_delay = Ok d.
Proof.
  intros Hn. revert max_delay.
  induction affected as [|target rest IH]; intros max_delay Hall; simpl; [eauto|].
  unfold shortest_path_length. rewrite Hn, (Hall target) by (by left). simpl.
  destruct (_ !! target); apply IH; intros t Ht; apply Hall; by right.
Qed.

(** The whole of [simulate_single_risk], step by step: what it leaves
    unchanged, what it returns, and when it is sure to return. *)
Lemma simulate_trace_wp (risk : Risk.t) (G : nat) (st : state) :
  Spec.canonical_of st = Some G ->
  wp (simulate_trace risk)
    (fun r st' =>
       Spec.unchanged st st'
       /\ (forall t, r = Ok t -> Spec.simulated risk G st t st')
       /\ (Spec.returns_for risk G st -> exists t, r = Ok t)) st.
Proof.
  intros Hcan. unfold simulate_trace.
  apply wp_bind, wp_get_state.
  match goal with |- wp (_ ≫= ?k) _ _ => set (rest := k) end.
  assert (Hrest : forall st1,
    sim_agent_G st1 = Some G -> dicts st1 = dicts st -> graphs st1 = graphs st ->
    memory_graph st1 = memory_graph st ->
    wp (rest tt)
      (fun r st' =>
         Spec.unchanged st st'
         /\ (forall t, r = Ok t -> Spec.simulated risk G st t st')
         /\ (Spec.returns_for risk G st -> exists t, r = Ok t)) st1).
  { intros st1 HG Hd Hg Hm. unfold rest. clear rest.
    destruct (disruption_strength (Risk.risk_score risk)) as [loss mult] eqn:Estr.
    apply wp_bind, wp_get_state. rewrite HG.
    apply wp_bind, wp_ret, wp_bind, wp_copy.
    intros ext nodes Hdom Hfresh Hcontent.
    assert (HGG : graph_at G st1 = graph_at G st) by (unfold graph_at; by rewrite Hg).
    rewrite HGG in *. rewrite Hd, Hg in *.
    set (GG := graph_at G st) in *.
    set (Gc := MkDiGraph nodes (succ GG)).
    set (st2 := set_graphs (graphs st ++ [Gc]) (set_dicts (dicts st ++ ext) st1)).
    set (ng := length (graphs st)).
    assert (Hc2 : graph_at ng st2 = Gc).
    { unfold graph_at, st2, ng. simpl. by apply list_lookup_total_middle. }
    assert (Hhas : has_node Gc (Risk.node_id risk) = has_node GG (Risk.node_id risk)).
    { unfold has_node. apply bool_decide_ext. by rewrite <- !elem_of_dom, <- Hdom. }
    assert (HG2 : has_node GG (Risk.node_id risk) = true -> graph_at G st2 = GG).
    { intros Hn%has_node_valid. unfold graph_at, st2. simpl.
      unfold GG, graph_at. by rewrite lookup_total_app_l. }
    apply wp_bind, wp_apply_disruption; rewrite Hc2.
    - (* node failure *)
      intros Hsev HhasC. pose proof HhasC as HhasG. rewrite Hhas in HhasG.
      set (st3 := set_graphs _ st2).
      assert (Hc3 : graph_at ng st3 = remove_node_from Gc (Risk.node_id risk)).
      { unfold graph_at, st3, st2, ng. simpl.
        rewrite list_lookup_total_insert_eq; [done|]. rewrite length_app. simpl. lia. }
      assert (HG3 : graph_at G st3 = GG).
      { rewrite <- (HG2 HhasG). unfold graph_at, st3. simpl.
        apply list_lookup_total_insert_ne. apply has_node_valid in HhasG. unfold ng. lia. }
      apply wp_bind, wp_find_affected; rewrite Hc3.
      + intros _. apply wp_bind, wp_get_state, wp_bind, wp_lift. rewrite HG3.
        simpl. rewrite shortest_path_length_self by done.
        apply wp_bind, wp_lift.
        destruct (descendants GG (Risk.node_id risk)) as [des|e] eqn:Edes.
        2: { unfold descendants in Edes. by rewrite HhasG in Edes. }
        apply wp_ret.
        assert (Hun : Spec.unchanged st st3).
        { unfold Spec.unchanged, st3, st2. simpl.
          rewrite take_app_length, take_insert_ge, take_app_length by (unfold ng; lia).
          done. }
        split; [exact Hun|]. split; [|eauto].
        intros t [= <-]. unfold Spec.simulated. simpl.
        fold GG. rewrite Hc3.
        repeat (split; [done|]). left. repeat (split; [done|]).
        split; [|done]. apply has_node_false. simpl. apply lookup_delete_eq.
      + intros des Hdes. exfalso. unfold descendants in Hdes.
        assert (Hf : has_node (remove_node_from Gc (Risk.node_id risk)) (Risk.node_id risk)
                     = false).
        { apply has_node_false. simpl. apply lookup_delete_eq. }
        by rewrite Hf in Hdes.
    - (* the node is not in the graph *)
      intros Habs. rewrite Hhas in Habs.
      split; [|split; [done|intros [Hh _]; fold GG in Hh; congruence]].
      unfold Spec.unchanged, st2. simpl. by rewrite !take_app_length.
    - (* capacity reduction *)
      intros Hsev d Hd0. simpl in Hd0.
      assert (HhasC : has_node Gc (Risk.node_id risk) = true).
      { apply has_node_true, elem_of_dom. simpl. eauto. }
      pose proof HhasC as HhasG. rewrite Hhas in HhasG.
      pose proof (Hfresh _ _ Hd0) as Hd_fresh.
      match goal with
      | |- match ?c with _ => _ end =>
          assert (Hrest : forall st3,
            graphs st3 = graphs st2 -> sim_agent_G st3 = Some G ->
            memory_graph st3 = memory_graph st ->
            take (length (dicts st)) (dicts st3) = dicts st ->
            (map_Forall (fun _ r => r < length (dicts st))%nat (node_ref GG) ->
             forall r0, node_ref GG !! Risk.node_id risk = Some r0 ->
               dict_at d st3 = Spec.reduced loss (dict_at r0 st)) ->
            wp (mret "capacity_reduction"%string ≫= fun disruption_type : string =>
                find_affected ng (Risk.node_id risk) ≫= fun affected0 =>
                get_state ≫= fun st0 =>
                lift (delay_loop (graph_at G st0) (Risk.node_id risk) mult affected0 0)
                  ≫= fun max_delay =>
                lift (descendants (graph_at G st0) (Risk.node_id risk)) ≫= fun des =>
                mret (Trace G ng affected0
                  {| Scenario.node_id := Risk.node_id risk;
                     Scenario.disruption_type := Some disruption_type;
                     Scenario.severity_used := Risk.risk_score risk;
                     Scenario.capacity_loss_pct := round_half_even (loss * 100);
                     Scenario.estimated_delay_days := py_round max_delay 1;
                     Scenario.affected_nodes_count := length affected0;
                     Scenario.service_level_impact_pct :=
                       service_impact disruption_type affected0
                         (length (elements des) + 1);
                     Scenario.news_title :=
                       default "Unknown"%string (Risk.news_title risk) |}))
              (fun r st' =>
                 Spec.unchanged st st'
                 /\ (forall t, r = Ok t -> Spec.simulated risk G st t st')
                 /\ (Spec.returns_for risk G st -> exists t, r = Ok t)) st3)
      end.
      { intros st3 Hg3 Hs3 Hm3 Hd3 Hcap.
        assert (Hc3 : graph_at ng st3 = Gc).
        { rewrite <- Hc2. unfold graph_at. by rewrite Hg3. }
        assert (HG3 : graph_at G st3 = GG).
        { rewrite <- (HG2 HhasG). unfold graph_at. by rewrite Hg3. }
        assert (Hun : Spec.unchanged st st3).
        { unfold Spec.unchanged. rewrite Hd3, Hg3. unfold st2. simpl.
          by rewrite take_app_length. }
        apply wp_bind, wp_ret, wp_bind, wp_find_affected; rewrite Hc3.
        { intros Hf. congruence. }
        intros des Hdes.
        apply wp_bind, wp_get_state, wp_bind, wp_lift. rewrite HG3.
        assert (HdesG : descendants GG (Risk.node_id risk) = Ok des).
        { rewrite <- Hdes. symmetry. by apply descendants_ext. }
        destruct (delay_loop GG _ mult _ 0) as [max_delay|e] eqn:Edelay.
        2: { split; [done|]. split; [done|].
             intros [_ [Hq|[(_ & _ & Hcl) _]]]; [congruence|]. fold GG in Hcl.
             destruct (delay_loop_ok GG (Risk.node_id risk) mult
                         (elements des ++ [Risk.node_id risk]) 0 HhasG) as [x Hx].
             - intros target [Ht%elem_of_elements | ->%list_elem_of_singleton]%elem_of_app;
                 [|done].
               apply has_node_true.
               by apply (descendants_nodes GG (Risk.node_id risk) Hcl des HhasG HdesG). 
             - congruence. }
        apply wp_bind, wp_lift.
        rewrite HdesG. apply wp_ret.
        split; [exact Hun|]. split; [|eauto].
        intros t [= <-]. unfold Spec.simulated. simpl. fold GG. rewrite Hc3.
        repeat (split; [done|]). right. repeat (split; [done|]).
        split; [eauto|]. split.
        - replace (length (elements des) + 1)%nat
            with (length (elements des ++ [Risk.node_id risk]))
            by (rewrite length_app; done).
          apply service_impact_same. rewrite length_app. simpl. lia.
        - intros Hwf r0 Hr0. exists d. split; [done|].
          rewrite Estr. simpl. by apply Hcap. }
      assert (Hd2 : forall r0,
        map_Forall (fun _ r => r < length (dicts st))%nat (node_ref GG) ->
        node_ref GG !! Risk.node_id risk = Some r0 ->
        (dicts st ++ ext) !! d = Some (dict_at r0 st)).
      { intros r0 Hwf Hr0.
        destruct (Hcontent Hwf _ _ Hr0) as (r' & Hr' & Hc').
        assert (r' = d) as -> by congruence.
        rewrite Hc'. unfold dict_at. by rewrite Hd. }
      destruct (dict_at d st2 !! "capacity"%string) as [[s|c]|] eqn:Ecap.
      + split; [|split; [done|]].
        { unfold Spec.unchanged, st2. simpl. by rewrite !take_app_length. }
        intros [_ [Hq|[(_ & Hwf & _) Hnum]]]; [congruence|]. exfalso.
        fold GG in Hwf, Hnum.
        apply has_node_true, elem_of_dom in HhasG as [r0 Hr0].
        apply (Hnum r0 s Hr0). rewrite <- Ecap. f_equal.
        unfold dict_at at 2, st2. simpl. by rewrite (Hd2 r0 Hwf Hr0).
      + apply Hrest; simpl; try done.
        * rewrite take_insert_ge, take_app_length by done. done.
        * intros Hwf r0 Hr0. pose proof (Hd2 r0 Hwf Hr0) as Hl.
          unfold dict_at at 1. simpl.
          rewrite list_lookup_insert_eq by (by eapply lookup_lt_Some).
          simpl.
          assert (Hdd : dict_at d st2 = dict_at r0 st).
          { unfold dict_at at 1, st2. simpl. by rewrite Hl. }
          rewrite Hdd in *. unfold Spec.reduced. by rewrite Ecap.
      + apply Hrest; simpl; try done.
        * by rewrite take_app_length.
        * intros Hwf r0 Hr0. pose proof (Hd2 r0 Hwf Hr0) as Hl.
          assert (Hdd : dict_at d st2 = dict_at r0 st).
          { unfold dict_at at 1, st2. simpl. by rewrite Hl. }
          rewrite Hdd in *. unfold Spec.reduced. by rewrite Ecap. }
  (* the graph is loaded when the agent has none yet *)
  unfold Spec.canonical_of in Hcan.
  destruct (sim_agent_G st) as [G0|] eqn:EG.
  - injection Hcan as ->. apply wp_bind, wp_ret. by apply Hrest.
  - apply wp_bind. unfold load_graph.
    apply wp_bind, wp_get_state, wp_bind, wp_modify. rewrite Hcan.
    destruct (number_of_nodes (graph_at G st) =? 0)%nat eqn:En.
    + apply wp_raise. split; [|split; [done|]].
      * unfold Spec.unchanged. simpl. by rewrite !firstn_all.
      * intros [Hn%has_node_nonempty _]. apply Nat.eqb_eq in En. done.
    + apply wp_ret. by apply Hrest.
Qed.

Lemma simulate_trace_outcome (risk : Risk.t) (G : nat) (st st' : state)
    (r : result trace) :
  Spec.canonical_of st = Some G ->
  simulate_trace risk st = (r, st') ->
  Spec.unchanged st st'
  /\ (forall t, r = Ok t -> Spec.simulated risk G st t st')
  /\ (Spec.returns_for risk G st -> exists t, r = Ok t).
Proof.
  intros Hcan Hrun.
  exact (wp_elim _ _ _ _ _ (simulate_trace_wp risk G st Hcan) Hrun).
Qed.

(** The simulation returns a scenario for every risk on a node of a sound
    graph whose capacity, if any, is a number, and for every node failure
    of a node of the graph. *)
Lemma simulate_trace_returns (risk : Risk.t) (G : nat) (st : state) :
  Spec.canonical_of st = Some G ->
  Spec.returns_for risk G st ->
  exists t st', simulate_trace risk st = (Ok t, st').
Proof.
  intros Hcan Hret.
  destruct (simulate_trace risk st) as [r st'] eqn:Hrun.
  destruct (simulate_trace_outcome _ _ _ _ _ Hcan Hrun) as (_ & _ & H).
  destruct (H Hret) as [t ->]. eauto.
Qed.

(** After the graph agent has run, the simulation agent finds a sound
    canonical graph in the memory store. *)
Lemma graph_agent_run_canonical (suppliers : list Supplier.t) (st st' : state)
    (res : GraphAgent.graph_result) :
  sim_agent_G st = None ->
  (G ← GraphAgent.init; GraphAgent.run G suppliers) st = (Ok res, st') ->
  exists G, Spec.canonical_of st' = Some G
    /\ Spec.well_formed G st' = true
    /\ closed_graph (graph_at G st').
Proof.
  intros Hnone Hrun.
  destruct (graph_agent_run_ok _ _ _ _ Hrun) as (G & Hm & Hs & Hwf & Hcl).
  exists G. split; [|done]. unfold Spec.canonical_of. by rewrite Hs, Hnone.
Qed.

Lemma simulate_single_risk_trace (risk : Risk.t) (st st' : state)
    (r : result Scenario.t) :
  simulate_single_risk risk st = (r, st') ->
  exists r0, simulate_trace risk st = (r0, st')
    /\ r = match r0 with Ok t => Ok (scenario t) | Raise e => Raise e end.
Proof.
  unfold simulate_single_risk, mbind, M_bind.
  destruct (simulate_trace risk st) as [[t|e] st1]; intros [= <- <-]; eauto.
Qed.

Lemma unchanged_view (G : nat) (st st' : state) :
  Spec.well_formed G st = true ->
  Spec.unchanged st st' ->
  graph_at G st' = graph_at G st /\ view G st' = view G st.
Proof.
  unfold Spec.well_formed, Spec.unchanged.
  intros [HG Hrefs]%andb_prop (Hd & Hg & _).
  apply bool_decide_eq_true in HG, Hrefs.
  assert (Hgraph : graph_at G st' = graph_at G st).
  { unfold graph_at. rewrite !list_lookup_total_alt.
    rewrite <- (lookup_take_lt (graphs st') (length (graphs st)) G) by done.
    by rewrite Hg. }
  split; [done|]. unfold view. rewrite Hgraph. f_equal.
  apply map_fmap_ext. intros n r Hr.
  unfold dict_at.
  rewrite <- (lookup_take_lt (dicts st') (length (dicts st)) r)
    by (by apply (Hrefs n r)).
  by rewrite Hd.
Qed.

(** C8: [simulate_single_risk] leaves the canonical graph as it was,
    whatever it returns or raises: the graph object, its nodes, its edges
    and every attribute dictionary of its nodes are the same afterwards,
    as is every other object that existed before the call. *)
Theorem C8_canonical_graph_unchanged (risk : Risk.t) (G : nat) (st st' : state)
    (r : result Scenario.t) :
  Spec.canonical_of st = Some G ->
  Spec.well_formed G st = true ->
  simulate_single_risk risk st = (r, st') ->
  view G st' = view G st
  /\ graph_at G st' = graph_at G st
  /\ Spec.unchanged st st'.
Proof.
  intros Hcan Hwf Hrun.
  destruct (simulate_single_risk_trace _ _ _ _ Hrun) as (r0 & Hrun0 & _).
  destruct (simulate_trace_outcome _ _ _ _ _ Hcan Hrun0) as (Hun & _ & _).
  destruct (unchanged_view G st st' Hwf Hun) as [Hg Hv]. done.
Qed.

(** A capacity reduction on the sample graph: the capacity of S1 in the
    canonical graph is still 100 afterwards. *)
Lemma C8_canonical_graph_unchanged_witness :
  view 0 (simulate_single_risk Sample.moderate_risk Sample.built).2
  = view 0 Sample.built.
Proof.
  eapply (C8_canonical_graph_unchanged Sample.moderate_risk 0 Sample.built).
  - vm_compute. reflexivity.
  - vm_compute. reflexivity.
  - apply surjective_pairing.
Defined.

(** C1, as stated, fails: on the sample graph S1 has the descendants
    F001, W001 and C001, but a node failure of S1 reports S1 alone,
    because the descendants are asked for after S1 has been removed from
    the working copy. *)
Lemma C1_counterexample :
  ~ Spec.node_failure_affected Sample.severe_risk Sample.built
  /\ (simulate_single_risk Sample.severe_risk Sample.built).1
     = Ok (Scenario.Record_ "S1" (Some "node_failure"%string) 0.9 80 (0 # 10) 1
             (750 # 10) "Taiwan earthquake")
  /\ Spec.working_copy_descendants 0 "S1" Sample.built
     = Ok {[ "F001"; "W001"; "C001" ]}%string.
Proof.
  assert (Hdes0 : Spec.working_copy_descendants 0 "S1" Sample.built
                  = Ok {[ "F001"; "W001"; "C001" ]}%string)
    by (vm_compute; reflexivity).
  split; [|split; [vm_compute; reflexivity|exact Hdes0]].
  intros H.
  destruct (H 0%nat) as (t & st' & des & Hrun & _ & Hdes & _ & Hcount).
  { vm_compute. reflexivity. }
  { vm_compute. discriminate. }
  { vm_compute. reflexivity. }
  assert (Ht : (simulate_trace Sample.severe_risk Sample.built).1 = Ok t)
    by (by rewrite Hrun).
  vm_compute in Ht. injection Ht as <-.
  change (Spec.working_copy_descendants 0 "S1" Sample.built = Ok des) in Hdes.
  rewrite Hdes0 in Hdes. injection Hdes as <-.
  vm_compute in Hcount. discriminate.
Qed.

(** C1, amended: for every risk record with risk_score >= 0.9 whose node
    is in the graph, [simulate_single_risk] returns a scenario with
    disruption_type = node_failure; the node is no longer in the working
    graph when its descendants are looked up, so the affected set is the
    node alone and affected_nodes_count is 1. *)
Theorem C1_node_failure_affects_node_alone (risk : Risk.t) (G : nat) (st : state) :
  Spec.canonical_of st = Some G ->
  0.9 <= Risk.risk_score risk ->
  has_node (graph_at G st) (Risk.node_id risk) = true ->
  exists t st',
    simulate_trace risk st = (Ok t, st')
    /\ simulate_single_risk risk st = (Ok (scenario t), st')
    /\ Scenario.disruption_type (scenario t) = Some "node_failure"%string
    /\ has_node (graph_at (working t) st') (Risk.node_id risk) = false
    /\ affected t = [Risk.node_id risk]
    /\ Scenario.affected_nodes_count (scenario t) = 1%nat.
Proof.
  intros Hcan Hsev%Qgeb_ge Hhas.
  destruct (simulate_trace risk st) as [r st'] eqn:Hrun.
  destruct (simulate_trace_outcome _ _ _ _ _ Hcan Hrun) as (_ & Hsim & Hret).
  destruct (Hret (conj Hhas (or_introl Hsev))) as [t ->].
  exists t, st'. split; [done|]. split.
  { unfold simulate_single_risk, mbind, M_bind. by rewrite Hrun. }
  destruct (Hsim t eq_refl) as (_ & _ & _ & _ & Hcount & [Hfail|Hred]).
  - destruct Hfail as (_ & Hty & Hgone & Haff).
    rewrite Hcount, Haff. done.
  - destruct Hred as (Hlt & _). congruence.
Qed.

(** The severe risk on S1 of the sample graph. *)
Lemma C1_node_failure_affects_node_alone_witness :
  exists t st',
    simulate_trace Sample.severe_risk Sample.built = (Ok t, st')
    /\ affected t = ["S1"%string].
Proof.
  destruct (C1_node_failure_affects_node_alone Sample.severe_risk 0 Sample.built)
    as (t & st' & Hrun & _ & _ & _ & Haff & _).
  - vm_compute. reflexivity.
  - vm_compute. discriminate.
  - vm_compute. reflexivity.
  - exists t, st'. split; [exact Hrun|exact Haff].
Defined.

Lemma disruption_strength_tiers (severity : Q) :
  (disruption_strength severity).1
  = if Qgeb severity 0.8 then 0.8 else if Qgeb severity 0.5 then 0.4 else 0.2.
Proof. unfold disruption_strength. by repeat case_match. Qed.

(** C4: for every risk whose simulation returns: if risk_score >= 0.9 the
    node is no longer in the working copy and disruption_type is
    node_failure; if risk_score < 0.9 the node is still in the working
    copy, disruption_type is capacity_reduction, and the attributes of
    the node in the working copy are those of the canonical graph with
    the capacity replaced by max(0, capacity * (1 - capacity_loss)),
    which is not negative, where capacity_loss is 0.8 for a score >=
    0.8, 0.4 for a score >= 0.5 and 0.2 otherwise. *)
Theorem C4_disruption_by_severity (risk : Risk.t) (G : nat) (st st' : state)
    (t : trace) :
  Spec.canonical_of st = Some G ->
  Spec.well_formed G st = true ->
  simulate_trace risk st = (Ok t, st') ->
  let node_id := Risk.node_id risk in
  let severity := Risk.risk_score risk in
  let capacity_loss :=
    if Qgeb severity 0.8 then 0.8 else if Qgeb severity 0.5 then 0.4 else 0.2 in
  (0.9 <= severity ->
   has_node (graph_at (working t) st') node_id = false
   /\ Scenario.disruption_type (scenario t) = Some "node_failure"%string)
  /\ (severity < 0.9 ->
      has_node (graph_at (working t) st') node_id = true
      /\ Scenario.disruption_type (scenario t) = Some "capacity_reduction"%string
      /\ exists attrs,
           (view G st).1 !! node_id = Some attrs
           /\ (view (working t) st').1 !! node_id = Some (Spec.reduced capacity_loss attrs)
           /\ forall c, attrs !! "capacity"%string = Some (PyNum c) ->
                Spec.reduced capacity_loss attrs !! "capacity"%string
                = Some (PyNum (py_max 0 (c * (1 - capacity_loss))))
                /\ 0 <= py_max 0 (c * (1 - capacity_loss))).
Proof.
  intros Hcan Hwf Hrun. cbv zeta.
  destruct (simulate_trace_outcome _ _ _ _ _ Hcan Hrun) as (_ & Hsim & _).
  destruct (Hsim t eq_refl) as (_ & _ & _ & Hhas & _ & Hcases).
  rewrite <- disruption_strength_tiers.
  split.
  - intros Hsev%Qgeb_ge.
    destruct Hcases as [(_ & Hty & Hgone & _)|(Hlt & _)]; [done|congruence].
  - intros Hsev%Qgeb_lt.
    destruct Hcases as [(Hge & _)|(_ & Hty & Hsucc & Hdom & _ & _ & Hcap)];
      [congruence|].
    split. { apply has_node_true. rewrite Hdom. by apply has_node_true. }
    split; [done|].
    apply has_node_true, elem_of_dom in Hhas as [r0 Hr0].
    unfold Spec.well_formed in Hwf.
    apply andb_prop in Hwf as [_ Hrefs%bool_decide_eq_true].
    destruct (Hcap Hrefs r0 Hr0) as (d & Hd & Hdict).
    exists (dict_at r0 st). split; [|split].
    + unfold view. simpl. by rewrite lookup_fmap, Hr0.
    + unfold view. simpl. rewrite lookup_fmap, Hd. simpl. by rewrite Hdict.
    + intros c Hc. unfold Spec.reduced. rewrite Hc.
      split; [by rewrite lookup_insert_eq|apply py_max_lower].
Qed.

(** The moderate risk on S1 of the sample graph: capacity 100 becomes
    20 in the working copy. *)
Lemma C4_disruption_by_severity_witness :
  exists t,
    simulate_trace Sample.moderate_risk Sample.built
    = (Ok t, (simulate_trace Sample.moderate_risk Sample.built).2)
    /\ (Risk.risk_score Sample.moderate_risk < 0.9 ->
        has_node (graph_at (working t) (simulate_trace Sample.moderate_risk Sample.built).2)
          "S1" = true).
Proof.
  exists (Trace 0 1 ["W001"; "C001"; "F001"; "S1"]%string
            (Scenario.Record_ "S1" (Some "capacity_reduction"%string) 0.85 80 (135 # 10) 4
               (0 # 10) "Taiwan earthquake")).
  assert (Hrun : simulate_trace Sample.moderate_risk Sample.built
                 = (Ok (Trace 0 1 ["W001"; "C001"; "F001"; "S1"]%string
                          (Scenario.Record_ "S1" (Some "capacity_reduction"%string) 0.85 80
                             (135 # 10) 4 (0 # 10) "Taiwan earthquake")),
                    (simulate_trace Sample.moderate_risk Sample.built).2)).
  { rewrite (surjective_pairing (simulate_trace Sample.moderate_risk Sample.built)) at 1.
    apply (f_equal2 pair); [vm_compute; reflexivity|reflexivity]. }
  split; [exact Hrun|].
  intros Hlt.
  apply (C4_disruption_by_severity Sample.moderate_risk 0 Sample.built _ _
           ltac:(vm_compute; reflexivity) ltac:(vm_compute; reflexivity) Hrun).
  exact Hlt.
Defined.

(** C10: when [simulate_single_risk] returns for a risk with risk_score <
    0.9 on a node of the graph, disruption_type is capacity_reduction,
    the affected set is the descendants of the node in the canonical
    graph and the node itself, sim_reachable equals original_reachable
    and service_level_impact_pct is 0.0; so whenever a scenario has a
    service impact other than 0, it is a node_failure scenario. *)
Theorem C10_capacity_reduction_no_service_impact (risk : Risk.t) (G : nat)
    (st st' : state) (t : trace) :
  Spec.canonical_of st = Some G ->
  simulate_trace risk st = (Ok t, st') ->
  (Risk.risk_score risk < 0.9 ->
   has_node (graph_at G st) (Risk.node_id risk) = true ->
   Scenario.disruption_type (scenario t) = Some "capacity_reduction"%string
   /\ exists des,
        descendants (graph_at G st) (Risk.node_id risk) = Ok des
        /\ affected t = elements des ++ [Risk.node_id risk]
        /\ list_to_set (affected t) = des ∪ {[Risk.node_id risk]}
        /\ length (affected t) = (length (elements des) + 1)%nat
        /\ Scenario.affected_nodes_count (scenario t) = (size des + 1)%nat
        /\ Scenario.service_level_impact_pct (scenario t) == 0)
  /\ (~ Scenario.service_level_impact_pct (scenario t) == 0 ->
      Scenario.disruption_type (scenario t) = Some "node_failure"%string).
Proof.
  intros Hcan Hrun.
  destruct (simulate_trace_outcome _ _ _ _ _ Hcan Hrun) as (_ & Hsim & _).
  destruct (Hsim t eq_refl) as (_ & _ & _ & Hhas & Hcount & Hcases).
  split.
  - intros Hsev%Qgeb_lt _.
    destruct Hcases as [(Hge & _)|(_ & Hty & _ & _ & (des & Hdes & Haff) & Himp & _)];
      [congruence|].
    split; [done|]. exists des. rewrite Hcount, Haff, length_app. simpl.
    repeat (split; [done|]). split; [|done].
    rewrite list_to_set_app_L, list_to_set_elements_L. set_solver.
  - intros Hnz.
    destruct Hcases as [(_ & Hty & _)|(_ & _ & _ & _ & _ & Himp & _)]; done.
Qed.

(** The moderate risk on S1 of the sample graph: four affected nodes, no
    service impact. *)
Lemma C10_capacity_reduction_no_service_impact_witness :
  exists t,
    simulate_trace Sample.moderate_risk Sample.built
    = (Ok t, (simulate_trace Sample.moderate_risk Sample.built).2)
    /\ Scenario.service_level_impact_pct (scenario t) == 0.
Proof.
  exists (Trace 0 1 ["W001"; "C001"; "F001"; "S1"]%string
            (Scenario.Record_ "S1" (Some "capacity_reduction"%string) 0.85 80 (135 # 10) 4
               (0 # 10) "Taiwan earthquake")).
  assert (Hrun : simulate_trace Sample.moderate_risk Sample.built
                 = (Ok (Trace 0 1 ["W001"; "C001"; "F001"; "S1"]%string
                          (Scenario.Record_ "S1" (Some "capacity_reduction"%string) 0.85 80
                             (135 # 10) 4 (0 # 10) "Taiwan earthquake")),
                    (simulate_trace Sample.moderate_risk Sample.built).2)).
  { rewrite (surjective_pairing (simulate_trace Sample.moderate_risk Sample.built)) at 1.
    apply (f_equal2 pair); [vm_compute; reflexivity|reflexivity]. }
  split; [exact Hrun|].
  destruct (C10_capacity_reduction_no_service_impact Sample.moderate_risk 0 Sample.built
              _ _ ltac:(vm_compute; reflexivity) Hrun) as [Hred _].
  destruct Hred as (_ & des & _ & _ & _ & _ & _ & Himp).
  - vm_compute. reflexivity.
  - vm_compute. reflexivity.
  - exact Himp.
Defined.

End SimulationFacts.

(** ** More on decisions *)

Section DecisionExtras.
Import Num DecisionAgent.

Lemma round_half_even_Z (z : Z) : round_half_even (inject_Z z) = z.
Proof.
  unfold round_half_even. rewrite Qfloor_Z.
  assert (E : Qcompare (inject_Z z - inject_Z z) (1 # 2) = Lt).
  { rewrite <- Qlt_alt. unfold Qminus. rewrite Qplus_opp_r. reflexivity. }
  by rewrite E.
Qed.

Lemma round_half_even_upper (q : Q) (z : Z) :
  q <= inject_Z z -> (round_half_even q <= z)%Z.
Proof.
  intros Hq. pose proof (Qfloor_le q) as Hfl.
  assert (Hfz : (Qfloor q <= z)%Z).
  { rewrite Zle_Qle. lra. }
  unfold round_half_even.
  destruct (Z.eq_dec (Qfloor q) z) as [Heq|Hne].
  - assert (E : Qcompare (q - inject_Z (Qfloor q)) (1 # 2) = Lt).
    { rewrite <- Qlt_alt. rewrite Heq in *. lra. }
    rewrite E. lia.
  - destruct (Qcompare _ _); [destruct (Z.even _)| |]; lia.
Qed.

Lemma py_round_upper (q : Q) (n : nat) : q <= 1 -> py_round q n <= 1.
Proof.
  intros Hq. unfold py_round. pose proof (pow10_pos n) as Hp.
  apply Qle_shift_div_r; [done|]. rewrite Qmult_1_l.
  rewrite <- Zle_Qle. apply round_half_even_upper. nra.
Qed.

(** Rounding a value that has [n] decimals already gives it back. *)
Lemma py_round_idem (q : Q) (n : nat) : py_round (py_round q n) n = py_round q n.
Proof.
  unfold py_round at 1 3. pose proof (pow10_pos n) as Hp.
  set (p := inject_Z (10 ^ Z.of_nat n)) in *.
  rewrite (round_half_even_comp _ (inject_Z (round_half_even (q * p)))).
  - by rewrite round_half_even_Z.
  - unfold py_round. fold p. clearbody p. unfold Qdiv.
    rewrite <- Qmult_assoc, (Qmult_comm (/ p)), Qmult_inv_r, Qmult_1_r; [reflexivity|lra].
Qed.

Lemma calculate_confidence_upper (risk : Risk.t) (sim : Scenario.t) :
  calculate_confidence risk sim <= 1 /\ has_decimals 2 (calculate_confidence risk sim).
Proof.
  unfold calculate_confidence. split; [|apply py_round_has_decimals].
  apply py_round_upper.
  match goal with |- py_min ?a ?b <= _ => destruct (py_min_cases a b) as [[-> ?]|[-> ?]] end;
    lra.
Qed.

Lemma with_info_consistent (acts : list string) (infos : list (string * action_info)) :
  with_info acts = Ok infos ->
  infos.*1 = acts
  /\ Forall (fun p => ACTION_LIBRARY !! p.1 = Some p.2) infos.
Proof.
  revert infos. induction acts as [|act rest IH]; intros infos; simpl.
  - intros [= <-]. by split.
  - destruct (ACTION_LIBRARY !! act) as [info|] eqn:E; simpl; [|done].
    destruct (with_info rest) as [l|] eqn:El; simpl; [|done].
    intros [= <-]. destruct (IH l eq_refl) as [Hfst Hall].
    split; [rewrite fmap_cons; simpl; by rewrite Hfst|]. by constructor.
Qed.

Lemma by_urgency_consistent (x y : string * action_info) :
  ACTION_LIBRARY !! x.1 = Some x.2 -> ACTION_LIBRARY !! y.1 = Some y.2 ->
  by_urgency x y = Actions.by_urgency_of x.1 y.1.
Proof.
  intros Hx Hy. unfold by_urgency, Actions.by_urgency_of, Actions.urgency_of.
  by rewrite Hx, Hy.
Qed.

Lemma sort_desc_names (infos : list (string * action_info)) :
  Forall (fun p => ACTION_LIBRARY !! p.1 = Some p.2) infos ->
  (sort_desc by_urgency infos).*1 = sort_desc Actions.by_urgency_of infos.*1.
Proof.
  induction 1 as [|x l Hx Hl IH]; [done|].
  unfold sort_desc in *. rewrite fmap_cons. simpl. rewrite <- IH.
  assert (Hs : Forall (fun p => ACTION_LIBRARY !! p.1 = Some p.2)
                 (foldr (insert_desc by_urgency) [] l)).
  { eapply Permutation_Forall; [symmetry; apply (sort_desc_perm by_urgency l)|done]. }
  clear IH Hl. induction Hs as [|y l' Hy Hl' IH]; [done|].
  rewrite fmap_cons. simpl.
  rewrite (by_urgency_consistent x y) by done.
  destruct (Actions.by_urgency_of x.1 y.1); [done|].
  rewrite fmap_cons. by rewrite IH.
Qed.

Lemma decide_for_scenario_shape (risk : Risk.t) (sim : Scenario.t) :
  exists d,
    decide_for_scenario risk sim = Ok d
    /\ Decision.node_id d = Risk.node_id risk
    /\ Decision.confidence d = calculate_confidence risk sim
    /\ Decision.action <$> Decision.recommended_actions d = Actions.names risk sim
    /\ Decision.primary_action d = hd "do_nothing"%string (Actions.names risk sim)
    /\ Forall (fun r =>
          Decision.estimated_confidence r = Decision.confidence d
          /\ exists info,
               ACTION_LIBRARY !! Decision.action r = Some info
               /\ Decision.description r = description info
               /\ Decision.urgency r = urgency info
               /\ Decision.lead_time_days r = lead_time_days info)
         (Decision.recommended_actions d).
Proof.
  unfold decide_for_scenario, Actions.names.
  set (actions := select_actions _ _ _ _ _ _ _).
  destruct (select_actions_known (Risk.risk_score risk)
              (Scenario.estimated_delay_days sim)
              (Scenario.service_level_impact_pct sim)
              (Scenario.affected_nodes_count sim)
              (default "Unknown"%string (Risk.material risk))
              (default "Unknown"%string (Risk.country risk))
              (default "Unknown"%string (Scenario.disruption_type sim)))
    as [Hne Hknown].
  fold actions in Hne, Hknown.
  destruct (with_info_known (unique_from ∅ actions)) as (infos & Hinfos & _).
  { apply Forall_forall. intros act [Hact _]%unique_from_elem.
    by eapply Forall_forall in Hknown. }
  destruct (with_info_consistent _ _ Hinfos) as [Hfst Hcons].
  rewrite Hinfos. simpl. eexists. split; [reflexivity|]. simpl.
  set (conf := calculate_confidence risk sim).
  set (f := fun '(act, info) =>
              Decision.Recommendation act (description info) (urgency info)
                (py_round (py_min conf 1.0) 2) (lead_time_days info)).
  change (List.map f (sort_desc by_urgency infos))
    with (f <$> sort_desc by_urgency infos).
  assert (Hnames : Decision.action <$> (f <$> sort_desc by_urgency infos)
                   = sort_desc Actions.by_urgency_of (unique_from ∅ actions)).
  { rewrite <- list_fmap_compose, <- Hfst, <- sort_desc_names by done.
    apply list_fmap_ext. by intros _ [act info] _. }
  assert (Hconf : py_round (py_min conf 1.0) 2 = conf).
  { destruct (calculate_confidence_upper risk sim) as [Hle _]. fold conf in Hle.
    destruct (py_min_cases conf 1.0) as [[-> _]|[_ Hlt]]; [|lra].
    unfold conf, calculate_confidence. apply py_round_idem. }
  split; [done|]. split; [done|]. split; [exact Hnames|]. split.
  - rewrite <- Hnames. by destruct (f <$> sort_desc by_urgency infos).
  - apply Forall_fmap.
    eapply Permutation_Forall; [symmetry; apply (sort_desc_perm by_urgency infos)|].
    eapply Forall_impl; [exact Hcons|].
    intros [act info] Hlib. simpl in *. split; [exact Hconf|]. by exists info.
Qed.

(** What [decide_for_scenario] returns: it never raises; the action ids
    are the selected actions without duplicates in order of urgency; the
    primary action is the first of them; every recommendation carries the
    description, urgency and lead time that [ACTION_LIBRARY] gives its
    action, and the confidence of the decision. *)
Theorem decide_for_scenario_result (risk : Risk.t) (sim : Scenario.t) :
  exists d,
    decide_for_scenario risk sim = Ok d
    /\ Decision.node_id d = Risk.node_id risk
    /\ Decision.confidence d = calculate_confidence risk sim
    /\ Decision.action <$> Decision.recommended_actions d = Actions.names risk sim
    /\ Decision.primary_action d = hd "do_nothing"%string (Actions.names risk sim)
    /\ Forall (fun r =>
          Decision.estimated_confidence r = Decision.confidence d
          /\ exists info,
               ACTION_LIBRARY !! Decision.action r = Some info
               /\ Decision.description r = description info
               /\ Decision.urgency r = urgency info
               /\ Decision.lead_time_days r = lead_time_days info)
         (Decision.recommended_actions d).
Proof.
  apply decide_for_scenario_shape.
Qed.

Lemma critical_not_downgraded (severity delay_days service_impact : Q) :
  0.85 <= severity \/ 14 <= delay_days \/ 60 <= service_impact ->
  Qgeb severity CRITICAL_RISK_THRESHOLD
  || Qgeb delay_days CRITICAL_DELAY_DAYS
  || Qgeb service_impact CRITICAL_SERVICE_IMPACT = true
  /\ Qltb delay_days 3 && Qltb service_impact 20
     && Qltb severity MEDIUM_RISK_THRESHOLD = false.
Proof.
  unfold CRITICAL_RISK_THRESHOLD, CRITICAL_DELAY_DAYS, CRITICAL_SERVICE_IMPACT,
    MEDIUM_RISK_THRESHOLD.
  intros [H|[H|H]].
  - assert (Qgeb severity 0.85 = true) as -> by (by apply Qgeb_ge).
    assert (Qltb severity 0.40 = false) as -> by (apply Qltb_ge; lra).
    by rewrite !andb_false_r.
  - assert (Qgeb delay_days 14 = true) as -> by (by apply Qgeb_ge).
    assert (Qltb delay_days 3 = false) as -> by (apply Qltb_ge; lra).
    by rewrite !orb_true_r.
  - assert (Qgeb service_impact 60 = true) as -> by (by apply Qgeb_ge).
    assert (Qltb service_impact 20 = false) as -> by (apply Qltb_ge; lra).
    by rewrite !orb_true_r, !andb_false_r.
Qed.

(** In the critical tier (severity >= 0.85, delay >= 14 days or service
    impact >= 60) the decision is never downgraded: it recommends
    [expedite_shipment] then [activate_alternative_source] for a node
    failure, [increase_safety_stock] then [activate_alternative_source]
    otherwise, and last [diversify_suppliers] when the material has
    criticality >= 4 and the country is China or Taiwan. *)
Theorem critical_tier_actions (risk : Risk.t) (sim : Scenario.t) :
  Actions.critical risk sim ->
  Actions.names risk sim
  = (if bool_decide (default "Unknown"%string (Scenario.disruption_type sim)
                     = "node_failure"%string)
     then ["expedite_shipment"; "activate_alternative_source"]
     else ["increase_safety_stock"; "activate_alternative_source"])%string
    ++ (if (4 <=? material_criticality_of (default "Unknown"%string (Risk.material risk)))%Z
           && bool_decide (default "Unknown"%string (Risk.country risk)
                           ∈ ["China"; "Taiwan"]%string)
        then ["diversify_suppliers"%string] else []).
Proof.
  intros Hcrit. unfold Actions.names, select_actions.
  destruct (critical_not_downgraded _ _ _ Hcrit) as [-> ->].
  destruct (bool_decide (default "Unknown"%string (Scenario.disruption_type sim)
                         = "node_failure"%string));
    destruct (bool_decide (default "Unknown"%string (Risk.country risk)
                           ∈ ["China"; "Taiwan"]%string));
    destruct (4 <=? material_criticality_of _)%Z; vm_compute; reflexivity.
Qed.

(** The severe risk on a failed node: [expedite_shipment] comes first. *)
Lemma critical_tier_actions_witness :
  Actions.names Sample.severe_risk
    (Scenario.Record_ "S1" (Some "node_failure"%string) 0.9 80 0 1 75 "Taiwan earthquake")
  = ["expedite_shipment"; "activate_alternative_source"; "diversify_suppliers"]%string.
Proof.
  rewrite (critical_tier_actions Sample.severe_risk
             (Scenario.Record_ "S1" (Some "node_failure"%string) 0.9 80 0 1 75
                "Taiwan earthquake")).
  - by vm_compute.
  - left. by vm_compute.
Defined.

(** A risk with delay < 3 days, service impact < 20 and severity < 0.40
    gets the single recommendation [do_nothing], whatever the material
    and the country. *)
Theorem minimal_risk_does_nothing (risk : Risk.t) (sim : Scenario.t) :
  Scenario.estimated_delay_days sim < 3 ->
  Scenario.service_level_impact_pct sim < 20 ->
  Risk.risk_score risk < 0.40 ->
  Actions.names risk sim = ["do_nothing"%string].
Proof.
  intros Hd Hi Hs. unfold Actions.names, select_actions.
  assert (Qltb (Scenario.estimated_delay_days sim) 3 = true) as E1 by (by apply Qltb_lt).
  assert (Qltb (Scenario.service_level_impact_pct sim) 20 = true) as E2
    by (by apply Qltb_lt).
  assert (Qltb (Risk.risk_score risk) MEDIUM_RISK_THRESHOLD = true) as E3
    by (by apply Qltb_lt).
  rewrite E1, E2, E3. simpl.
  destruct (4 <=? material_criticality_of _)%Z; vm_compute; reflexivity.
Qed.

Lemma minimal_risk_does_nothing_witness :
  Actions.names (Risk.Record_ "S1" 0.2 None (Some "Taiwan") (Some "Semiconductors") None)
    (Scenario.Record_ "S1" (Some "capacity_reduction"%string) 0.2 20 1 4 0 "x")
  = ["do_nothing"%string].
Proof.
  apply (minimal_risk_does_nothing
           (Risk.Record_ "S1" 0.2 None (Some "Taiwan") (Some "Semiconductors") None)
           (Scenario.Record_ "S1" (Some "capacity_reduction"%string) 0.2 20 1 4 0 "x"));
    by vm_compute.
Defined.

Lemma remove_first_NoDup (x : string) (l : list string) :
  NoDup l -> x ∉ remove_first x l.
Proof.
  induction 1 as [|y l Hy Hl IH]; simpl; [by intros ?%elem_of_nil|].
  case_bool_decide as E; [by subst|].
  intros [->|Hin]%elem_of_cons; [done|by apply IH].
Qed.

(** For a material of criticality 4 or more, [increase_monitoring] is
    never among the recommended actions. *)
Theorem critical_material_never_monitoring (risk : Risk.t) (sim : Scenario.t) :
  (4 <= material_criticality_of (default "Unknown"%string (Risk.material risk)))%Z ->
  "increase_monitoring"%string ∉ Actions.names risk sim.
Proof.
  intros Hcrit%Z.leb_le. unfold Actions.names.
  rewrite (sort_desc_perm Actions.by_urgency_of).
  intros [Hin _]%unique_from_elem. revert Hin.
  unfold select_actions. rewrite Hcrit. simpl.
  set (base := if Qgeb _ CRITICAL_RISK_THRESHOLD || _ || _ then _ else _).
  assert (Hbase : NoDup base).
  { unfold base. repeat case_match; simpl;
      repeat (apply NoDup_cons; split; [set_solver|]); apply NoDup_nil_2. }
  clearbody base.
  set (actions := if Qltb _ 3 && _ && _ then _ else base).
  assert (Hact : NoDup actions).
  { unfold actions. case_match; [|exact Hbase]. apply NoDup_singleton. }
  clearbody actions.
  case_bool_decide as Hmon; [|done].
  intros [Hin|Hin%list_elem_of_singleton]%elem_of_app; [|done].
  by apply (remove_first_NoDup "increase_monitoring" actions Hact).
Qed.

Lemma critical_material_never_monitoring_witness :
  "increase_monitoring"%string
  ∉ Actions.names (Risk.Record_ "S1" 0.45 None (Some "Taiwan") (Some "Steel") None)
      (Scenario.Record_ "S1" (Some "capacity_reduction"%string) 0.45 20 6.3 4 0.0 "quake").
Proof.
  apply (critical_material_never_monitoring
           (Risk.Record_ "S1" 0.45 None (Some "Taiwan") (Some "Steel") None)
           (Scenario.Record_ "S1" (Some "capacity_reduction"%string) 0.45 20 6.3 4 0.0
              "quake")).
  by vm_compute.
Defined.

Lemma upgraded_elem (crit : bool) (actions : list string) (x : string) :
  x <> "notify_procurement"%string ->
  x ∈ (if crit && bool_decide ("increase_monitoring"%string ∈ actions)
       then remove_first "increase_monitoring" actions ++ ["notify_procurement"%string]
       else actions) ->
  x ∈ actions.
Proof.
  intros Hne. destruct (crit && _); [|done].
  intros [Hin|Hin%list_elem_of_singleton]%elem_of_app; [|done].
  by eapply remove_first_elem.
Qed.

(** [expedite_shipment] is recommended for node failures in the critical
    tier only. *)
Theorem expedite_only_for_node_failure (risk : Risk.t) (sim : Scenario.t) :
  "expedite_shipment"%string ∈ Actions.names risk sim ->
  Scenario.disruption_type sim = Some "node_failure"%string
  /\ Actions.critical risk sim.
Proof.
  unfold Actions.names. rewrite (sort_desc_perm Actions.by_urgency_of).
  intros [Hin _]%unique_from_elem. revert Hin. unfold select_actions.
  intros Hin%upgraded_elem; [|done]. revert Hin.
  destruct (Qltb _ 3 && _ && _); [by intros ?%list_elem_of_singleton|].
  destruct (Qgeb _ CRITICAL_RISK_THRESHOLD || _ || _) eqn:Ecrit.
  - case_bool_decide as Hty.
    + intros _. split.
      * destruct (Scenario.disruption_type sim) as [ty|]; simpl in Hty; by subst.
      * apply orb_true_iff in Ecrit as [Ecrit|Ei]; [apply orb_true_iff in Ecrit as [Es|Ed]|].
        -- left. by apply Qgeb_ge in Es.
        -- right; left. by apply Qgeb_ge in Ed.
        -- right; right. by apply Qgeb_ge in Ei.
    + intros Hin. exfalso. revert Hin. case_match; set_solver.
  - intros Hin. exfalso. revert Hin. repeat case_match; set_solver.
Qed.

Lemma expedite_only_for_node_failure_witness :
  Scenario.disruption_type
    (Scenario.Record_ "S1" (Some "node_failure"%string) 0.9 80 0 1 75 "quake")
  = Some "node_failure"%string.
Proof.
  apply (expedite_only_for_node_failure
           (Risk.Record_ "S1" 0.9 None (Some "Taiwan") (Some "Semiconductors") None)
           (Scenario.Record_ "S1" (Some "node_failure"%string) 0.9 80 0 1 75 "quake")).
  apply (bool_decide_unpack _). vm_compute. reflexivity.
Defined.

(** [do_nothing] is never combined with another action. *)
Theorem do_nothing_alone (risk : Risk.t) (sim : Scenario.t) :
  "do_nothing"%string ∈ Actions.names risk sim ->
  Actions.names risk sim = ["do_nothing"%string].
Proof.
  unfold Actions.names at 1. rewrite (sort_desc_perm Actions.by_urgency_of).
  intros [Hin _]%unique_from_elem. revert Hin. unfold select_actions.
  intros Hin%upgraded_elem; [|done]. revert Hin.
  destruct (Qltb (Scenario.estimated_delay_days sim) 3
            && Qltb (Scenario.service_level_impact_pct sim) 20
            && Qltb (Risk.risk_score risk) MEDIUM_RISK_THRESHOLD) eqn:Edown.
  - intros _. apply andb_prop in Edown as [Edown E3].
    apply andb_prop in Edown as [E1 E2].
    unfold Actions.names, select_actions. rewrite E1, E2, E3. simpl.
    destruct (4 <=? material_criticality_of _)%Z; vm_compute; reflexivity.
  - intros Hin. exfalso. revert Hin. repeat case_match; set_solver.
Qed.

Lemma do_nothing_alone_witness :
  Actions.names (Risk.Record_ "S1" 0.2 None (Some "Taiwan") (Some "Semiconductors") None)
    (Scenario.Record_ "S1" (Some "capacity_reduction"%string) 0.2 20 1 4 0 "x")
  = ["do_nothing"%string].
Proof.
  apply (do_nothing_alone
           (Risk.Record_ "S1" 0.2 None (Some "Taiwan") (Some "Semiconductors") None)
           (Scenario.Record_ "S1" (Some "capacity_reduction"%string) 0.2 20 1 4 0 "x")).
  apply (bool_decide_unpack _). vm_compute. reflexivity.
Defined.

Lemma omap_length_le {A B : Type} (f : A -> option B) (l : list A) :
  (length (omap f l) <= length l)%nat.
Proof.
  induction l as [|x l IH]; csimpl; [lia|]. destruct (f x); csimpl; lia.
Qed.

Lemma StronglySorted_mono {A : Type} (R1 R2 : A -> A -> Prop) (l : list A) :
  (forall a b, R1 a b -> R2 a b) -> StronglySorted R1 l -> StronglySorted R2 l.
Proof.
  intros Himp. induction 1 as [|x l Hl IH Hx]; constructor; [done|].
  eapply Forall_impl; [exact Hx|]. intros b. apply Himp.
Qed.

Lemma by_confidence_total (x y : Decision.t) :
  by_confidence x y = false -> by_confidence y x = true.
Proof.
  unfold by_confidence. intros H%Qgeb_lt. apply Qgeb_ge. lra.
Qed.

Lemma by_confidence_trans (x y z : Decision.t) :
  by_confidence x y = true -> by_confidence y z = true -> by_confidence x z = true.
Proof.
  unfold by_confidence. intros H1%Qgeb_ge H2%Qgeb_ge. apply Qgeb_ge. lra.
Qed.

(** The loop of [run] never raises; it makes one decision per scenario
    that has a risk with its node id, from the first such risk, in the
    order of the scenarios. *)
Lemma match_decisions_matched (risk_list : list Risk.t) (scenarios : list Scenario.t) :
  exists ds,
    match_decisions risk_list scenarios = Ok ds
    /\ Forall2 (fun p d => decide_for_scenario p.1 p.2 = Ok d)
         (Actions.matched risk_list scenarios) ds.
Proof.
  induction scenarios as [|sim rest (ds & Hds & Hall)]; simpl.
  - exists []. split; [done|constructor].
  - unfold Actions.matched. simpl. fold (Actions.matched risk_list rest).
    destruct (List.find _ risk_list) as [risk|] eqn:Efind; simpl.
    + destruct (decide_for_scenario_shape risk sim) as (d & Hd & _).
      rewrite Hd, Hds. simpl. exists (d :: ds). split; [done|]. by constructor.
    + exists ds. by split.
Qed.

Lemma matched_nil_l (scenarios : list Scenario.t) : Actions.matched [] scenarios = [].
Proof. induction scenarios as [|sim rest IH]; [done|exact IH]. Qed.

Lemma decision_run_shape (risks : option risk_result)
    (sims : option simulation_result) :
  exists res ds,
    run risks sims = Ok res
    /\ Forall2 (fun p d => decide_for_scenario p.1 p.2 = Ok d)
         (Actions.matched (default [] (r ← risks; risks_detected r))
            (default [] (s ← sims; scenarios s))) ds
    /\ recommended_actions res = sort_desc by_confidence ds
    /\ decision_count res = length ds
    /\ top_recommendation res
       = match recommended_actions res with
         | d :: _ => Decision.primary_action d
         | [] => "do_nothing"%string
         end
    /\ overall_confidence res <= 1
    /\ has_decimals 2 (overall_confidence res).
Proof.
  unfold run.
  destruct (default [] (r ← risks; risks_detected r)) as [|r0 rl].
  { eexists _, []. split; [reflexivity|]. rewrite matched_nil_l. simpl.
    split; [constructor|]. do 3 (split; [done|]).
    split; [by vm_compute|by exists 0%Z]. }
  destruct (default [] (s ← sims; scenarios s)) as [|s0 sl].
  { eexists _, []. split; [reflexivity|]. simpl.
    split; [constructor|]. do 3 (split; [done|]).
    split; [by vm_compute|by exists 0%Z]. }
  destruct (match_decisions_matched (r0 :: rl) (s0 :: sl)) as (ds & Hds & Hall).
  rewrite Hds. simpl. eexists _, ds. split; [reflexivity|]. simpl.
  split; [exact Hall|]. split; [done|].
  split; [by rewrite (sort_desc_perm by_confidence ds)|].
  split; [by destruct (sort_desc by_confidence ds)|]. split.
  - destruct (sort_desc by_confidence ds); [by vm_compute|].
    apply py_round_upper.
    match goal with |- py_min ?a ?b <= _ =>
      destruct (py_min_cases a b) as [[-> ?]|[-> ?]] end; lra.
  - destruct (sort_desc by_confidence ds); [by exists 0%Z|apply py_round_has_decimals].
Qed.

(** [DecisionAgent.run] never raises.  It makes one decision for each
    scenario that has a risk with its node id, from the first such risk,
    and none for the other scenarios; [decision_count] is the number of
    decisions, at most the number of scenarios. *)
Theorem decision_run_matches (risks : option risk_result)
    (sims : option simulation_result) :
  exists res ds,
    run risks sims = Ok res
    /\ Forall2 (fun p d => decide_for_scenario p.1 p.2 = Ok d)
         (Actions.matched (default [] (r ← risks; risks_detected r))
            (default [] (s ← sims; scenarios s))) ds
    /\ Permutation (recommended_actions res) ds
    /\ decision_count res = length (recommended_actions res)
    /\ (decision_count res <= length (default [] (s ← sims; scenarios s)))%nat.
Proof.
  destruct (decision_run_shape risks sims) as (res & ds & Hres & Hall & Hrec & Hcount & _).
  exists res, ds. split; [done|]. split; [done|].
  assert (Hperm : Permutation (recommended_actions res) ds).
  { rewrite Hrec. apply sort_desc_perm. }
  split; [done|]. split; [by rewrite Hperm|].
  rewrite Hcount. apply Forall2_length in Hall. rewrite <- Hall.
  apply omap_length_le.
Qed.

(** The decisions returned by [DecisionAgent.run] are ordered by
    decreasing confidence, and [top_recommendation] is the primary action
    of the first of them, [do_nothing] when there is none. *)
Theorem decision_run_sorted (risks : option risk_result)
    (sims : option simulation_result) :
  exists res,
    run risks sims = Ok res
    /\ StronglySorted (fun a b => Decision.confidence b <= Decision.confidence a)
         (recommended_actions res)
    /\ top_recommendation res
       = match recommended_actions res with
         | d :: _ => Decision.primary_action d
         | [] => "do_nothing"%string
         end.
Proof.
  destruct (decision_run_shape risks sims)
    as (res & ds & Hres & _ & Hrec & _ & Htop & _).
  exists res. split; [done|]. split; [|done]. rewrite Hrec.
  eapply StronglySorted_mono;
    [|apply (sort_desc_sorted by_confidence by_confidence_total by_confidence_trans)].
  intros a b. unfold by_confidence. by rewrite Qgeb_ge.
Qed.

(** The [overall_confidence] returned by [DecisionAgent.run] is at most 1
    and has two decimals. *)
Theorem decision_run_overall_confidence (risks : option risk_result)
    (sims : option simulation_result) :
  exists res,
    run risks sims = Ok res
    /\ overall_confidence res <= 1
    /\ has_decimals 2 (overall_confidence res).
Proof.
  destruct (decision_run_shape risks sims)
    as (res & ds & Hres & _ & _ & _ & _ & Hle & Hdec).
  by exists res.
Qed.

End DecisionExtras.

(** ** Matching the news with the graph *)

Section RiskDetectionFacts.
Import Num RiskAgent RiskDetection.

Lemma py_round_decimals (q : Q) (n : nat) : has_decimals n q -> py_round q n == q.
Proof.
  intros [z Hz]. unfold py_round. pose proof (pow10_pos n) as Hp.
  set (p := inject_Z (10 ^ Z.of_nat n)) in *.
  rewrite (round_half_even_comp _ (inject_Z z)).
  - by rewrite round_half_even_Z, Hz.
  - rewrite Hz. clearbody p. field. lra.
Qed.

Lemma contains_empty (s : string) : Str.contains "" s = true.
Proof. by destruct s. Qed.

Lemma visit_entries (news : News.t) (node : string) (data : pydict)
    (l : list affected) :
  visit news (RiskDetection.full_text_of news) node data = Done l ->
  l = [] \/ exists aff, l = [aff] /\ entry_of news node data aff.
Proof.
  unfold visit. case_bool_decide as Hty; [|intros [= <-]; by left].
  destruct (lower_of data "country") as [country|]; simpl; [|done].
  destruct (lower_of data "material") as [material|]; simpl; [|done].
  destruct (lower_of data "name") as [name|]; simpl; [|done].
  destruct (material_match _ material) as [mm|]; simpl; [|done].
  destruct (_ || _ || _); [|intros [= <-]; by left].
  destruct (score_risk news data) as [s|] eqn:Es; simpl; [|done].
  intros [= <-]. right. eexists. split; [reflexivity|]. by repeat split.
Qed.

Lemma visit_all_entries (news : News.t) (nodes : list (string * pydict))
    (l : list affected) :
  visit_all news (RiskDetection.full_text_of news) nodes = Done l ->
  Forall (fun aff => exists data,
            (Risk.node_id (risk aff), data) ∈ nodes
            /\ entry_of news (Risk.node_id (risk aff)) data aff) l
  /\ (fun aff => Risk.node_id (risk aff)) <$> l `sublist_of` nodes.*1.
Proof.
  revert l. induction nodes as [|[node data] rest IH]; intros l; simpl.
  { intros [= <-]. split; [constructor|done]. }
  destruct (visit news _ node data) as [here|] eqn:Ehere; simpl; [|done].
  destruct (visit_all news _ rest) as [later|]; simpl; [|done].
  intros [= <-]. destruct (IH later eq_refl) as [IH1 IH2].
  assert (Hlater : Forall (fun aff => exists data0,
            (Risk.node_id (risk aff), data0) ∈ (node, data) :: rest
            /\ entry_of news (Risk.node_id (risk aff)) data0 aff) later).
  { eapply Forall_impl; [exact IH1|]. intros aff (d & Hin & He).
    exists d. split; [by apply list_elem_of_further|done]. }
  destruct (visit_entries _ _ _ _ Ehere) as [->|(aff & -> & He)]; simpl.
  - split; [done|]. by apply sublist_cons.
  - split.
    + constructor; [|done]. exists data. destruct He as (Hn & He').
      rewrite Hn. split; [apply list_elem_of_here|]. by split.
    + destruct He as (-> & _). by apply sublist_skip.
Qed.

Lemma nodes_data_fst (G : nat) (st : state) :
  (nodes_data G st).*1 = (map_to_list (node_ref (Nx.graph_at G st))).*1.
Proof.
  unfold nodes_data. rewrite <- list_fmap_compose.
  apply list_fmap_ext. by intros i [n r] _.
Qed.

Lemma nodes_data_elem (G : nat) (st : state) (n : string) (data : pydict) :
  (n, data) ∈ nodes_data G st <->
  exists r, node_ref (Nx.graph_at G st) !! n = Some r /\ data = Nx.dict_at r st.
Proof.
  unfold nodes_data. rewrite list_elem_of_fmap. split.
  - intros ([n' r] & [= -> ->] & Hin%elem_of_map_to_list). by exists r.
  - intros (r & Hr & ->). exists (n, r). split; [done|].
    by apply elem_of_map_to_list.
Qed.

Lemma find_affected_nodes_suppliers_aux (G : nat) (news : News.t) (st : state)
    (l : list affected) :
  find_affected_nodes G news st = Done l ->
  Forall (fun aff => exists r,
            node_ref (Nx.graph_at G st) !! Risk.node_id (risk aff) = Some r
            /\ get_str (Nx.dict_at r st) "type" = Some "supplier"%string
            /\ score_risk news (Nx.dict_at r st) = Ok (score aff)) l.
Proof.
  unfold find_affected_nodes. intros [Hall Hsub]%visit_all_entries.
  eapply Forall_impl; [exact Hall|]. intros aff (data & Hin & He).
  apply nodes_data_elem in Hin as (r & Hr & ->).
  exists r. split; [done|]. destruct He as (_ & Hty & Hsc & _). by split.
Qed.

(** Whenever [find_affected_nodes] returns, every entry is for a node of
    the graph whose type is supplier, with the score that [score_risk]
    gives for the news item and the attributes of that node, and no
    node has two entries. *)
Theorem find_affected_nodes_suppliers (G : nat) (news : News.t) (st : state)
    (l : list affected) :
  find_affected_nodes G news st = Done l ->
  Forall (fun aff => exists r,
            node_ref (Nx.graph_at G st) !! Risk.node_id (risk aff) = Some r
            /\ get_str (Nx.dict_at r st) "type" = Some "supplier"%string
            /\ score_risk news (Nx.dict_at r st) = Ok (score aff)) l
  /\ NoDup ((fun aff => Risk.node_id (risk aff)) <$> l).
Proof.
  intros H. split; [by apply find_affected_nodes_suppliers_aux|].
  revert H. unfold find_affected_nodes. intros [Hall Hsub]%visit_all_entries.
  - eapply sublist_NoDup; [|exact Hsub]. rewrite nodes_data_fst.
    apply NoDup_fst_map_to_list.
Qed.

Lemma find_affected_nodes_suppliers_witness :
  exists l,
    find_affected_nodes 0 Sample.titled_quake Sample.built = Done l
    /\ l <> []
    /\ NoDup ((fun aff => Risk.node_id (risk aff)) <$> l).
Proof.
  eexists. split; [vm_compute; reflexivity|]. split; [done|].
  apply (find_affected_nodes_suppliers 0 Sample.titled_quake Sample.built).
  vm_compute. reflexivity.
Defined.

Lemma max_fold_app (l1 l2 : list affected) (m : Q) :
  fold_left (fun m aff => py_max m (score aff)) (l1 ++ l2) m
  = fold_left (fun m aff => py_max m (score aff)) l2
      (fold_left (fun m aff => py_max m (score aff)) l1 m).
Proof.
  apply fold_left_app.
Qed.

Lemma max_fold_spec (l : list affected) (m : Q) :
  let r := fold_left (fun m aff => py_max m (score aff)) l m in
  m <= r
  /\ Forall (fun aff => score aff <= r) l
  /\ (r = m \/ exists aff, aff ∈ l /\ r = score aff).
Proof.
  revert m. induction l as [|a l IH]; intros m; simpl.
  { split; [lra|]. split; [constructor|by left]. }
  destruct (IH (py_max m (score a))) as (H1 & H2 & H3).
  set (r := fold_left _ l _) in *. clearbody r.
  destruct (py_max_cases m (score a)) as [[E Hle]|[E Hlt]]; rewrite E in *.
  - split; [done|]. split; [constructor; [lra|done]|].
    destruct H3 as [->|(b & Hb & ->)]; [by left|].
    right. exists b. split; [by apply list_elem_of_further|done].
  - split; [lra|]. split; [by constructor|].
    right. destruct H3 as [->|(b & Hb & ->)].
    + exists a. split; [apply list_elem_of_here|done].
    + exists b. split; [by apply list_elem_of_further|done].
Qed.

Lemma scan_spec (G : nat) (st : state) (news_items : list News.t)
    (acc all_risks : list affected) (m max_sev : Q) :
  scan G st news_items acc m = Done (all_risks, max_sev) ->
  exists new,
    all_risks = acc ++ new
    /\ max_sev = fold_left (fun m aff => py_max m (score aff)) new m
    /\ Forall (fun aff => exists news r,
                 news ∈ news_items
                 /\ node_ref (Nx.graph_at G st) !! Risk.node_id (risk aff) = Some r
                 /\ get_str (Nx.dict_at r st) "type" = Some "supplier"%string
                 /\ score_risk news (Nx.dict_at r st) = Ok (score aff)) new.
Proof.
  revert acc m. induction news_items as [|news rest IH]; intros acc m; simpl.
  { intros [= <- <-]. exists []. rewrite app_nil_r. split; [done|].
    split; [done|constructor]. }
  destruct (find_affected_nodes G news st) as [here|] eqn:Ehere; simpl; [|done].
  intros (new & -> & -> & Hnew)%IH. exists (here ++ new).
  split; [by rewrite app_assoc|]. split; [by rewrite max_fold_app|].
  apply Forall_app. split.
  - apply find_affected_nodes_suppliers_aux in Ehere.
    eapply Forall_impl; [exact Ehere|]. intros aff (r & H1 & H2 & H3).
    exists news, r. split; [apply list_elem_of_here|done].
  - eapply Forall_impl; [exact Hnew|]. intros aff (n & r & Hn & H).
    exists n, r. split; [by apply list_elem_of_further|done].
Qed.

Lemma by_score_total (x y : affected) : by_score x y = false -> by_score y x = true.
Proof. unfold by_score. intros H%Qgeb_lt. apply Qgeb_ge. lra. Qed.

Lemma by_score_trans (x y z : affected) :
  by_score x y = true -> by_score y z = true -> by_score x z = true.
Proof. unfold by_score. intros H1%Qgeb_ge H2%Qgeb_ge. apply Qgeb_ge. lra. Qed.

(** What [RiskAgent.run] returns when it returns, for news items whose
    relevance is in [0,1]: every risk is for a supplier node of the graph
    in the memory, scored by [score_risk] for one of the news items; the
    scores are in [0,1] with two decimals; the risks are ordered by
    decreasing score; and [max_severity] is the score of the first risk,
    0 when there is none. *)
Theorem risk_run_sorted (news_items : list News.t) (st : state) (res : run_result) :
  Forall (fun news => forall r, News.relevance_score news = Some r -> 0 <= r <= 1)
    news_items ->
  run news_items st = Done res ->
  Forall (fun aff =>
            0 <= score aff <= 1 /\ has_decimals 2 (score aff)
            /\ exists G news r,
                 memory_graph st = Some G /\ news ∈ news_items
                 /\ node_ref (Nx.graph_at G st) !! Risk.node_id (risk aff) = Some r
                 /\ get_str (Nx.dict_at r st) "type" = Some "supplier"%string
                 /\ score_risk news (Nx.dict_at r st) = Ok (score aff))
    (risks_detected res)
  /\ StronglySorted (fun a b => score b <= score a) (risks_detected res)
  /\ max_severity res == match risks_detected res with
                         | aff :: _ => score aff
                         | [] => 0
                         end.
Proof.
  intros Hrel. unfold run.
  destruct (memory_graph st) as [G|];
    [|intros [= <-]; simpl; split; [constructor|split; [constructor|reflexivity]]].
  destruct (_ =? _)%nat;
    [intros [= <-]; simpl; split; [constructor|split; [constructor|reflexivity]]|].
  destruct (scan G st news_items [] 0.0) as [[all_risks max_sev]|] eqn:Escan;
    simpl; [|done].
  intros [= <-]. simpl.
  apply scan_spec in Escan as (new & -> & -> & Hnew). simpl.
  pose proof (sort_desc_perm by_score new) as Hperm.
  pose proof (sort_desc_sorted by_score by_score_total by_score_trans new) as Hsorted.
  assert (Hall : Forall (fun aff =>
            0 <= score aff <= 1 /\ has_decimals 2 (score aff)
            /\ exists G0 news r,
                 Some G = Some G0 /\ news ∈ news_items
                 /\ node_ref (Nx.graph_at G0 st) !! Risk.node_id (risk aff) = Some r
                 /\ get_str (Nx.dict_at r st) "type" = Some "supplier"%string
                 /\ score_risk news (Nx.dict_at r st) = Ok (score aff)) new).
  { eapply Forall_impl; [exact Hnew|]. intros aff (news & r & Hin & Hr & Hty & Hsc).
    rewrite Forall_forall in Hrel.
    destruct (score_risk_range news _ _ (Hrel news Hin) Hsc) as [Hrange Hdec].
    split; [done|]. split; [done|]. by exists G, news, r. }
  pose proof (max_fold_spec new 0.0) as (Hlow & Hup & Hmax). cbv zeta in *.
  set (m := fold_left _ new 0.0) in *. clearbody m.
  split; [by rewrite Hperm|]. split.
  { eapply StronglySorted_mono; [|exact Hsorted].
    intros a b. unfold by_score. by rewrite Qgeb_ge. }
  destruct (sort_desc by_score new) as [|a s] eqn:Es.
  { apply Permutation_nil_l in Hperm. subst new.
    destruct Hmax as [->|(b & Hb & _)]; [by vm_compute|by apply elem_of_nil in Hb]. }
  assert (Ha : a ∈ new) by (rewrite <- Hperm; apply list_elem_of_here).
  rewrite Forall_forall in Hall, Hup.
  destruct (Hall a Ha) as (Hrange & Hdec & _).
  assert (Hm : m == score a).
  { apply Qle_antisym.
    - destruct Hmax as [->|(b & Hb & ->)]; [lra|].
      rewrite <- Hperm in Hb. apply elem_of_cons in Hb as [->|Hb]; [lra|].
      apply StronglySorted_inv in Hsorted as [_ Hle].
      rewrite Forall_forall in Hle. specialize (Hle b Hb).
      unfold by_score in Hle. by apply Qgeb_ge in Hle.
    - by apply Hup. }
  rewrite (py_round_comp m (score a) 2 Hm). by apply py_round_decimals.
Qed.

Lemma risk_run_sorted_witness :
  exists res,
    run [Sample.titled_quake; Sample.strike_and_flood] Sample.built = Done res
    /\ risks_detected res <> []
    /\ max_severity res == match risks_detected res with
                           | aff :: _ => score aff
                           | [] => 0
                           end.
Proof.
  eexists. split; [vm_compute; reflexivity|]. split; [done|].
  apply (risk_run_sorted [Sample.titled_quake; Sample.strike_and_flood] Sample.built).
  - apply Forall_cons; split; [intros r [= <-]; by vm_compute|].
    apply Forall_cons; split; [intros r [= <-]; by vm_compute|].
    apply Forall_nil_2.
  - vm_compute. reflexivity.
Defined.

(** A supplier node whose material is blank or absent makes
    [find_affected_nodes] fail for every news item: [material.split()[0]]
    is evaluated for every supplier, and it raises on a string without
    a word. *)
Theorem blank_material_never_returns (G : nat) (news : News.t) (st : state)
    (n : string) (r : nat) :
  node_ref (Nx.graph_at G st) !! n = Some r ->
  get_str (Nx.dict_at r st) "type" = Some "supplier"%string ->
  (forall m, default (PyStr "") (Nx.dict_at r st !! "material"%string) = PyStr m ->
             Str.split (Text.lower m) = []) ->
  exists f, find_affected_nodes G news st = Failed f.
Proof.
  intros Hr Hty Hblank. unfold find_affected_nodes.
  assert (Hin : (n, Nx.dict_at r st) ∈ nodes_data G st).
  { apply nodes_data_elem. by exists r. }
  set (data := Nx.dict_at r st) in *. clearbody data.
  induction (nodes_data G st) as [|[n' d'] rest IH]; [by apply elem_of_nil in Hin|].
  simpl. apply elem_of_cons in Hin as [[= <- <-]|Hin].
  - assert (Hvisit : exists f,
        visit news (RiskDetection.full_text_of news) n data = Failed f).
    { unfold visit. rewrite bool_decide_eq_true_2 by done.
      destruct (lower_of data "country") as [country|]; simpl; [|by eexists].
      destruct (lower_of data "material") as [material|] eqn:Em; simpl; [|by eexists].
      destruct (lower_of data "name") as [name|]; simpl; [|by eexists].
      unfold lower_of in Em.
      destruct (default (PyStr "") (data !! "material"%string)) as [m|q]; [|done].
      injection Em as <-.
      unfold material_match. rewrite (Hblank m eq_refl). simpl. by eexists. }
    destruct Hvisit as [f ->]. by exists f.
  - destruct (visit news _ n' d') as [here|f]; simpl; [|by exists f].
    destruct (IH Hin) as [f ->]. by exists f.
Qed.

(** A supplier node whose country is the empty string, or is absent, is
    reported for every news item: the empty string is in every text. *)
Theorem blank_country_always_matched (G : nat) (news : News.t) (st : state)
    (n : string) (r : nat) (l : list affected) :
  node_ref (Nx.graph_at G st) !! n = Some r ->
  get_str (Nx.dict_at r st) "type" = Some "supplier"%string ->
  default (PyStr "") (Nx.dict_at r st !! "country"%string) = PyStr "" ->
  find_affected_nodes G news st = Done l ->
  n ∈ (fun aff => Risk.node_id (risk aff)) <$> l.
Proof.
  intros Hr Hty Hc. unfold find_affected_nodes.
  assert (Hin : (n, Nx.dict_at r st) ∈ nodes_data G st).
  { apply nodes_data_elem. by exists r. }
  set (data := Nx.dict_at r st) in *. clearbody data. revert l.
  induction (nodes_data G st) as [|[n' d'] rest IH]; intros l;
    [by apply elem_of_nil in Hin|].
  simpl.
  destruct (visit news _ n' d') as [here|] eqn:Ehere; simpl; [|done].
  destruct (visit_all news _ rest) as [later|]; simpl; [|done].
  intros [= <-]. rewrite fmap_app, elem_of_app.
  apply elem_of_cons in Hin as [[= <- <-]|Hin]; [left|right; by apply IH].
  revert Ehere. unfold visit. rewrite bool_decide_eq_true_2 by done.
  assert (Hlc : lower_of data "country" = Done ""%string).
  { unfold lower_of. by rewrite Hc. }
  rewrite Hlc. simpl.
  destruct (lower_of data "material") as [material|]; simpl; [|done].
  destruct (lower_of data "name") as [name|]; simpl; [|done].
  destruct (material_match _ material) as [mm|]; simpl; [|done].
  unfold country_match. simpl. rewrite contains_empty. simpl.
  destruct (score_risk news data) as [s|]; simpl; [|done].
  intros [= <-]. simpl. apply list_elem_of_here.
Qed.

Lemma blank_material_never_returns_witness :
  exists f, find_affected_nodes 0 Sample.titled_quake (Rosters.after Rosters.no_material)
            = Failed f.
Proof.
  apply (blank_material_never_returns 0 Sample.titled_quake
           (Rosters.after Rosters.no_material) "S3" 1).
  - vm_compute. reflexivity.
  - vm_compute. reflexivity.
  - intros m Hm. vm_compute in Hm. injection Hm as <-. reflexivity.
Defined.

Lemma blank_country_always_matched_witness :
  exists l,
    find_affected_nodes 0 Sample.strike_and_flood (Rosters.after Rosters.no_country)
    = Done l
    /\ "S4"%string ∈ (fun aff => Risk.node_id (risk aff)) <$> l.
Proof.
  eexists. split; [vm_compute; reflexivity|].
  apply (blank_country_always_matched 0 Sample.strike_and_flood
           (Rosters.after Rosters.no_country) "S4" 0).
  - vm_compute. reflexivity.
  - vm_compute. reflexivity.
  - vm_compute. reflexivity.
  - vm_compute. reflexivity.
Defined.

Lemma flat_map_keys_sublist {A : Type} (c : string -> A -> bool) (l : list (string * A)) :
  flat_map (fun '(k, a) => if c k a then [k] else []) l `sublist_of` l.*1.
Proof.
  induction l as [|[k a] l IH]; simpl; [done|].
  destruct (c k a); simpl; [by apply sublist_skip|by apply sublist_cons].
Qed.

(** [extract_risk_types] gives a list that is not empty and has no
    duplicates: either [general] alone, or categories of [RISK_PATTERNS].
    The keywords [tariff] and [cyberattack], which [MATERIAL_SENSITIVITY]
    lists, are never among them. *)
Theorem extract_risk_types_categories (text : string) :
  let types := extract_risk_types text in
  types <> []
  /\ NoDup types
  /\ ((types = ["general"%string]) \/ (types ⊆ categories))
  /\ ("tariff"%string ∉ types)
  /\ ("cyberattack"%string ∉ types).
Proof.
  cbv zeta. unfold extract_risk_types.
  pose proof (flat_map_keys_sublist
    (fun (_ : string) words =>
       existsb (fun word => Text.re_search (Text.whole_word word) (Text.lower text)) words)
    RISK_PATTERNS) as Hsub.
  change (flat_map _ RISK_PATTERNS) with (detected_types (Text.lower text)) in Hsub.
  fold categories in Hsub.
  assert (Hnodup : NoDup categories) by (apply (bool_decide_unpack _); by vm_compute).
  assert (Hno : ("tariff"%string ∉ categories) /\ ("cyberattack"%string ∉ categories)).
  { split; apply (bool_decide_unpack _); by vm_compute. }
  destruct (detected_types (Text.lower text)) as [|ty types] eqn:E.
  - split; [done|]. split; [apply NoDup_singleton|]. split; [by left|].
    split; by intros ?%list_elem_of_singleton.
  - split; [done|]. split; [by eapply sublist_NoDup|].
    assert (Hin : ty :: types ⊆ categories).
    { intros x Hx. by eapply elem_of_sublist. }
    split; [by right|]. destruct Hno as [H1 H2].
    split; intros Hx%Hin; done.
Qed.

End RiskDetectionFacts.

(** ** The attributes of the graph the graph agent builds *)

Section AttrFacts.
Import Nx.
Variable P : pydict -> Prop.

Lemma add_node_attrs (G : nat) (n : string) (attr : pydict) (st : state) :
  Spec.graph_ok G st ->
  Attrs.all P G st ->
  (forall d, P d -> P (attr ∪ d)) ->
  (n ∉ dom (node_ref (graph_at G st)) -> P (attr ∪ ∅)) ->
  wp (add_node G n attr)
    (fun r st' =>
       r = Ok tt /\ Spec.keeps G st st' /\ Attrs.all P G st'
       /\ dom (node_ref (graph_at G st')) = dom (node_ref (graph_at G st)) ∪ {[n]}) st.
Proof.
  intros Hok Hall Hstable Hnew.
  pose proof (add_node_keeps G n attr st Hok) as Hkeeps.
  unfold wp in *. destruct Hkeeps as (Hr & Hk & _).
  split; [done|]. split; [done|]. clear Hr Hk.
  destruct Hok as (HG & Hrefs & Hclosed).
  unfold add_node, mbind, M_bind, get_state. simpl.
  destruct (node_ref (graph_at G st) !! n) as [r|] eqn:En.
  - unfold dict_update, modify. simpl. split.
    + intros m r'. unfold graph_at, dict_at. simpl. intros Hm.
      destruct (decide (r' = r)) as [->|Hne].
      * rewrite list_lookup_insert_eq by (by apply (Hrefs n r)). simpl.
        apply Hstable. by apply (Hall n r).
      * rewrite list_lookup_insert_ne by done. by apply (Hall m r').
    + apply elem_of_dom_2 in En. unfold graph_at. simpl. set_solver.
  - unfold alloc_dict, put_graph, dict_update, modify. simpl.
    set (G' := MkDiGraph _ _).
    match goal with |- Attrs.all P G ?s /\ _ => set (st' := s) end.
    assert (Hat' : graph_at G st' = G').
    { unfold graph_at, st'. simpl. by apply list_lookup_total_insert_eq. }
    rewrite Hat'. split; [|unfold G'; simpl; rewrite dom_insert_L; set_solver].
    intros m r'. rewrite Hat'. unfold G'. simpl.
    destruct (decide (n = m)) as [->|Hne].
    + rewrite lookup_insert_eq. intros [= <-].
      assert (Hd : dict_at (length (dicts st)) st' = attr ∪ ∅).
      { unfold st', dict_at at 1. cbn [dicts set_dicts set_graphs].
        rewrite list_lookup_insert_eq by (rewrite length_app; simpl; lia).
        cbn [default from_option]. f_equal. unfold dict_at. cbn [dicts set_dicts set_graphs].
        by rewrite lookup_app_r, Nat.sub_diag by lia. }
      rewrite Hd. apply Hnew. by apply not_elem_of_dom.
    + rewrite lookup_insert_ne by done. intros Hm.
      pose proof (Hrefs m r' Hm) as Hlt. simpl in Hlt.
      unfold dict_at, st'. simpl.
      rewrite list_lookup_insert_ne by lia.
      rewrite lookup_app_l by lia. by apply (Hall m r').
Qed.

Lemma add_edge_attrs (G : nat) (u v : string) (attr : pydict) (st : state) :
  Spec.graph_ok G st ->
  Attrs.all P G st ->
  u ∈ dom (node_ref (graph_at G st)) ->
  v ∈ dom (node_ref (graph_at G st)) ->
  wp (add_edge G u v attr)
    (fun r st' =>
       r = Ok tt /\ Spec.keeps G st st' /\ Attrs.all P G st'
       /\ dom (node_ref (graph_at G st')) = dom (node_ref (graph_at G st))) st.
Proof.
  intros Hok Hall Hu Hv. unfold add_edge.
  assert (Hid : forall d, P d -> P (∅ ∪ d)).
  { intros d Hd. by rewrite (left_id_L ∅ (∪)). }
  apply wp_bind. eapply wp_mono; [|by apply (add_node_attrs G u ∅ st)].
  intros r st1 (-> & Hk1 & Hall1 & Hdom1).
  apply wp_bind. eapply wp_mono; [|apply (add_node_attrs G v ∅ st1)]; cycle 1.
  { apply Hk1. } { done. } { done. } { rewrite Hdom1. set_solver. }
  intros r st2 (-> & Hk2 & Hall2 & Hdom2).
  pose proof (add_edge_keeps G u v attr st Hok) as Hk.
  apply wp_bind, wp_get_state. unfold put_graph. apply wp_modify.
  set (G' := MkDiGraph _ _).
  match goal with |- _ /\ Spec.keeps G st ?s /\ _ => set (st' := s) end.
  assert (Hat : graph_at G st' = G').
  { unfold graph_at, st'. simpl. apply list_lookup_total_insert_eq. apply Hk2. }
  split; [done|]. split.
  { eapply keeps_trans; [exact Hk1|]. eapply keeps_trans; [exact Hk2|].
    destruct Hk2 as ((HG & Hrefs & Hclosed) & _).
    split; [|by rewrite Hat]. split; [simpl; by rewrite length_insert|].
    rewrite Hat. split; [done|].
    intros x y. unfold edge, successors, G'. simpl.
    destruct (decide (u = x)) as [->|Hne].
    - rewrite lookup_insert_eq. simpl. rewrite dom_insert_L.
      intros [->%elem_of_singleton|Hy]%elem_of_union.
      + rewrite Hdom2, Hdom1. set_solver.
      + by apply (Hclosed x y).
    - rewrite lookup_insert_ne by done. by apply (Hclosed x y). }
  split; [|rewrite Hat; unfold G'; simpl; rewrite Hdom2, Hdom1; set_solver].
  intros m r. rewrite Hat. unfold G'. simpl. intros Hm. by apply (Hall2 m r).
Qed.

Lemma for_each_acc {A} (I : list A -> state -> Prop) (f : A -> M unit) (l : list A) :
  (forall seen x st, x ∈ l -> I seen st ->
     wp (f x) (fun r st' => r = Ok tt /\ I (seen ++ [x]) st') st) ->
  forall seen st, I seen st ->
    wp (for_each l f) (fun r st' => r = Ok tt /\ I (seen ++ l) st') st.
Proof.
  induction l as [|x l IH]; intros Hf seen st HI; simpl.
  - apply wp_ret. by rewrite app_nil_r.
  - apply wp_bind. eapply wp_mono; [|apply Hf; [apply list_elem_of_here|exact HI]].
    intros r st1 (-> & HI1).
    eapply wp_mono; [|apply (IH (fun seen x st Hx => Hf seen x st (list_elem_of_further _ _ _ Hx))
                               (seen ++ [x]) st1 HI1)].
    intros r st2 (-> & HI2). split; [done|]. by rewrite <- app_assoc in HI2.
Qed.

(** The builder keeps a graph sound, keeps every property of the node
    attributes that its updates preserve, and adds the ids of the roster
    and of the skeleton to the nodes, nothing else. *)
Lemma build_graph_attrs (G : nat) (suppliers : list Supplier.t) (st : state) :
  suppliers <> [] ->
  Spec.graph_ok G st ->
  Attrs.all P G st ->
  (forall sup d, sup ∈ suppliers -> P d \/ d = ∅ -> P (GraphAgent.supplier_attrs sup ∪ d)) ->
  (forall id attrs d, (id, attrs) ∈ GraphAgent.downstream -> P d \/ d = ∅ -> P (attrs ∪ d)) ->
  wp (GraphAgent.build_graph_from_suppliers G suppliers)
    (fun r st' =>
       r = Ok tt /\ Spec.keeps G st st' /\ Attrs.all P G st'
       /\ dom (node_ref (graph_at G st'))
          = dom (node_ref (graph_at G st)) ∪ Attrs.ids suppliers ∪ Attrs.skeleton) st.
Proof.
  intros Hne Hok Hall Hsup Hdown. unfold GraphAgent.build_graph_from_suppliers.
  destruct suppliers as [|sup sups]; [done|]. clear Hne.
  set (l := sup :: sups) in *. clearbody l.
  set (d0 := dom (node_ref (graph_at G st))).
  (* the supplier nodes *)
  apply wp_bind.
  eapply wp_mono;
    [|apply (for_each_acc
         (fun seen st1 => Spec.keeps G st st1 /\ Attrs.all P G st1
            /\ dom (node_ref (graph_at G st1)) = d0 ∪ Attrs.ids seen)
         _ l) with (seen := [])]; cycle 1.
  { intros seen x st1 Hx (Hk & Hall1 & Hdom).
    eapply wp_mono; [|apply (add_node_attrs G (Supplier.supplier_id x)
                               (GraphAgent.supplier_attrs x) st1)]; cycle 1.
    { apply Hk. } { done. } { intros d Hd. apply Hsup; auto. }
    { intros _. apply Hsup; auto. }
    intros r st2 (-> & Hk2 & Hall2 & Hdom2). split; [done|].
    split; [by eapply keeps_trans|]. split; [done|].
    rewrite Hdom2, Hdom. unfold Attrs.ids. rewrite fmap_app, list_to_set_app_L.
    simpl. set_solver. }
  { split; [by apply keeps_refl|]. split; [done|].
    unfold Attrs.ids. simpl. set_solver. }
  intros r st1 (-> & Hk1 & Hall1 & Hdom1). simpl in Hdom1.
  (* the skeleton *)
  apply wp_bind.
  eapply wp_mono;
    [|apply (for_each_acc
         (fun seen st2 => Spec.keeps G st st2 /\ Attrs.all P G st2
            /\ dom (node_ref (graph_at G st2)) = d0 ∪ Attrs.ids l ∪ list_to_set seen.*1)
         _ GraphAgent.downstream) with (seen := [])]; cycle 1.
  { intros seen [id attrs] st2 Hx (Hk & Hall2 & Hdom).
    eapply wp_mono; [|apply (add_node_attrs G id attrs st2)]; cycle 1.
    { apply Hk. } { done. } { intros d Hd. eapply Hdown; eauto. }
    { intros _. eapply Hdown; eauto. }
    intros r st3 (-> & Hk3 & Hall3 & Hdom3). split; [done|].
    split; [by eapply keeps_trans|]. split; [done|].
    rewrite Hdom3, Hdom. rewrite fmap_app, list_to_set_app_L. simpl. set_solver. }
  { split; [done|]. split; [done|]. rewrite Hdom1. simpl. set_solver. }
  intros r st2 (-> & Hk2 & Hall2 & Hdom2).
  assert (Hdom2' : dom (node_ref (graph_at G st2)) = d0 ∪ Attrs.ids l ∪ Attrs.skeleton).
  { rewrite Hdom2. unfold Attrs.skeleton. simpl. set_solver. }
  clear Hdom2.
  (* the edges of the suppliers *)
  apply wp_bind.
  eapply wp_mono;
    [|apply (for_each_acc
         (fun _ st3 => Spec.keeps G st st3 /\ Attrs.all P G st3
            /\ dom (node_ref (graph_at G st3)) = d0 ∪ Attrs.ids l ∪ Attrs.skeleton)
         _ l) with (seen := [])]; cycle 1.
  { intros _ x st3 Hx (Hk & Hall3 & Hdom).
    assert (Hid : Supplier.supplier_id x ∈ dom (node_ref (graph_at G st3))).
    { rewrite Hdom. apply elem_of_union_l, elem_of_union_r.
      unfold Attrs.ids. apply elem_of_list_to_set, list_elem_of_fmap. eauto. }
    apply wp_bind.
    assert (Hfirst :
      wp (if bool_decide (Supplier.material x ∈ GraphAgent.to_factory)
          then add_edge G (Supplier.supplier_id x) "F001"
                 (GraphAgent.edge_attrs (Supplier.material x) 1.0)
          else mret tt)
        (fun r st' => r = Ok tt /\ Spec.keeps G st st' /\ Attrs.all P G st'
           /\ dom (node_ref (graph_at G st')) = d0 ∪ Attrs.ids l ∪ Attrs.skeleton) st3).
    { case_bool_decide as Hm; [|by apply wp_ret].
      eapply wp_mono; [|apply add_edge_attrs]; cycle 1.
      { apply Hk. } { done. } { done. }
      { rewrite Hdom. unfold Attrs.skeleton. set_solver. }
      intros r st4 (-> & Hk4 & Hall4 & Hdom4). split; [done|].
      split; [by eapply keeps_trans|]. split; [done|]. by rewrite Hdom4. }
    eapply wp_mono; [|exact Hfirst]. clear Hfirst.
    intros r st4 (-> & Hk4 & Hall4 & Hdom4).
    case_bool_decide as Hm; [|by apply wp_ret].
    eapply wp_mono; [|apply add_edge_attrs]; cycle 1.
    { apply Hk4. } { done. } { by rewrite Hdom4, <- Hdom. }
    { rewrite Hdom4. unfold Attrs.skeleton. set_solver. }
    intros r st5 (-> & Hk5 & Hall5 & Hdom5). split; [done|].
    split; [by eapply keeps_trans|]. split; [done|]. by rewrite Hdom5. }
  { done. }
  intros r st3 (-> & Hk3 & Hall3 & Hdom3).
  (* the core chain *)
  apply wp_bind. eapply wp_mono; [|apply add_edge_attrs]; cycle 1.
  { apply Hk3. } { done. }
  { rewrite Hdom3. unfold Attrs.skeleton. set_solver. }
  { rewrite Hdom3. unfold Attrs.skeleton. set_solver. }
  intros r st4 (-> & Hk4 & Hall4 & Hdom4).
  eapply wp_mono; [|apply add_edge_attrs]; cycle 1.
  { apply Hk4. } { done. }
  { rewrite Hdom4, Hdom3. unfold Attrs.skeleton. set_solver. }
  { rewrite Hdom4, Hdom3. unfold Attrs.skeleton. set_solver. }
  intros r st5 (-> & Hk5 & Hall5 & Hdom5). split; [done|].
  split; [eapply keeps_trans; [exact Hk3|]; by eapply keeps_trans|].
  split; [done|]. by rewrite Hdom5, Hdom4.
Qed.

End AttrFacts.

Section GraphRunFacts.
Import Nx.

Lemma supplier_attrs_lookup (sup : Supplier.t) :
  GraphAgent.supplier_attrs sup !! "type"%string = Some (PyStr "supplier")
  /\ GraphAgent.supplier_attrs sup !! "name"%string = Some (PyStr (Supplier.name sup))
  /\ GraphAgent.supplier_attrs sup !! "country"%string = Some (PyStr (Supplier.country sup))
  /\ GraphAgent.supplier_attrs sup !! "material"%string
     = Some (PyStr (Supplier.material sup))
  /\ GraphAgent.supplier_attrs sup !! "capacity"%string
     = Some (PyNum (Supplier.capacity_tons_per_month sup)).
Proof. repeat split; vm_compute; reflexivity. Qed.

Lemma downstream_lookup (id : string) (attrs : pydict) :
  (id, attrs) ∈ GraphAgent.downstream ->
  (exists ty, attrs !! "type"%string = Some (PyStr ty) /\ ty <> "supplier"%string)
  /\ (exists nm, attrs !! "name"%string = Some (PyStr nm))
  /\ attrs !! "country"%string = None
  /\ attrs !! "material"%string = None
  /\ attrs !! "capacity"%string = None.
Proof.
  unfold GraphAgent.downstream. intros H.
  repeat (apply elem_of_cons in H as [[= -> ->]|H];
          [split; [eexists; split; [vm_compute; reflexivity|done]|];
           split; [eexists; vm_compute; reflexivity|];
           repeat split; vm_compute; reflexivity|]).
  by apply elem_of_nil in H.
Qed.

Lemma typed_supplier (sup : Supplier.t) (d : pydict) :
  Attrs.typed (GraphAgent.supplier_attrs sup ∪ d).
Proof.
  destruct (supplier_attrs_lookup sup) as (Hty & _).
  unfold Attrs.typed. erewrite lookup_union_Some_l; [|exact Hty]. by eexists.
Qed.

Lemma typed_downstream (id : string) (attrs d : pydict) :
  (id, attrs) ∈ GraphAgent.downstream -> Attrs.typed (attrs ∪ d).
Proof.
  intros ((ty & Hty & _) & _)%downstream_lookup.
  unfold Attrs.typed. erewrite lookup_union_Some_l; [|exact Hty]. by eexists.
Qed.

Lemma complete_supplier (sup : Supplier.t) (d : pydict) :
  Attrs.has_material sup ->
  Attrs.complete d \/ d = ∅ ->
  Attrs.complete (GraphAgent.supplier_attrs sup ∪ d).
Proof.
  intros Hmat _.
  destruct (supplier_attrs_lookup sup) as (Hty & Hnm & Hco & Hma & Hca).
  split; [apply typed_supplier|].
  split; [intros q; by erewrite lookup_union_Some_l by exact Hnm|].
  split; [intros q; by erewrite lookup_union_Some_l by exact Hco|].
  split; [intros q; by erewrite lookup_union_Some_l by exact Hma|].
  split; [intros q; by erewrite lookup_union_Some_l by exact Hca|].
  intros _. exists (Supplier.material sup).
  split; [by erewrite lookup_union_Some_l by exact Hma|done].
Qed.

Lemma complete_downstream (id : string) (attrs d : pydict) :
  (id, attrs) ∈ GraphAgent.downstream ->
  Attrs.complete d \/ d = ∅ ->
  Attrs.complete (attrs ∪ d).
Proof.
  intros Hin Hd.
  destruct (downstream_lookup id attrs Hin)
    as ((ty & Hty & Hne) & (nm & Hnm) & Hco & Hma & Hca).
  split; [by eapply typed_downstream|].
  split; [intros q; by erewrite lookup_union_Some_l by exact Hnm|].
  assert (Hold : forall key, attrs !! key = None ->
            (forall q, d !! key <> Some (PyNum q)) ->
            forall q, (attrs ∪ d) !! key <> Some (PyNum q)).
  { intros key Hk Hq q. rewrite lookup_union_r by done. apply Hq. }
  assert (Hd' : Attrs.text "country" d /\ Attrs.text "material" d
                /\ Attrs.numeric_capacity d).
  { destruct Hd as [(_ & _ & H1 & H2 & H3 & _)| ->]; [done|].
    repeat split; intros q; by rewrite lookup_empty. }
  destruct Hd' as (H1 & H2 & H3).
  split; [exact (Hold "country"%string Hco H1)|].
  split; [exact (Hold "material"%string Hma H2)|].
  split; [intros s; rewrite lookup_union_r by done; apply H3|].
  unfold Attrs.worded_material, RiskDetection.get_str.
  erewrite lookup_union_Some_l; [|exact Hty]. simpl. congruence.
Qed.

Lemma count_suppliers_typed (l : list pydict) :
  Forall Attrs.typed l ->
  exists k, GraphAgent.count_suppliers l = Ok k /\ (k <= length l)%nat.
Proof.
  induction 1 as [|d l [ty Hty] Hl (k & Hk & Hle)]; simpl.
  - by exists 0%nat.
  - rewrite Hty, Hk. simpl. eexists. split; [reflexivity|].
    case_bool_decide; lia.
Qed.

Lemma run_attrs (P : pydict -> Prop) (G : nat) (suppliers : list Supplier.t)
    (st : state) :
  suppliers <> [] ->
  Spec.graph_ok G st ->
  Attrs.all (fun d => Attrs.typed d /\ P d) G st ->
  (forall sup d, sup ∈ suppliers -> P d \/ d = ∅ -> P (GraphAgent.supplier_attrs sup ∪ d)) ->
  (forall id attrs d, (id, attrs) ∈ GraphAgent.downstream -> P d \/ d = ∅ -> P (attrs ∪ d)) ->
  wp (GraphAgent.run G suppliers)
    (fun r st' =>
       exists res,
         r = Ok res
         /\ GraphAgent.graph_built res = true
         /\ GraphAgent.res_node_count res = number_of_nodes (graph_at G st')
         /\ GraphAgent.res_edge_count res = number_of_edges (graph_at G st')
         /\ (GraphAgent.res_supplier_count res <= GraphAgent.res_node_count res)%nat
         /\ memory_graph st' = Some G
         /\ sim_agent_G st' = sim_agent_G st
         /\ Spec.graph_ok G st'
         /\ Attrs.all (fun d => Attrs.typed d /\ P d) G st'
         /\ dom (node_ref (graph_at G st'))
            = dom (node_ref (graph_at G st)) ∪ Attrs.ids suppliers ∪ Attrs.skeleton) st.
Proof.
  intros Hne Hok Hall Hsup Hdown. unfold GraphAgent.run.
  apply wp_bind.
  eapply wp_mono; [|apply (build_graph_attrs (fun d => Attrs.typed d /\ P d))]; cycle 1.
  { done. } { done. } { done. }
  { intros sup d Hin Hd. split; [apply typed_supplier|].
    apply Hsup; [done|]. destruct Hd as [[_ Hd]|Hd]; auto. }
  { intros id attrs d Hin Hd. split; [by eapply typed_downstream|].
    eapply Hdown; [done|]. destruct Hd as [[_ Hd]|Hd]; auto. }
  intros r st1 (-> & Hk1 & Hall1 & Hdom1).
  apply wp_bind. unfold GraphAgent.get_graph_stats.
  apply wp_bind, wp_get_state.
  assert (Hsize : number_of_nodes (graph_at G st1) <> 0%nat).
  { unfold number_of_nodes. rewrite <- size_dom, Hdom1.
    intros Hz%size_empty_inv. unfold Attrs.skeleton in Hz.
    assert (Hin : "F001"%string ∈ (∅ : gset string)); [|set_solver].
    rewrite <- (leibniz_equiv _ _ Hz). set_solver. }
  destruct (number_of_nodes (graph_at G st1) =? 0)%nat eqn:Ez;
    [by apply Nat.eqb_eq in Ez|].
  apply wp_bind, wp_lift.
  destruct (count_suppliers_typed
              ((fun r => dict_at r st1) <$> (map_to_list (node_ref (graph_at G st1))).*2))
    as (k & -> & Hle).
  { apply Forall_fmap, Forall_fmap, Forall_forall. intros [n r] Hin%elem_of_map_to_list.
    simpl. by apply (Hall1 n r). }
  rewrite !length_fmap, length_map_to_list in Hle.
  apply wp_ret. simpl. apply wp_bind, wp_lift, wp_bind, wp_lift, wp_bind, wp_lift.
  apply wp_bind, wp_modify, wp_ret.
  eexists. split; [reflexivity|]. simpl.
  destruct Hk1 as (Hok1 & _ & Hs1 & Hm1).
  split; [done|]. split; [done|]. split; [done|]. split; [done|].
  split; [done|]. split; [done|]. split; [done|]. split; [done|]. done.
Qed.

Lemma wp_returns {A} (m : M A) (Q : A -> state -> Prop) (st : state) :
  wp m (fun r st' => exists a, r = Ok a /\ Q a st') st ->
  exists a st', m st = (Ok a, st') /\ Q a st'.
Proof.
  unfold wp. destruct (m st) as [r st']. simpl. intros (a & -> & HQ). by exists a, st'.
Qed.

Lemma new_graph_ok (st : state) :
  let G := length (graphs st) in
  let st0 := set_graphs (graphs st ++ [MkDiGraph ∅ ∅]) st in
  GraphAgent.init st = (Ok G, st0)
  /\ Spec.graph_ok G st0
  /\ node_ref (graph_at G st0) = ∅.
Proof.
  cbv zeta. split; [done|].
  assert (Hat : graph_at (length (graphs st))
                  (set_graphs (graphs st ++ [MkDiGraph ∅ ∅]) st) = MkDiGraph ∅ ∅)
    by apply graph_at_new.
  rewrite Hat. split; [|done].
  split; [simpl; rewrite length_app; simpl; lia|].
  rewrite Hat. split; [apply map_Forall_empty|].
  intros u v. unfold edge, successors. simpl. rewrite lookup_empty. simpl. set_solver.
Qed.

Lemma skeleton_size (X : gset string) : (3 <= size (X ∪ Attrs.skeleton))%nat.
Proof.
  assert (H3 : size Attrs.skeleton = 3%nat).
  { unfold Attrs.skeleton.
    rewrite !size_union; [by rewrite !size_singleton|set_solver|set_solver]. }
  assert (Hsub : Attrs.skeleton ⊆ X ∪ Attrs.skeleton) by apply union_subseteq_r.
  apply subseteq_size in Hsub. by rewrite H3 in Hsub.
Qed.

(** On a roster that is not empty, [GraphAgent.run] returns, for a graph
    that is sound and whose nodes all have a type.  The nodes afterwards
    are the nodes before, the supplier ids of the roster and the three
    skeleton ids: no node is ever removed, so a supplier that left the
    roster stays in the graph.  The graph is stored in the memory. *)
Theorem graph_run_accumulates (G : nat) (suppliers : list Supplier.t) (st : state) :
  suppliers <> [] ->
  Spec.graph_ok G st ->
  Attrs.all Attrs.typed G st ->
  exists res st',
    GraphAgent.run G suppliers st = (Ok res, st')
    /\ GraphAgent.graph_built res = true
    /\ dom (node_ref (graph_at G st'))
       = dom (node_ref (graph_at G st)) ∪ Attrs.ids suppliers ∪ Attrs.skeleton
    /\ GraphAgent.res_node_count res = size (dom (node_ref (graph_at G st')))
    /\ (GraphAgent.res_supplier_count res <= GraphAgent.res_node_count res)%nat
    /\ memory_graph st' = Some G
    /\ Spec.graph_ok G st'
    /\ Attrs.all Attrs.typed G st'.
Proof.
  intros Hne Hok Hall.
  apply wp_returns.
  eapply wp_mono; [|apply (run_attrs (fun _ => True) G suppliers st)]; try done.
  - intros r st' (res & -> & Hb & Hn & He & Hs & Hm & _ & Hok' & Hall' & Hdom).
    exists res. split; [done|]. split; [done|]. split; [done|].
    split; [by rewrite Hn, size_dom|]. split; [done|]. split; [done|].
    split; [done|]. intros n r Hr. by apply (Hall' n r).
  - intros n r Hr. split; [by apply (Hall n r)|done].
Qed.

Lemma graph_run_accumulates_witness :
  exists res st',
    GraphAgent.run 0 Sample.roster (set_graphs [MkDiGraph ∅ ∅] Sample.boot) = (Ok res, st')
    /\ GraphAgent.graph_built res = true
    /\ memory_graph st' = Some 0%nat.
Proof.
  destruct (graph_run_accumulates 0 Sample.roster (set_graphs [MkDiGraph ∅ ∅] Sample.boot))
    as (res & st' & Hrun & Hb & _ & _ & _ & Hm & _).
  - discriminate.
  - split; [simpl; lia|]. split; [apply map_Forall_empty|].
    intros u v. unfold edge, successors. simpl. rewrite lookup_empty. simpl.
    by rewrite dom_empty_L.
  - intros n r Hr. change ((∅ : gmap string nat) !! n = Some r) in Hr.
    rewrite lookup_empty in Hr. discriminate Hr.
  - exists res, st'. split; [exact Hrun|]. split; [exact Hb|exact Hm].
Defined.

Lemma run_complete (G : nat) (suppliers : list Supplier.t) (st : state) :
  Spec.graph_ok G st ->
  Attrs.all Attrs.complete G st ->
  suppliers <> [] ->
  Forall Attrs.has_material suppliers ->
  exists res st',
    GraphAgent.run G suppliers st = (Ok res, st')
    /\ GraphAgent.graph_built res = true
    /\ GraphAgent.res_node_count res = size (dom (node_ref (graph_at G st')))
    /\ dom (node_ref (graph_at G st'))
       = dom (node_ref (graph_at G st)) ∪ Attrs.ids suppliers ∪ Attrs.skeleton
    /\ memory_graph st' = Some G
    /\ sim_agent_G st' = sim_agent_G st
    /\ Spec.graph_ok G st'
    /\ Attrs.all Attrs.complete G st'.
Proof.
  intros Hok Hall Hne Hmat. rewrite Forall_forall in Hmat.
  apply wp_returns.
  eapply wp_mono; [|apply (run_attrs Attrs.complete G suppliers st Hne Hok)].
  - intros r st' (res & -> & Hb & Hn & _ & _ & Hm & Hs & Hok' & Hall' & Hdom).
    exists res. split; [done|]. split; [done|].
    split; [by rewrite Hn, size_dom|]. split; [done|].
    split; [done|]. split; [done|]. split; [done|].
    intros n r Hr. by apply (Hall' n r).
  - intros n r Hr. split; [|by apply (Hall n r)]. by apply (Hall n r).
  - intros sup d Hin Hd. apply complete_supplier; [by apply Hmat|done].
  - intros id attrs d Hin Hd. by eapply complete_downstream.
Qed.

(** A new graph agent on a roster that is not empty and whose materials
    are not blank: [run] returns, the graph has the supplier ids and the
    three skeleton ids as nodes, at least three, it is stored in the
    memory, and every node has a type, a name, country and material that
    are strings when present, a capacity that is a number when present;
    every node of type supplier has a material with a word in it. *)
Theorem new_graph_run_complete (suppliers : list Supplier.t) (st : state) :
  suppliers <> [] ->
  Forall Attrs.has_material suppliers ->
  exists res st',
    (G ← GraphAgent.init; GraphAgent.run G suppliers) st = (Ok res, st')
    /\ GraphAgent.graph_built res = true
    /\ GraphAgent.res_node_count res = size (Attrs.ids suppliers ∪ Attrs.skeleton)
    /\ (3 <= GraphAgent.res_node_count res)%nat
    /\ memory_graph st' = Some (length (graphs st))
    /\ sim_agent_G st' = sim_agent_G st
    /\ Spec.graph_ok (length (graphs st)) st'
    /\ Attrs.all Attrs.complete (length (graphs st)) st'.
Proof.
  intros Hne Hmat.
  destruct (new_graph_ok st) as (Hinit & Hok0 & Hempty).
  set (G := length (graphs st)) in *.
  set (st0 := set_graphs (graphs st ++ [MkDiGraph ∅ ∅]) st) in *.
  destruct (run_complete G suppliers st0 Hok0) as
    (res & st' & Hrun & Hb & Hn & Hdom & Hm & Hs & Hok & Hall); [|done|done|].
  { intros n r Hr. by rewrite Hempty, lookup_empty in Hr. }
  rewrite Hempty, dom_empty_L, (left_id_L ∅ (∪)) in Hdom.
  exists res, st'. split; [unfold mbind, M_bind; by rewrite Hinit|].
  split; [done|]. rewrite Hn, Hdom.
  split; [done|]. split; [apply skeleton_size|]. done.
Qed.

Lemma new_graph_run_complete_witness :
  exists res st',
    (G ← GraphAgent.init; GraphAgent.run G Sample.roster) Sample.boot = (Ok res, st')
    /\ GraphAgent.res_node_count res = size (Attrs.ids Sample.roster ∪ Attrs.skeleton)
    /\ memory_graph st' = Some 0%nat.
Proof.
  destruct (new_graph_run_complete Sample.roster Sample.boot)
    as (res & st' & Hrun & _ & Hn & _ & Hm & _).
  - discriminate.
  - apply Forall_cons; split; [vm_compute; discriminate|].
    apply Forall_cons; split; [vm_compute; discriminate|]. apply Forall_nil_2.
  - exists res, st'. split; [exact Hrun|]. split; [exact Hn|exact Hm].
Defined.

Lemma built_sound :
  memory_graph Sample.built = Some 0%nat
  /\ Spec.graph_ok 0 Sample.built
  /\ Attrs.all Attrs.complete 0 Sample.built.
Proof.
  destruct (new_graph_ok Sample.boot) as (_ & Hok0 & Hempty).
  change (length (graphs Sample.boot)) with 0%nat in Hok0, Hempty.
  destruct (run_complete 0 Sample.roster _ Hok0)
    as (res & st' & Hrun & _ & _ & _ & Hm & _ & Hok & Hall).
  - intros n r Hr. by rewrite Hempty, lookup_empty in Hr.
  - discriminate.
  - apply Forall_cons; split; [vm_compute; discriminate|].
    apply Forall_cons; split; [vm_compute; discriminate|]. apply Forall_nil_2.
  - assert (Hb : Sample.built = st').
    { unfold Sample.built, mbind, M_bind. simpl in *. by rewrite Hrun. }
    rewrite Hb. split; [exact Hm|]. split; [exact Hok|exact Hall].
Qed.

Lemma complete_numeric (G : nat) (st : state) :
  Attrs.all Attrs.complete G st -> Attrs.all Attrs.numeric_capacity G st.
Proof. intros Hall n r Hr. by destruct (Hall n r Hr) as (_ & _ & _ & _ & H & _). Qed.

End GraphRunFacts.

(** ** The scenarios and the simulation of the top risks *)

Section ScenarioFacts.
Import Num Nx SimulationAgent.

Lemma bind_ok_inv {A B} (m : M A) (k : A -> M B) (st st' : state) (b : B) :
  (m ≫= k) st = (Ok b, st') ->
  exists a st1, m st = (Ok a, st1) /\ k a st1 = (Ok b, st').
Proof.
  unfold mbind, M_bind. destruct (m st) as [[a|e] st1]; [|done].
  intros H. by exists a, st1.
Qed.

(** The fields of the scenario that a simulation returns, read off the
    body of [simulate_single_risk]. *)
Lemma simulate_trace_fields (risk : Risk.t) (st st' : state) (t : trace) :
  simulate_trace risk st = (Ok t, st') ->
  let sc := scenario t in
  let node_id := Risk.node_id risk in
  let strength := disruption_strength (Risk.risk_score risk) in
  Scenario.node_id sc = node_id
  /\ Scenario.severity_used sc = Risk.risk_score risk
  /\ Scenario.capacity_loss_pct sc = round_half_even (strength.1 * 100)
  /\ Scenario.news_title sc = default "Unknown"%string (Risk.news_title risk)
  /\ Scenario.affected_nodes_count sc = length (affected t)
  /\ exists d des dtype,
       delay_loop (graph_at (canonical t) st') node_id strength.2 (affected t) 0 = Ok d
       /\ Scenario.estimated_delay_days sc = py_round d 1
       /\ descendants (graph_at (canonical t) st') node_id = Ok des
       /\ Scenario.disruption_type sc = Some dtype
       /\ Scenario.service_level_impact_pct sc
          = service_impact dtype (affected t) (length (elements des) + 1).
Proof.
  cbv zeta. unfold simulate_trace. intros H.
  apply bind_ok_inv in H as (s0 & st0 & _ & H).
  apply bind_ok_inv in H as (u & st1 & _ & H).
  destruct (disruption_strength (Risk.risk_score risk)) as [capacity_loss delay_multiplier].
  apply bind_ok_inv in H as (s1 & st2 & _ & H).
  apply bind_ok_inv in H as (G & st3 & _ & H).
  apply bind_ok_inv in H as (sim_G & st4 & _ & H).
  apply bind_ok_inv in H as (dtype & st5 & _ & H).
  apply bind_ok_inv in H as (aff & st6 & _ & H).
  apply bind_ok_inv in H as (s7 & st7 & Hget & H).
  injection Hget as <- <-.
  apply bind_ok_inv in H as (d & st8 & Hd & H).
  unfold lift in Hd. injection Hd as Hd <-.
  apply bind_ok_inv in H as (des & st9 & Hdes & H).
  unfold lift in Hdes. injection Hdes as Hdes <-.
  injection H as <- <-. simpl.
  do 5 (split; [reflexivity|]).
  exists d, des, dtype. by repeat split.
Qed.

Lemma simulate_trace_canonical (risk : Risk.t) (st st' : state) (t : trace) :
  simulate_trace risk st = (Ok t, st') ->
  exists G, Spec.canonical_of st = Some G.
Proof.
  unfold Spec.canonical_of.
  destruct (sim_agent_G st) as [G|] eqn:Es; [by exists G|].
  destruct (memory_graph st) as [G|] eqn:Em; [by exists G|].
  unfold simulate_trace. intros H.
  apply bind_ok_inv in H as (s0 & st0 & Hget & H).
  injection Hget as <- <-. rewrite Es in H.
  apply bind_ok_inv in H as (u & st1 & Hload & _).
  unfold load_graph in Hload.
  apply bind_ok_inv in Hload as (s1 & st2 & Hget & Hload).
  injection Hget as <- <-.
  apply bind_ok_inv in Hload as (u' & st3 & _ & Hload).
  by rewrite Em in Hload.
Qed.

Lemma simulate_single_risk_inv (risk : Risk.t) (st st' : state) (sc : Scenario.t) :
  simulate_single_risk risk st = (Ok sc, st') ->
  exists t G,
    simulate_trace risk st = (Ok t, st')
    /\ sc = scenario t
    /\ Spec.canonical_of st = Some G
    /\ Spec.unchanged st st'
    /\ Spec.simulated risk G st t st'.
Proof.
  intros H. apply simulate_single_risk_trace in H as (r0 & Htrace & Hr).
  destruct r0 as [t|]; [|done]. injection Hr as ->.
  destruct (simulate_trace_canonical _ _ _ _ Htrace) as [G HG].
  destruct (simulate_trace_outcome risk G st st' (Ok t) HG Htrace) as (Hun & Hsim & _).
  exists t, G. split; [done|]. split; [done|]. split; [done|]. split; [done|].
  by apply Hsim.
Qed.



Lemma delay_loop_lower (G : DiGraph) (node_id : string) (delay_multiplier : Q)
    (affected : list string) (max_delay d : Q) :
  delay_loop G node_id delay_multiplier affected max_delay = Ok d -> max_delay <= d.
Proof.
  revert max_delay. induction affected as [|target rest IH]; intros max_delay; simpl.
  - intros [= <-]. lra.
  - destruct (shortest_path_length G node_id target) as [path_len|[]]; try done.
    + intros H%IH. pose proof (py_max_lower max_delay
        (inject_Z (Z.of_nat path_len) * DEFAULT_DELAY_DAYS_PER_LEVEL * delay_multiplier)).
      lra.
    + apply IH.
Qed.

Lemma py_round_le_Z (q : Q) (n : nat) (z : Z) :
  q <= inject_Z z -> py_round q n <= inject_Z z.
Proof.
  intros Hq. unfold py_round. pose proof (pow10_pos n) as Hp.
  apply Qle_shift_div_r; [done|].
  rewrite <- inject_Z_mult, <- Zle_Qle. apply round_half_even_upper.
  rewrite inject_Z_mult. nra.
Qed.

Lemma unchanged_graph (G : nat) (st st' : state) :
  Spec.unchanged st st' -> (G < length (graphs st))%nat ->
  graph_at G st' = graph_at G st.
Proof.
  intros (_ & Hg & _) HG. unfold graph_at.
  transitivity (take (length (graphs st)) (graphs st') !!! G); [|by rewrite Hg].
  by rewrite !list_lookup_total_alt, lookup_take_lt.
Qed.

Lemma unchanged_dict (r : nat) (st st' : state) :
  Spec.unchanged st st' -> (r < length (dicts st))%nat ->
  dict_at r st' = dict_at r st.
Proof.
  intros (Hd & _) Hr. unfold dict_at.
  transitivity (default ∅ (take (length (dicts st)) (dicts st') !! r)); [|by rewrite Hd].
  by rewrite lookup_take_lt.
Qed.

Lemma unchanged_trans (st1 st2 st3 : state) :
  Spec.unchanged st1 st2 -> Spec.unchanged st2 st3 -> Spec.unchanged st1 st3.
Proof.
  intros (Hd1 & Hg1 & Hm1) (Hd2 & Hg2 & Hm2).
  assert (Hld : (length (dicts st1) <= length (dicts st2))%nat).
  { apply (f_equal length) in Hd1. rewrite length_take in Hd1. lia. }
  assert (Hlg : (length (graphs st1) <= length (graphs st2))%nat).
  { apply (f_equal length) in Hg1. rewrite length_take in Hg1. lia. }
  split; [|split; [|congruence]].
  - transitivity (take (length (dicts st1)) (take (length (dicts st2)) (dicts st3)));
      [|by rewrite Hd2].
    rewrite take_take. f_equal. lia.
  - transitivity (take (length (graphs st1)) (take (length (graphs st2)) (graphs st3)));
      [|by rewrite Hg2].
    rewrite take_take. f_equal. lia.
Qed.

Lemma unchanged_refl (st : state) : Spec.unchanged st st.
Proof. unfold Spec.unchanged. by rewrite !firstn_all. Qed.

Lemma node_failure_impact_range (affected : list string) (n : nat) :
  let impact := service_impact "node_failure" affected (n + 1) in
  0 <= impact <= 100.
Proof.
  cbv zeta. unfold service_impact.
  rewrite bool_decide_eq_false_2 by done.
  assert (E : (0 <? n + 1)%nat = true) by (apply Nat.ltb_lt; lia). rewrite E.
  assert (Hn : 1 <= inject_Z (Z.of_nat (n + 1))).
  { change 1 with (inject_Z 1). rewrite <- Zle_Qle. lia. }
  set (k := inject_Z (Z.of_nat (n + 1))) in *. clearbody k.
  change (inject_Z (Z.of_nat 1)) with 1.
  assert (Hinv : 0 <= 1 / k <= 1).
  { split.
    - apply Qle_shift_div_l; lra.
    - apply Qle_shift_div_r; lra. }
  set (x := 1 / k) in *. clearbody x. split.
  - apply py_round_nonneg. nra.
  - change 100 with (inject_Z 100). apply py_round_le_Z.
    change (inject_Z 100) with 100. nra.
Qed.

(** The ranges of a scenario: the delay is not negative and has one
    decimal, the service impact is between 0 and 100, and at least one
    node is affected. *)
Theorem scenario_ranges (risk : Risk.t) (st st' : state) (sc : Scenario.t) :
  simulate_single_risk risk st = (Ok sc, st') ->
  0 <= Scenario.estimated_delay_days sc
  /\ has_decimals 1 (Scenario.estimated_delay_days sc)
  /\ 0 <= Scenario.service_level_impact_pct sc <= 100
  /\ (1 <= Scenario.affected_nodes_count sc)%nat.
Proof.
  intros (t & G & Htrace & -> & _ & _ & Hsim)%simulate_single_risk_inv.
  destruct (simulate_trace_fields _ _ _ _ Htrace)
    as (_ & _ & _ & _ & Hcount & d & des & dtype & Hd & Hdelay & _ & Hty & Himpact).
  split; [rewrite Hdelay; apply py_round_nonneg; by eapply delay_loop_lower|].
  split; [rewrite Hdelay; apply py_round_has_decimals|].
  destruct Hsim as (_ & _ & _ & _ & _ & Hcases).
  destruct Hcases as [(_ & Hty' & _ & Haff)|(_ & _ & _ & _ & (des' & _ & Haff) & Hzero & _)].
  - rewrite Hty' in Hty. injection Hty as <-.
    split; [rewrite Himpact; apply node_failure_impact_range|].
    rewrite Hcount, Haff. simpl. lia.
  - split; [rewrite Hzero; lra|].
    rewrite Hcount, Haff, length_app. simpl. lia.
Qed.

Lemma scenario_ranges_witness :
  let sc := match (simulate_single_risk Sample.severe_risk Sample.built).1 with
            | Ok sc => sc
            | Raise _ => Scenario.Record_ "" None 0 0 0 0 0 ""
            end in
  0 <= Scenario.service_level_impact_pct sc <= 100.
Proof.
  cbv zeta.
  destruct (simulate_single_risk Sample.severe_risk Sample.built) as [r st'] eqn:E.
  assert (Hok : exists sc, r = Ok sc).
  { assert (Hr : r = (simulate_single_risk Sample.severe_risk Sample.built).1)
      by (rewrite E; reflexivity).
    rewrite Hr. vm_compute. eexists. reflexivity. }
  destruct Hok as [sc ->]. simpl.
  exact (proj1 (proj2 (proj2 (scenario_ranges Sample.severe_risk Sample.built st' sc E)))).
Defined.

(** A node failure (score at least 0.9) always reports a delay of 0 days
    and one affected node: the affected set is the failed node alone,
    whose distance to itself is 0.  Its service impact is
    [round((1 - 1/n) * 100, 1)], where [n] is the number of descendants
    of the node in the canonical graph plus one. *)
Theorem node_failure_zero_delay (risk : Risk.t) (st st' : state) (sc : Scenario.t) :
  0.9 <= Risk.risk_score risk ->
  simulate_single_risk risk st = (Ok sc, st') ->
  Scenario.disruption_type sc = Some "node_failure"%string
  /\ Scenario.estimated_delay_days sc == 0
  /\ Scenario.affected_nodes_count sc = 1%nat
  /\ exists G des,
       Spec.canonical_of st = Some G
       /\ descendants (graph_at G st) (Risk.node_id risk) = Ok des
       /\ Scenario.service_level_impact_pct sc
          = py_round ((1 - 1 / inject_Z (Z.of_nat (size des + 1))) * 100) 1.
Proof.
  intros Hsev%Qgeb_ge (t & G & Htrace & -> & HG & Hun & Hsim)%simulate_single_risk_inv.
  destruct (simulate_trace_fields _ _ _ _ Htrace)
    as (_ & _ & _ & _ & Hcount & d & des & dtype & Hd & Hdelay & Hdes & Hty & Himpact).
  destruct Hsim as (Hcan & _ & _ & Hhas & _ & Hcases).
  destruct Hcases as [(_ & Hty' & _ & Haff)|(Hlow & _)]; [|congruence].
  rewrite Hty' in Hty. injection Hty as <-.
  rewrite Hcan in *.
  assert (Hgraph : graph_at G st' = graph_at G st).
  { apply unchanged_graph; [done|]. by eapply has_node_valid. }
  rewrite Hgraph in *.
  split; [done|]. split; [|split; [by rewrite Hcount, Haff|]].
  - rewrite Hdelay. rewrite Haff in Hd. simpl in Hd.
    rewrite (shortest_path_length_self _ _ Hhas) in Hd.
    assert (Hzero : (disruption_strength (Risk.risk_score risk)).2 * 0 == 0) by ring.
    injection Hd as <-.
    rewrite (py_round_comp _ 0); [by vm_compute|].
    destruct (py_max_cases 0
      (inject_Z (Z.of_nat 0) * DEFAULT_DELAY_DAYS_PER_LEVEL
       * (disruption_strength (Risk.risk_score risk)).2)) as [[-> _]|[-> _]];
      [reflexivity|].
    change (inject_Z (Z.of_nat 0)) with 0. ring.
  - exists G, des. split; [done|]. split; [done|].
    rewrite Himpact. unfold service_impact.
    rewrite bool_decide_eq_false_2 by done.
    assert (E : (0 <? length (elements des) + 1)%nat = true) by (apply Nat.ltb_lt; lia).
    rewrite E. reflexivity.
Qed.

Lemma node_failure_zero_delay_witness :
  let sc := match (simulate_single_risk Sample.severe_risk Sample.built).1 with
            | Ok sc => sc
            | Raise _ => Scenario.Record_ "" None 0 0 1 0 0 ""
            end in
  Scenario.estimated_delay_days sc == 0.
Proof.
  cbv zeta.
  destruct (simulate_single_risk Sample.severe_risk Sample.built) as [r st'] eqn:E.
  assert (Hok : exists sc, r = Ok sc).
  { assert (Hr : r = (simulate_single_risk Sample.severe_risk Sample.built).1)
      by (rewrite E; reflexivity).
    rewrite Hr. vm_compute. eexists. reflexivity. }
  destruct Hok as [sc ->]. simpl.
  assert (Hsev : 0.9 <= Risk.risk_score Sample.severe_risk) by (vm_compute; discriminate).
  exact (proj1 (proj2 (node_failure_zero_delay Sample.severe_risk Sample.built st' sc
                         Hsev E))).
Defined.

End ScenarioFacts.

Section SimulationRunFacts.
Import Num Nx SimulationAgent SimulationRun.

Lemma simulate_trace_no_graph (risk : Risk.t) (st st' : state) (r : result trace) :
  Spec.canonical_of st = None ->
  simulate_trace risk st = (r, st') ->
  Spec.unchanged st st'.
Proof.
  unfold Spec.canonical_of.
  destruct (sim_agent_G st) eqn:Es; [done|]. intros Em.
  unfold simulate_trace, mbind, M_bind, get_state. simpl. rewrite Es.
  unfold load_graph, mbind, M_bind, get_state, modify. simpl. rewrite Em.
  unfold raise. intros [= <- <-]. unfold Spec.unchanged. simpl.
  by rewrite !firstn_all.
Qed.

Lemma simulate_all_spec (risks : list Risk.t) :
  forall (scs : list Scenario.t) (worst : Q) (total : gset string)
         (st st' : state) (r : result (list Scenario.t * Q * gset string)),
    simulate_all risks scs worst total st = (r, st') ->
    Spec.unchanged st st'
    /\ forall out, r = Ok out ->
         exists new,
           out = (scs ++ new,
                  fold_left (fun m sc => py_max m (Scenario.estimated_delay_days sc))
                    new worst,
                  total ∪ list_to_set (Scenario.node_id <$> new))
           /\ Forall2 scenario_of risks new
           /\ Forall (fun sc => 0 <= Scenario.estimated_delay_days sc
                                /\ has_decimals 1 (Scenario.estimated_delay_days sc)) new.
Proof.
  induction risks as [|risk rest IH]; intros scs worst total st st' r; simpl.
  - intros [= <- <-]. split; [apply unchanged_refl|].
    intros out [= <-]. exists []. rewrite app_nil_r. simpl.
    split; [|split; constructor]. f_equal. by rewrite (right_id_L ∅ (∪)).
  - unfold mbind, M_bind.
    destruct (simulate_single_risk risk st) as [[sc|e] st1] eqn:Eone.
    + intros Hrest. apply IH in Hrest as (Hun2 & Hout).
      pose proof Eone as (t & G & _ & _ & _ & Hun1 & _)%simulate_single_risk_inv.
      split; [by eapply unchanged_trans|].
      intros out Hr. destruct (Hout out Hr) as (new & -> & Hall & Hdelays).
      exists (sc :: new). split; [|split].
      * rewrite <- app_assoc. simpl. f_equal.
        rewrite <- (assoc_L (∪)). f_equal.
      * constructor; [|done].
        pose proof Eone as (t' & G' & Htrace & Hsc & _)%simulate_single_risk_inv.
        destruct (simulate_trace_fields _ _ _ _ Htrace) as (Hn & Hs & _).
        rewrite Hsc. by split.
      * constructor; [|done].
        pose proof Eone as (t' & G' & Htrace & Hsc & _)%simulate_single_risk_inv.
        destruct (simulate_trace_fields _ _ _ _ Htrace)
          as (_ & _ & _ & _ & _ & d & _ & _ & Hd & Hdelay & _).
        rewrite Hsc, Hdelay.
        split; [apply py_round_nonneg; by eapply delay_loop_lower|].
        apply py_round_has_decimals.
    + intros [= <- <-]. split; [|done].
      apply simulate_single_risk_trace in Eone as (r0 & Htrace & Hr).
      destruct (Spec.canonical_of st) as [G|] eqn:HG.
      * by destruct (simulate_trace_outcome risk G st st1 r0 HG Htrace).
      * eapply simulate_trace_no_graph; [exact HG|exact Htrace].
Qed.

Lemma load_graph_spec (st st1 : state) (r : result unit) :
  load_graph st = (r, st1) ->
  st1 = set_sim_agent_G (memory_graph st) st
  /\ (r = Ok tt ->
      exists G, memory_graph st = Some G
                /\ number_of_nodes (graph_at G st) <> 0%nat).
Proof.
  unfold load_graph, mbind, M_bind, get_state, modify. simpl.
  destruct (memory_graph st) as [G|] eqn:Em.
  - unfold graph_at at 1. simpl. fold (graph_at G st).
    destruct (number_of_nodes (graph_at G st) =? 0)%nat eqn:Ez.
    + intros [= <- <-]. by split.
    + intros [= <- <-]. split; [done|]. intros _. exists G. split; [done|].
      by apply Nat.eqb_neq.
  - intros [= <- <-]. by split.
Qed.

Lemma py_max_fold_spec {A} (f : A -> Q) (l : list A) (m : Q) :
  let r := fold_left (fun m a => py_max m (f a)) l m in
  m <= r
  /\ Forall (fun a => f a <= r) l
  /\ (r = m \/ exists a, a ∈ l /\ r = f a).
Proof.
  revert m. induction l as [|a l IH]; intros m; simpl.
  { split; [lra|]. split; [constructor|by left]. }
  destruct (IH (py_max m (f a))) as (H1 & H2 & H3).
  set (r := fold_left _ l _) in *. clearbody r.
  destruct (py_max_cases m (f a)) as [[E Hle]|[E Hlt]]; rewrite E in *.
  - split; [done|]. split; [constructor; [lra|done]|].
    destruct H3 as [->|(b & Hb & ->)]; [by left|].
    right. exists b. split; [by apply list_elem_of_further|done].
  - split; [lra|]. split; [by constructor|].
    right. destruct H3 as [->|(b & Hb & ->)].
    + exists a. split; [apply list_elem_of_here|done].
    + exists b. split; [by apply list_elem_of_further|done].
Qed.

Lemma run_spec (risks : DecisionAgent.risk_result) (st st' : state)
    (r : result run_result) :
  run risks st = (r, st') ->
  Spec.unchanged st st'
  /\ forall res, r = Ok res ->
       Forall2 scenario_of (top_risks (default [] (DecisionAgent.risks_detected risks)))
         (scenarios res)
       /\ Forall (fun sc => 0 <= Scenario.estimated_delay_days sc
                            /\ has_decimals 1 (Scenario.estimated_delay_days sc))
            (scenarios res)
       /\ worst_case_delay_days res
          == py_round (fold_left (fun m sc => py_max m (Scenario.estimated_delay_days sc))
                         (scenarios res) 0) 1
       /\ (default [] (DecisionAgent.risks_detected risks) <> [] ->
           number_of_simulations res = Some (length (scenarios res))
           /\ worst_case_affected_nodes res
              = Some (size (list_to_set (Scenario.node_id <$> scenarios res)
                            : gset string))).
Proof.
  unfold run.
  destruct (default [] (DecisionAgent.risks_detected risks)) as [|risk0 rest] eqn:El.
  { intros [= <- <-]. split; [apply unchanged_refl|].
    intros res [= <-]. simpl. split; [constructor|]. split; [constructor|].
    split; [by vm_compute|done]. }
  set (l := risk0 :: rest) in *.
  unfold mbind, M_bind.
  destruct (load_graph st) as [[[]|e] st1] eqn:Eload.
  - apply load_graph_spec in Eload as [-> _].
    destruct (simulate_all (top_risks l) [] 0 ∅ _) as [[[[scs worst] total]|e] st2] eqn:Eall.
    + apply simulate_all_spec in Eall as (Hun & Hout).
      intros [= <- <-]. split; [exact Hun|].
      intros res [= <-]. simpl.
      destruct (Hout _ eq_refl) as (new & [= -> -> ->] & Hall & Hdelays).
      split; [done|]. split; [done|]. split; [reflexivity|].
      intros _. split; [done|]. by rewrite (left_id_L ∅ (∪)).
    + apply simulate_all_spec in Eall as (Hun & _).
      intros [= <- <-]. by split.
  - apply load_graph_spec in Eload as [-> _].
    intros [= <- <-]. split; [|done].
    unfold Spec.unchanged. simpl. by rewrite !firstn_all.
Qed.

(** [SimulationAgent.run] leaves every object that existed before the
    call unchanged, graphs and attribute dictionaries alike, and the
    graph entry of the memory, whatever it returns or raises. *)
Theorem simulation_run_unchanged (risks : DecisionAgent.risk_result) (st : state) :
  Spec.unchanged st (run risks st).2.
Proof.
  destruct (run risks st) as [r st'] eqn:E. simpl.
  by apply run_spec in E as [H _].
Qed.

Lemma take_StronglySorted {A} (R : A -> A -> Prop) (n : nat) (l : list A) :
  StronglySorted R l -> StronglySorted R (take n l).
Proof.
  intros H. revert n. induction H as [|x l Hl IH Hx]; intros [|n]; simpl;
    try constructor; [apply IH|].
  by apply Forall_take.
Qed.

Lemma by_risk_score_total (x y : Risk.t) :
  by_risk_score x y = false -> by_risk_score y x = true.
Proof. unfold by_risk_score. intros H%Qgeb_lt. apply Qgeb_ge. lra. Qed.

Lemma by_risk_score_trans (x y z : Risk.t) :
  by_risk_score x y = true -> by_risk_score y z = true -> by_risk_score x z = true.
Proof. unfold by_risk_score. intros H1%Qgeb_ge H2%Qgeb_ge. apply Qgeb_ge. lra. Qed.

Lemma Forall2_sorted (risks : list Risk.t) (scs : list Scenario.t) :
  Forall2 scenario_of risks scs ->
  StronglySorted (fun a b => Risk.risk_score b <= Risk.risk_score a) risks ->
  StronglySorted (fun a b => Scenario.severity_used b <= Scenario.severity_used a) scs.
Proof.
  induction 1 as [|risk sc risks scs [_ Hs] Hall IH]; [constructor|].
  intros [Hsorted Hhd]%StronglySorted_inv. constructor; [by apply IH|].
  rewrite Hs. clear IH Hsorted.
  induction Hall as [|risk' sc' risks scs [_ Hs'] Hall IH]; [constructor|].
  apply Forall_cons in Hhd as [Hle Hhd]. constructor; [by rewrite Hs'|by apply IH].
Qed.

(** When [SimulationAgent.run] returns, its scenarios are those of the
    five risks of highest score (of all of them if there are fewer), one
    each and in that order: non-increasing severity. *)
Theorem simulation_run_top_risks (risks : DecisionAgent.risk_result) (st st' : state)
    (res : run_result) :
  run risks st = (Ok res, st') ->
  let risk_list := default [] (DecisionAgent.risks_detected risks) in
  Forall2 scenario_of (take 5 (sort_desc by_risk_score risk_list)) (scenarios res)
  /\ length (scenarios res) = (5 `min` length risk_list)%nat
  /\ StronglySorted (fun a b => Scenario.severity_used b <= Scenario.severity_used a)
       (scenarios res).
Proof.
  intros [_ Hres]%run_spec. cbv zeta.
  destruct (Hres res eq_refl) as (Hall & _).
  set (l := default [] (DecisionAgent.risks_detected risks)) in *.
  split; [exact Hall|]. split.
  - apply Forall2_length in Hall. rewrite <- Hall. unfold top_risks.
    by rewrite length_take, (sort_desc_perm by_risk_score l).
  - eapply Forall2_sorted; [exact Hall|]. unfold top_risks.
    apply take_StronglySorted.
    eapply StronglySorted_mono;
      [|apply (sort_desc_sorted by_risk_score by_risk_score_total by_risk_score_trans)].
    intros a b. unfold by_risk_score. by rewrite Qgeb_ge.
Qed.

(** When [SimulationAgent.run] returns, [worst_case_delay_days] is the
    largest delay among its scenarios: no scenario has a larger one, and
    one of them has it (it is 0 when there is no scenario). *)
Theorem simulation_run_worst_delay (risks : DecisionAgent.risk_result) (st st' : state)
    (res : run_result) :
  run risks st = (Ok res, st') ->
  Forall (fun sc => Scenario.estimated_delay_days sc <= worst_case_delay_days res)
    (scenarios res)
  /\ (worst_case_delay_days res == 0
      \/ exists sc, sc ∈ scenarios res
           /\ worst_case_delay_days res == Scenario.estimated_delay_days sc).
Proof.
  intros [_ Hres]%run_spec.
  destruct (Hres res eq_refl) as (_ & Hdelays & Hworst & _).
  pose proof (py_max_fold_spec Scenario.estimated_delay_days (scenarios res) 0)
    as (Hlow & Hup & Hmax). cbv zeta in *.
  set (m := fold_left _ (scenarios res) 0) in *. clearbody m.
  assert (Hm : worst_case_delay_days res == m).
  { rewrite Hworst. destruct Hmax as [->|(sc & Hsc & ->)]; [by vm_compute|].
    rewrite Forall_forall in Hdelays. apply py_round_decimals.
    by apply Hdelays. }
  split.
  - eapply Forall_impl; [exact Hup|]. intros sc Hsc. simpl in Hsc. by rewrite Hm.
  - destruct Hmax as [->|(sc & Hsc & ->)]; [by left|].
    right. by exists sc.
Qed.

Lemma simulation_run_top_risks_witness :
  let res := match (run (DecisionAgent.RiskResult
                           (Some [Sample.moderate_risk; Sample.severe_risk]))
                      Sample.built).1 with
             | Ok res => res
             | Raise _ => RunResult [] 0 None None
             end in
  length (scenarios res) = 2%nat.
Proof.
  cbv zeta.
  destruct (run (DecisionAgent.RiskResult (Some [Sample.moderate_risk; Sample.severe_risk]))
              Sample.built) as [r st'] eqn:E.
  assert (Hok : exists res, r = Ok res).
  { assert (Hr : r = (run (DecisionAgent.RiskResult
                             (Some [Sample.moderate_risk; Sample.severe_risk]))
                        Sample.built).1) by (rewrite E; reflexivity).
    rewrite Hr. vm_compute. eexists. reflexivity. }
  destruct Hok as [res ->]. simpl.
  exact (proj1 (proj2 (simulation_run_top_risks _ _ _ _ E))).
Defined.

Lemma simulation_run_worst_delay_witness :
  let res := match (run (DecisionAgent.RiskResult
                           (Some [Sample.moderate_risk; Sample.severe_risk]))
                      Sample.built).1 with
             | Ok res => res
             | Raise _ => RunResult [] 0 None None
             end in
  Forall (fun sc => Scenario.estimated_delay_days sc <= worst_case_delay_days res)
    (scenarios res).
Proof.
  cbv zeta.
  destruct (run (DecisionAgent.RiskResult (Some [Sample.moderate_risk; Sample.severe_risk]))
              Sample.built) as [r st'] eqn:E.
  assert (Hok : exists res, r = Ok res).
  { assert (Hr : r = (run (DecisionAgent.RiskResult
                             (Some [Sample.moderate_risk; Sample.severe_risk]))
                        Sample.built).1) by (rewrite E; reflexivity).
    rewrite Hr. vm_compute. eexists. reflexivity. }
  destruct Hok as [res ->]. simpl.
  exact (proj1 (simulation_run_worst_delay _ _ _ _ E)).
Defined.

Lemma unchanged_sound (G : nat) (st st' : state) :
  Spec.graph_ok G st -> Spec.unchanged st st' ->
  Spec.graph_ok G st' /\ graph_at G st' = graph_at G st.
Proof.
  intros (HG & Hrefs & Hclosed) Hun.
  pose proof (unchanged_graph G st st' Hun HG) as Hgraph.
  destruct Hun as (Hd & Hg & _).
  apply (f_equal length) in Hd. apply (f_equal length) in Hg.
  rewrite length_take in Hd. rewrite length_take in Hg.
  split; [|done]. split; [lia|]. rewrite Hgraph. split; [|done].
  eapply map_Forall_impl; [exact Hrefs|]. simpl. intros; lia.
Qed.

Lemma unchanged_attrs (P : pydict -> Prop) (G : nat) (st st' : state) :
  Spec.graph_ok G st -> Spec.unchanged st st' ->
  Attrs.all P G st -> Attrs.all P G st'.
Proof.
  intros Hok Hun Hall n r. destruct (unchanged_sound G st st' Hok Hun) as [_ ->].
  intros Hr. rewrite (unchanged_dict r st st' Hun); [by apply (Hall n r)|].
  destruct Hok as (_ & Hrefs & _). by apply (Hrefs n r).
Qed.

Lemma simulate_all_returns (G : nat) (risks : list Risk.t) :
  forall (scs : list Scenario.t) (worst : Q) (total : gset string) (st : state),
    sim_agent_G st = Some G ->
    Spec.graph_ok G st ->
    Attrs.all Attrs.numeric_capacity G st ->
    Forall (fun risk => has_node (graph_at G st) (Risk.node_id risk) = true) risks ->
    exists out st', simulate_all risks scs worst total st = (Ok out, st').
Proof.
  induction risks as [|risk rest IH]; intros scs worst total st Hs Hok Hnum Hnodes; simpl.
  { by eexists _, _. }
  apply Forall_cons in Hnodes as [Hnode Hrest].
  assert (HG : Spec.canonical_of st = Some G) by (unfold Spec.canonical_of; by rewrite Hs).
  destruct (simulate_trace_returns risk G st HG) as (t & st1 & Htrace).
  { split; [done|]. right. split; [done|]. intros r0 s Hr0. by apply (Hnum (Risk.node_id risk) r0). }
  destruct (simulate_trace_outcome risk G st st1 (Ok t) HG Htrace) as (Hun & Hsim & _).
  destruct (Hsim t eq_refl) as (_ & _ & Hs1 & _).
  destruct (unchanged_sound G st st1 Hok Hun) as [Hok1 Hgraph].
  unfold mbind, M_bind, simulate_single_risk. unfold mbind, M_bind. rewrite Htrace.
  simpl. apply IH; [done|done| |by rewrite Hgraph].
  exact (unchanged_attrs _ G st st1 Hok Hun Hnum).
Qed.

Lemma run_returns_aux (risks : DecisionAgent.risk_result) (G : nat)
    (st : state) :
  memory_graph st = Some G ->
  Spec.graph_ok G st ->
  Attrs.all Attrs.numeric_capacity G st ->
  Forall (fun risk => has_node (graph_at G st) (Risk.node_id risk) = true)
    (default [] (DecisionAgent.risks_detected risks)) ->
  exists res st', run risks st = (Ok res, st').
Proof.
  intros Hm Hok Hnum Hnodes. unfold run.
  destruct (default [] (DecisionAgent.risks_detected risks)) as [|risk0 rest] eqn:El.
  { by eexists _, _. }
  set (l := risk0 :: rest) in *.
  assert (Hload : load_graph st = (Ok tt, set_sim_agent_G (Some G) st)).
  { unfold load_graph, mbind, M_bind, get_state, modify. simpl. rewrite Hm.
    unfold graph_at at 1. simpl. fold (graph_at G st).
    apply Forall_cons in Hnodes as [Hnode _].
    apply has_node_nonempty, Nat.eqb_neq in Hnode. by rewrite Hnode. }
  unfold mbind, M_bind. rewrite Hload.
  destruct (simulate_all_returns G (top_risks l) [] 0 ∅ (set_sim_agent_G (Some G) st))
    as ([[scs worst] total] & st' & Hall); [done|done|done| |].
  { apply Forall_forall. intros risk Hin.
    rewrite Forall_forall in Hnodes. apply Hnodes.
    unfold top_risks in Hin. apply elem_of_take in Hin as (i & Hin & _).
    apply list_elem_of_lookup_2 in Hin.
    by rewrite (sort_desc_perm by_risk_score l) in Hin. }
  rewrite Hall. by eexists _, _.
Qed.

(** [SimulationAgent.run] returns whenever the graph in the memory is
    sound, the capacity of every node that has one is a number, and the
    node of every risk is in the graph. *)
Theorem simulation_run_returns (risks : DecisionAgent.risk_result) (G : nat)
    (st : state) :
  memory_graph st = Some G ->
  Spec.graph_ok G st ->
  Attrs.all Attrs.numeric_capacity G st ->
  Forall (fun risk => has_node (graph_at G st) (Risk.node_id risk) = true)
    (default [] (DecisionAgent.risks_detected risks)) ->
  exists res st', run risks st = (Ok res, st').
Proof.
  apply run_returns_aux.
Qed.

Lemma simulation_run_returns_witness :
  exists res st',
    run (DecisionAgent.RiskResult (Some [Sample.moderate_risk; Sample.severe_risk]))
      Sample.built = (Ok res, st').
Proof.
  destruct built_sound as (Hm & Hok & Hall).
  apply (simulation_run_returns _ 0 Sample.built Hm Hok (complete_numeric _ _ Hall)).
  apply Forall_cons; split; [vm_compute; reflexivity|].
  apply Forall_cons; split; [vm_compute; reflexivity|]. apply Forall_nil_2.
Defined.

End SimulationRunFacts.

(** ** The cycle *)

Section CycleFacts.
Import Num Nx RiskAgent RiskDetection.










Lemma risk_run_count (news_items : list News.t) (st : state) (res : run_result) :
  RiskDetection.run news_items st = Done res ->
  (length (risks_detected res) <= default 0 (total_risks_found res))%nat.
Proof.
  unfold RiskDetection.run.
  destruct (memory_graph st) as [G|]; [|by intros [= <-]].
  destruct (_ =? _)%nat; [by intros [= <-]|].
  destruct (scan G st news_items [] 0.0) as [[all_risks max_sev]|]; simpl; [|done].
  intros [= <-]. simpl. lia.
Qed.

(** A cycle that succeeds makes at most five decisions, and no more
    than there are risks; its summary counts the suppliers and the news
    items it was given. *)
Theorem cycle_at_most_five_decisions (G : nat) (suppliers : list Supplier.t)
    (news_items : list News.t) (st st' : state) (s : Orchestrator.summary) :
  Orchestrator.run_single_cycle G suppliers news_items st = (Orchestrator.Success s, st') ->
  (Orchestrator.decisions_count s <= 5)%nat
  /\ (Orchestrator.decisions_count s <= Orchestrator.risks_detected s)%nat
  /\ Orchestrator.suppliers s = length suppliers
  /\ Orchestrator.news_items s = length news_items.
Proof.
  unfold Orchestrator.run_single_cycle.
  destruct (GraphAgent.run G suppliers st) as [[gres|] st1]; [|done].
  destruct (RiskDetection.run news_items st1) as [rres|] eqn:Erisk; [|done].
  destruct (SimulationRun.run _ st1) as [[sres|] st2] eqn:Esim; [|done].
  destruct (decision_run_shape (Some (to_risk_result rres))
              (Some (SimulationRun.to_simulation_result sres)))
    as (dres & ds & -> & Hall & _ & Hcount & _).
  intros [= <- <-]. simpl.
  apply run_spec in Esim as [_ Hsim].
  destruct (Hsim sres eq_refl) as (Hscs & _).
  apply Forall2_length in Hscs. apply Forall2_length in Hall.
  simpl in Hall, Hscs.
  pose proof (omap_length_le
    (fun sim => (fun risk => (risk, sim))
       <$> List.find (fun r => bool_decide (Risk.node_id r = Scenario.node_id sim))
             (risk <$> risks_detected rres))
    (SimulationRun.scenarios sres)) as Hle.
  unfold Actions.matched in Hall.
  unfold SimulationRun.top_risks in Hscs.
  rewrite length_take, (sort_desc_perm SimulationRun.by_risk_score), length_fmap in Hscs.
  pose proof (risk_run_count _ _ _ Erisk).
  split; [lia|]. split; [lia|]. done.
Qed.

Lemma cycle_at_most_five_decisions_witness :
  let out := Orchestrator.run_single_cycle 0 Sample.roster
               [Sample.titled_quake; Sample.strike_and_flood]
               (set_graphs [MkDiGraph ∅ ∅] Sample.boot) in
  match out.1 with
  | Orchestrator.Success s => (Orchestrator.decisions_count s <= 5)%nat
  | Orchestrator.Error => False
  end.
Proof.
  cbv zeta.
  destruct (Orchestrator.run_single_cycle 0 Sample.roster
              [Sample.titled_quake; Sample.strike_and_flood]
              (set_graphs [MkDiGraph ∅ ∅] Sample.boot)) as [r st'] eqn:E.
  assert (Hok : exists s, r = Orchestrator.Success s).
  { assert (Hr : r = (Orchestrator.run_single_cycle 0 Sample.roster
                        [Sample.titled_quake; Sample.strike_and_flood]
                        (set_graphs [MkDiGraph ∅ ∅] Sample.boot)).1)
      by (rewrite E; reflexivity).
    rewrite Hr. vm_compute. eexists. reflexivity. }
  destruct Hok as [s ->]. simpl.
  exact (proj1 (cycle_at_most_five_decisions _ _ _ _ _ _ E)).
Defined.



(** With an empty roster and a graph without nodes, as in the first
    cycle of an orchestrator whose supplier file could not be read, the
    cycle ends with status "error", whatever the news: [GraphAgent.run]
    raises [KeyError] on the statistics of the empty graph. *)
Theorem cycle_empty_roster_error (G : nat) (news_items : list News.t) (st : state) :
  number_of_nodes (graph_at G st) = 0%nat ->
  Orchestrator.run_single_cycle G [] news_items st = (Orchestrator.Error, st).
Proof.
  intros Hz. unfold Orchestrator.run_single_cycle, GraphAgent.run.
  unfold GraphAgent.build_graph_from_suppliers, GraphAgent.get_graph_stats.
  unfold mbind, M_bind, mret, M_ret, get_state. simpl. by rewrite Hz.
Qed.

Lemma cycle_empty_roster_error_witness :
  Orchestrator.run_single_cycle 0 [] [Sample.titled_quake]
    (set_graphs [MkDiGraph ∅ ∅] Sample.boot)
  = (Orchestrator.Error, set_graphs [MkDiGraph ∅ ∅] Sample.boot).
Proof.
  apply (cycle_empty_roster_error 0 [Sample.titled_quake]
           (set_graphs [MkDiGraph ∅ ∅] Sample.boot)).
  vm_compute. reflexivity.
Defined.

End CycleFacts.
